(** * ShiftSync: constraint engine, shift mutations and swap/drop workflow

    A shallow embedding of the scheduling core of the repository:

    - [src/lib/constraints.ts]: the interval helpers and [validateAssignment]
      with its individual checks;
    - [src/app/schedules/[locationId]/actions.ts]: [createShift],
      [updateShift], [deleteShift], [publishShift], [unpublishShift];
    - [src/app/schedules/[locationId]/assignment-actions.ts]:
      [assignStaffToShift], [unassignStaffFromShift];
    - [src/app/my-shifts/actions.ts]: [pickUpShift];
    - [src/app/my-shifts/swap-actions.ts]: [createSwapRequest],
      [createDropRequest], the staff-side [cancelSwapRequest] and
      [getEligibleStaffForSwap];
    - [src/app/swap-requests/actions.ts]: [approveSwapRequest], the
      lock-guarded [cancelSwapRequest], [denySwapRequest],
      [acceptSwapAsTarget], [declineSwapAsTarget] and the lazy
      [expireOldDropRequests];
    - [src/app/settings/actions.ts]: [saveAvailabilityRule],
      [saveAvailabilityException];
    - [src/app/overtime/actions.ts]: [analyzeAssignmentImpact].

    Modelling conventions.

    - A table is the list of its rows; a query is a [filter] over it, an
      inner join a [flat_map].  Primary keys ([defaultRandom()] uuids) are
      strings; where a statement needs the primary-key constraint it is an
      explicit [NoDup] hypothesis.
    - A [time] column holds a zero-padded "HH:MM" text.  It is modelled by
      its two numeric fields; [toMinutes] is [h * 60 + m] and the textual
      comparison [endTime <= startTime] is the lexicographic order of the
      two fields.
    - A [date] column is a day number (days since 1970-01-01);
      [new Date(date + 'T00:00:00').getTime()] is that day number times
      86_400_000, i.e. the server runs on a clock without daylight-saving
      shifts (UTC).
    - A JavaScript number that is the quotient of two integers is kept as
      the exact rational; it is compared with integer thresholds as such
      (the correctly rounded quotient lies on the same side).  Where the
      program goes on computing with such quotients - the hours the engine
      sums per day and per week - they are IEEE-754 double-precision
      values: [toDouble] rounds the quotient, [fadd] adds with rounding to
      nearest-even.  The overtime preview of [overtime/actions.ts] is
      embedded for the rows it sums; its totals are written with exact
      rationals.
    - A value a column or a foreign key refuses makes its statement fail:
      [time] columns take 00:00 to 23:59 and 24:00, [integer] columns
      signed 32-bit values.  Ids stand for uuids and a [Date] for a
      calendar day.  The session user is the row of [users] that
      [getUser] read, so foreign keys on the session user's id hold.
    - A server action runs sequentially against a [World]: the tables
      plus the trace of transaction primitives it has issued.
    - The [notifications] and [audit_logs] tables are written only by the
      fire-and-forget collaborators and never read by the operations below;
      they are not part of the store. *)

From Stdlib Require Import ZArith List Bool Lia String Ascii QArith SpecFloat.
Import ListNotations.

#[local] Close Scope Q_scope.
#[local] Open Scope string_scope.
#[local] Open Scope list_scope.
#[local] Open Scope Z_scope.

Set Implicit Arguments.

(* ------------------------------------------------------------------ *)
(** * Primitive data *)

Definition Id := string.

Definition id_eqb (a b : Id) : bool := String.eqb a b.

(** The [time] column: "HH:MM". *)
Record Time := mkTime { hour : Z; minute : Z }.

(** The [date] column: days since 1970-01-01. *)
Definition Date := Z.

Inductive DayOfWeek := SUN | MON | TUE | WED | THU | FRI | SAT.

Definition DayOfWeek_eqb (a b : DayOfWeek) : bool :=
  match a, b with
  | SUN, SUN | MON, MON | TUE, TUE | WED, WED
  | THU, THU | FRI, FRI | SAT, SAT => true
  | _, _ => false
  end.

Inductive Role := ADMIN | MANAGER | STAFF.

Definition Role_eqb (a b : Role) : bool :=
  match a, b with
  | ADMIN, ADMIN | MANAGER, MANAGER | STAFF, STAFF => true
  | _, _ => false
  end.

Inductive SwapType := SWAP | DROP.

Inductive SwapStatus :=
  PENDING | APPROVED | DENIED | CANCELLED | ACCEPTED_BY_TARGET.

Definition SwapStatus_eqb (a b : SwapStatus) : bool :=
  match a, b with
  | PENDING, PENDING | APPROVED, APPROVED | DENIED, DENIED
  | CANCELLED, CANCELLED | ACCEPTED_BY_TARGET, ACCEPTED_BY_TARGET => true
  | _, _ => false
  end.

(** A double-precision number. *)
Definition double := spec_float.

(** A template literal: the text pieces in order.  [Fixed1 x] and
    [FixedDouble1 x] stand for [x.toFixed(1)], [ShowDate d] and [ShowTime t]
    for the interpolated column texts. *)
Inductive Piece :=
| Lit (s : string)
| Fixed1 (x : Q)
| FixedDouble1 (x : double)
| ShowDate (d : Date)
| ShowTime (t : Time).

Definition Message := list Piece.

(** [Array.prototype.join(sep)] on messages. *)
Fixpoint join (sep : string) (ms : list Message) : Message :=
  match ms with
  | [] => []
  | [m] => m
  | m :: rest => m ++ Lit sep :: join sep rest
  end.

(* ------------------------------------------------------------------ *)
(** * Rows of the schema ([src/db/schema.ts]) *)

Module Shift.
Record t := mk {
  id : Id;
  locationId : Id;
  date : Date;
  startTime : Time;
  endTime : Time;
  skillId : Id;
  headcount : Z;
  isPublished : bool;
  publishedAt : option Z;
  version : Z;
  createdBy : Id;
  updatedAt : Z
}.
End Shift.

Module ShiftAssignment.
Record t := mk {
  id : Id;
  shiftId : Id;
  staffId : Id;
  assignedBy : Id;
  assignedAt : Z
}.
End ShiftAssignment.

Module SwapRequest.
Record t := mk {
  id : Id;
  shiftAssignmentId : Id;
  requestedBy : Id;
  type : SwapType;
  targetStaffId : option Id;
  status : SwapStatus;
  reviewedBy : option Id;
  reviewedAt : option Z;
  reviewNotes : option string;
  updatedAt : Z
}.
End SwapRequest.

Module AvailabilityRule.
Record t := mk {
  staffId : Id;
  dayOfWeek : DayOfWeek;
  startTime : Time;
  endTime : Time
}.
End AvailabilityRule.

Module AvailabilityException.
Record t := mk {
  staffId : Id;
  date : Date;
  isAvailable : bool;
  startTime : option Time;
  endTime : option Time;
  reason : option string
}.
End AvailabilityException.

Module StaffSkill.
Record t := mk { staffId : Id; skillId : Id }.
End StaffSkill.

Module StaffLocationCert.
Record t := mk { staffId : Id; locationId : Id }.
End StaffLocationCert.

Module User.
Record t := mk { id : Id; name : string; role : Role }.
End User.

(** The store: the tables the scheduling core reads and writes.  Of the
    [locations] and [skills] tables only the primary keys are kept: they are
    read only by the foreign keys of [shifts]. *)
Record DB := mkDB {
  locations : list Id;
  skills : list Id;
  users : list User.t;
  shifts : list Shift.t;
  shiftAssignments : list ShiftAssignment.t;
  swapRequests : list SwapRequest.t;
  staffSkills : list StaffSkill.t;
  staffLocationCerts : list StaffLocationCert.t;
  availabilityRules : list AvailabilityRule.t;
  availabilityExceptions : list AvailabilityException.t
}.

(* ------------------------------------------------------------------ *)
(** * Time and interval helpers ([constraints.ts], lines 35-83) *)

Definition toMinutes (time : Time) : Z := hour time * 60 + minute time.

(** [a <= b] on two "HH:MM" texts. *)
Definition time_leb (a b : Time) : bool :=
  (hour a <? hour b) || ((hour a =? hour b) && (minute a <=? minute b)).

Definition isOvernightShift (startTime endTime : Time) : bool :=
  time_leb endTime startTime.

(** [mins / 60] as the exact quotient; the number the program goes on to
    add is [toDouble] of it. *)
Definition shiftDurationHours (startTime endTime : Time) : Q :=
  let mins := toMinutes endTime - toMinutes startTime in
  let mins := if mins <=? 0 then mins + 24 * 60 else mins in
  (inject_Z mins / inject_Z 60)%Q.

Definition absoluteRange (startTime endTime : Time) : Z * Z :=
  let s := toMinutes startTime in
  let e := toMinutes endTime in
  let e := if e <=? s then e + 24 * 60 else e in
  (s, e).

(** [new Date(date + 'T00:00:00').getTime()], in milliseconds. *)
Definition dateBase (date : Date) : Z := date * 86400000.

(** [Date.prototype.getDay()]: 0 is Sunday; day 0 was a Thursday. *)
Definition getDay (date : Date) : Z := (date + 4) mod 7.

Definition DAY_NAMES (idx : Z) : string :=
  match idx with
  | 0 => "Sunday" | 1 => "Monday" | 2 => "Tuesday" | 3 => "Wednesday"
  | 4 => "Thursday" | 5 => "Friday" | _ => "Saturday"
  end.

Definition DAY_ENUMS (idx : Z) : DayOfWeek :=
  match idx with
  | 0 => SUN | 1 => MON | 2 => TUE | 3 => WED
  | 4 => THU | 5 => FRI | _ => SAT
  end.

Definition getDayInfo (date : Date) : string * DayOfWeek :=
  let idx := getDay date in (DAY_NAMES idx, DAY_ENUMS idx).

Definition addDays (date : Date) (n : Z) : Date := date + n.

(** Double-precision arithmetic: 53 bits of precision, exponents up to
    1024, rounding to nearest-even. *)
Definition ofInt (z : Z) : double := binary_normalize 53 1024 z 0 false.

Definition fadd (x y : double) : double := SFadd 53 1024 x y.
Definition fsub (x y : double) : double := SFsub 53 1024 x y.
Definition fdiv (x y : double) : double := SFdiv 53 1024 x y.

(** [x > y] and [x >= y]; false when either side is NaN. *)
Definition fgtb (x y : double) : bool := SFltb y x.
Definition fgeb (x y : double) : bool := SFleb y x.

(** The double a quotient of two integers evaluates to. *)
Definition toDouble (q : Q) : double :=
  fdiv (ofInt (Qnum q)) (ofInt (Z.pos (Qden q))).

(** Comparisons of JavaScript numbers that hold hours. *)
Definition Qgtb (x y : Q) : bool := negb (Qle_bool x y).
Definition Qltb (x y : Q) : bool := negb (Qle_bool y x).
Definition Qgeb (x y : Q) : bool := Qle_bool y x.

(* ------------------------------------------------------------------ *)
(** * The constraint engine ([constraints.ts]) *)

Inductive Severity := error | warning.

Definition Severity_eqb (a b : Severity) : bool :=
  match a, b with
  | error, error | warning, warning => true
  | _, _ => false
  end.

Record ConstraintViolation := mkViolation {
  type : Severity;
  code : string;
  message : Message
}.

Record AssignmentValidationResult := mkValidation {
  valid : bool;
  violations : list ConstraintViolation;
  suggestions : option (list Message)
}.

Module ShiftData.
Record t := mk {
  id : Id;
  locationId : Id;
  date : Date;
  startTime : Time;
  endTime : Time;
  skillId : Id
}.
End ShiftData.

Record Availability := mkAvailability {
  available : bool;
  reason : option Message
}.

(** [xs.length > 0] *)
Definition nonEmpty {A : Type} (xs : list A) : bool :=
  match xs with [] => false | _ :: _ => true end.

(** [s || dflt] for a nullable text column. *)
Definition orDefault (s : option string) (dflt : string) : string :=
  match s with
  | Some v => if (v =? "")%string then dflt else v
  | None => dflt
  end.

(** [shiftAssignments INNER JOIN shifts ON shiftAssignments.shiftId = shifts.id] *)
Definition assignmentsWithShifts (db : DB) : list (ShiftAssignment.t * Shift.t) :=
  flat_map
    (fun a =>
       map (fun s => (a, s))
           (filter (fun s => id_eqb (ShiftAssignment.shiftId a) (Shift.id s))
                   (shifts db)))
    (shiftAssignments db).

(** The shifts a staff member is assigned to. *)
Definition shiftsOfStaff (db : DB) (staffId : Id) : list Shift.t :=
  map snd
      (filter (fun r => id_eqb (ShiftAssignment.staffId (fst r)) staffId)
              (assignmentsWithShifts db)).

Definition checkSkillMatch (db : DB) (staffId skillId : Id) : bool :=
  nonEmpty
    (filter (fun r => id_eqb (StaffSkill.staffId r) staffId
                      && id_eqb (StaffSkill.skillId r) skillId)
            (staffSkills db)).

Definition checkLocationCertification (db : DB) (staffId locationId : Id) : bool :=
  nonEmpty
    (filter (fun r => id_eqb (StaffLocationCert.staffId r) staffId
                      && id_eqb (StaffLocationCert.locationId r) locationId)
            (staffLocationCerts db)).

(** The availability exceptions of a staff member on one date. *)
Definition exceptionsOn (db : DB) (staffId : Id) (date : Date)
  : list AvailabilityException.t :=
  filter (fun e => id_eqb (AvailabilityException.staffId e) staffId
                   && (AvailabilityException.date e =? date))
         (availabilityExceptions db).

(** The loop over exceptions: the first [isAvailable = false] row decides. *)
Fixpoint blockedBy (exceptions : list AvailabilityException.t) (dflt : string)
  : option Availability :=
  match exceptions with
  | [] => None
  | exception :: rest =>
      if negb (AvailabilityException.isAvailable exception)
      then Some {| available := false;
                   reason := Some [Lit (orDefault (AvailabilityException.reason exception) dflt)] |}
      else blockedBy rest dflt
  end.

(** The recurring rules of a staff member for one day of the week. *)
Definition rulesFor (db : DB) (staffId : Id) (dayEnum : DayOfWeek)
  : list AvailabilityRule.t :=
  filter (fun r => id_eqb (AvailabilityRule.staffId r) staffId
                   && DayOfWeek_eqb (AvailabilityRule.dayOfWeek r) dayEnum)
         (availabilityRules db).

(** The test inside the loop over rules. *)
Definition ruleContains (rule : AvailabilityRule.t) (needStart needEnd : Z) : bool :=
  let ruleStart := toMinutes (AvailabilityRule.startTime rule) in
  let ruleEnd := toMinutes (AvailabilityRule.endTime rule) in
  (needStart >=? ruleStart) && (needEnd <=? ruleEnd).

Definition checkSingleDayAvailability
  (db : DB) (staffId : Id) (date : Date) (startTime endTime : Time) : Availability :=
  let '(dayName, dayEnum) := getDayInfo date in
  let rules := rulesFor db staffId dayEnum in
  if (List.length rules =? 0)%nat then
    {| available := false;
       reason := Some [Lit "Staff has no availability set for "; Lit dayName] |}
  else
    let needStart := toMinutes startTime in
    let needEnd := toMinutes endTime in
    if existsb (fun rule => ruleContains rule needStart needEnd) rules then
      {| available := true; reason := None |}
    else
      {| available := false;
         reason := Some [Lit "Shift time ("; ShowTime startTime; Lit "-";
                         ShowTime endTime;
                         Lit ") falls outside staff availability on "; Lit dayName] |}.

Definition checkAvailability
  (db : DB) (staffId : Id) (date : Date) (startTime endTime : Time) : Availability :=
  match blockedBy (exceptionsOn db staffId date)
                  "Staff marked as unavailable on this date" with
  | Some blocked => blocked
  | None =>
      let overnight := isOvernightShift startTime endTime in
      if negb overnight then
        checkSingleDayAvailability db staffId date startTime endTime
      else
        let day1 := checkSingleDayAvailability db staffId date startTime (mkTime 23 59) in
        if negb (available day1) then
          {| available := false;
             reason := Some [Lit "Overnight shift starts at "; ShowTime startTime;
                             Lit " but staff availability on "; Lit (fst (getDayInfo date));
                             Lit " does not cover that time"] |}
        else
          let nextDate := addDays date 1 in
          match blockedBy (exceptionsOn db staffId nextDate)
                  "Staff marked as unavailable on the next date (overnight shift spans two days)" with
          | Some blocked => blocked
          | None =>
              let day2 := checkSingleDayAvailability db staffId nextDate (mkTime 0 0) endTime in
              if negb (available day2) then
                {| available := false;
                   reason := Some [Lit "Overnight shift ends at "; ShowTime endTime;
                                   Lit " but staff availability on ";
                                   Lit (fst (getDayInfo nextDate));
                                   Lit " does not cover that time"] |}
              else {| available := true; reason := None |}
          end
  end.

(** Absolute start and end of a shift in milliseconds. *)
Definition absStart (date : Date) (startTime endTime : Time) : Z :=
  dateBase date + fst (absoluteRange startTime endTime) * 60000.

Definition absEnd (date : Date) (startTime endTime : Time) : Z :=
  dateBase date + snd (absoluteRange startTime endTime) * 60000.

Definition checkShiftOverlap (db : DB) (staffId : Id) (newShift : ShiftData.t) : bool :=
  let overnight := isOvernightShift (ShiftData.startTime newShift) (ShiftData.endTime newShift) in
  let datesToCheck :=
    [ShiftData.date newShift]
      ++ (if overnight then [addDays (ShiftData.date newShift) 1] else [])
      ++ [addDays (ShiftData.date newShift) (-1)] in
  let assignments :=
    filter (fun s => existsb (Z.eqb (Shift.date s)) datesToCheck
                     && negb (id_eqb (Shift.id s) (ShiftData.id newShift)))
           (shiftsOfStaff db staffId) in
  let newAbsStart := absStart (ShiftData.date newShift) (ShiftData.startTime newShift) (ShiftData.endTime newShift) in
  let newAbsEnd := absEnd (ShiftData.date newShift) (ShiftData.startTime newShift) (ShiftData.endTime newShift) in
  existsb
    (fun s =>
       let existingAbsStart := absStart (Shift.date s) (Shift.startTime s) (Shift.endTime s) in
       let existingAbsEnd := absEnd (Shift.date s) (Shift.startTime s) (Shift.endTime s) in
       (newAbsStart <? existingAbsEnd) && (existingAbsStart <? newAbsEnd))
    assignments.

(** Milliseconds to hours: [ms / (1000 * 60 * 60)].  The dividend is an
    integer, so comparing the floating-point quotient with 0, 10, 24 or 48
    gives the same answer as comparing the exact quotient. *)
Definition msToHours (ms : Z) : Q := (inject_Z ms / inject_Z (1000 * 60 * 60))%Q.

(** The rows [check10HourRest] reads: the staff member's shifts dated the day
    before, the same day, the day after and two days after. *)
Definition adjacentAssignments (db : DB) (staffId : Id) (date : Date) : list Shift.t :=
  let dayBefore := addDays date (-1) in
  let dayAfter := addDays date 1 in
  let dayAfter2 := addDays date 2 in
  filter (fun s => (Shift.date s =? dayBefore) || (Shift.date s =? date)
                   || (Shift.date s =? dayAfter) || (Shift.date s =? dayAfter2))
         (shiftsOfStaff db staffId).

Definition hoursAfterExisting (newShift : ShiftData.t) (s : Shift.t) : Q :=
  msToHours (absStart (ShiftData.date newShift) (ShiftData.startTime newShift) (ShiftData.endTime newShift)
             - absEnd (Shift.date s) (Shift.startTime s) (Shift.endTime s)).

Definition hoursBeforeExisting (newShift : ShiftData.t) (s : Shift.t) : Q :=
  msToHours (absStart (Shift.date s) (Shift.startTime s) (Shift.endTime s)
             - absEnd (ShiftData.date newShift) (ShiftData.startTime newShift) (ShiftData.endTime newShift)).

(** The loop of [check10HourRest] over the adjacent assignments. *)
Fixpoint restLoop (newShift : ShiftData.t) (rows : list Shift.t) : option Message :=
  match rows with
  | [] => None
  | s :: rest =>
      let after := hoursAfterExisting newShift s in
      let before := hoursBeforeExisting newShift s in
      if Qgtb after 0 && Qltb after (inject_Z 10) then
        Some [Lit "Only "; Fixed1 after;
              Lit " hours of rest after previous shift. Minimum 10 hours required."]
      else if Qgtb before 0 && Qltb before (inject_Z 10) then
        Some [Lit "Only "; Fixed1 before;
              Lit " hours of rest before next shift. Minimum 10 hours required."]
      else restLoop newShift rest
  end.

Definition check10HourRest (db : DB) (staffId : Id) (newShift : ShiftData.t)
  : option Message :=
  restLoop newShift (adjacentAssignments db staffId (ShiftData.date newShift)).

(** ** Labor limits *)

Definition sumHours (rows : list Shift.t) : double :=
  fold_left (fun totalHours s =>
               fadd totalHours
                    (toDouble (shiftDurationHours (Shift.startTime s) (Shift.endTime s))))
            rows (ofInt 0).

Definition getDailyHours (db : DB) (staffId : Id) (date : Date) : double :=
  sumHours (filter (fun s => Shift.date s =? date) (shiftsOfStaff db staffId)).

Definition getWeeklyHours (db : DB) (staffId : Id) (date : Date) : double :=
  let dayOfWeek := getDay date in
  let monday := date - (if dayOfWeek =? 0 then 6 else dayOfWeek - 1) in
  let sunday := monday + 6 in
  sumHours (filter (fun s => (monday <=? Shift.date s) && (Shift.date s <=? sunday))
                   (shiftsOfStaff db staffId)).

(** One existence query of [getConsecutiveDays]. *)
Definition workedOn (db : DB) (staffId : Id) (date : Date) : bool :=
  nonEmpty (filter (fun s => Shift.date s =? date) (shiftsOfStaff db staffId)).

(** The bounded loops of [getConsecutiveDays]: [i] iterations left, walking
    from [currentDate] by [step] days while a worked day is found. *)
Fixpoint countWorked (db : DB) (staffId : Id) (step : Z) (i : nat) (currentDate : Date) : Z :=
  match i with
  | O => 0
  | S i' =>
      if workedOn db staffId currentDate
      then 1 + countWorked db staffId step i' (currentDate + step)
      else 0
  end.

Definition getConsecutiveDays (db : DB) (staffId : Id) (date : Date) : Z :=
  let daysBefore := countWorked db staffId (-1) 14 (date - 1) in
  let daysAfter := countWorked db staffId 1 14 (date + 1) in
  daysBefore + 1 + daysAfter.

Definition checkLaborLimits (db : DB) (staffId : Id) (newShift : ShiftData.t)
  : list ConstraintViolation :=
  let shiftHours :=
    toDouble (shiftDurationHours (ShiftData.startTime newShift)
                                 (ShiftData.endTime newShift)) in
  let dailyHours := getDailyHours db staffId (ShiftData.date newShift) in
  let totalDailyHours := fadd dailyHours shiftHours in
  let daily :=
    if fgtb totalDailyHours (ofInt 12) then
      [ {| type := error; code := "DAILY_HOURS_HARD_LIMIT";
           message := [Lit "This assignment would result in "; FixedDouble1 totalDailyHours;
                       Lit " hours on "; ShowDate (ShiftData.date newShift);
                       Lit ". Cannot exceed 12 hours in a single day."] |} ]
    else if fgtb totalDailyHours (ofInt 8) then
      [ {| type := warning; code := "DAILY_HOURS_WARNING";
           message := [Lit "This assignment would result in "; FixedDouble1 totalDailyHours;
                       Lit " hours on "; ShowDate (ShiftData.date newShift);
                       Lit ". Standard daily limit is 8 hours."] |} ]
    else [] in
  let weeklyHours := getWeeklyHours db staffId (ShiftData.date newShift) in
  let totalWeeklyHours := fadd weeklyHours shiftHours in
  let weekly :=
    if fgeb totalWeeklyHours (ofInt 40) then
      [ {| type := warning; code := "WEEKLY_OVERTIME";
           message := [Lit "This assignment would result in "; FixedDouble1 totalWeeklyHours;
                       Lit " hours this week. Overtime hours: ";
                       FixedDouble1 (fsub totalWeeklyHours (ofInt 40))] |} ]
    else if fgeb totalWeeklyHours (ofInt 35) then
      [ {| type := warning; code := "WEEKLY_HOURS_APPROACHING_OVERTIME";
           message := [Lit "This assignment would result in "; FixedDouble1 totalWeeklyHours;
                       Lit " hours this week. Approaching 40-hour overtime threshold."] |} ]
    else [] in
  let consecutiveDays := getConsecutiveDays db staffId (ShiftData.date newShift) in
  let consecutive :=
    if consecutiveDays >=? 7 then
      [ {| type := error; code := "SEVENTH_CONSECUTIVE_DAY";
           message := [Lit "Staff member would work their 7th consecutive day. This requires manager override with documented reason."] |} ]
    else if consecutiveDays >=? 6 then
      [ {| type := warning; code := "SIXTH_CONSECUTIVE_DAY";
           message := [Lit "Staff member would work their 6th consecutive day. Consider scheduling a rest day."] |} ]
    else [] in
  daily ++ weekly ++ consecutive.

(** ** Suggestions *)

Definition findStaffWithSkill (db : DB) (skillId locationId : Id) : list User.t :=
  firstn 10
    (flat_map
       (fun u =>
          flat_map
            (fun sk =>
               map (fun _ => u)
                   (filter (fun c => id_eqb (User.id u) (StaffLocationCert.staffId c)
                                     && id_eqb (StaffLocationCert.locationId c) locationId)
                           (staffLocationCerts db)))
            (filter (fun sk => id_eqb (User.id u) (StaffSkill.staffId sk)
                               && id_eqb (StaffSkill.skillId sk) skillId)
                    (staffSkills db)))
       (filter (fun u => Role_eqb (User.role u) STAFF) (users db))).

(** [violations.filter((v) => v.type === 'error')] *)
Definition errorsOf (vs : list ConstraintViolation) : list ConstraintViolation :=
  filter (fun v => Severity_eqb (type v) error) vs.

Definition warningsOf (vs : list ConstraintViolation) : list ConstraintViolation :=
  filter (fun v => Severity_eqb (type v) warning) vs.

(** ** The engine *)

Definition validateAssignment (db : DB) (staffId : Id) (shift : ShiftData.t)
  : AssignmentValidationResult :=
  let v1 :=
    if negb (checkSkillMatch db staffId (ShiftData.skillId shift)) then
      [ {| type := error; code := "SKILL_MISMATCH";
           message := [Lit "Staff member does not have the required skill for this shift"] |} ]
    else [] in
  let v2 :=
    if negb (checkLocationCertification db staffId (ShiftData.locationId shift)) then
      [ {| type := error; code := "LOCATION_NOT_CERTIFIED";
           message := [Lit "Staff member is not certified to work at this location"] |} ]
    else [] in
  let availabilityCheck :=
    checkAvailability db staffId (ShiftData.date shift)
                      (ShiftData.startTime shift) (ShiftData.endTime shift) in
  let v3 :=
    if negb (available availabilityCheck) then
      [ {| type := error; code := "NOT_AVAILABLE";
           message := match reason availabilityCheck with
                      | Some r => r
                      | None => [Lit "Staff member is not available at this time"]
                      end |} ]
    else [] in
  let v4 :=
    if checkShiftOverlap db staffId shift then
      [ {| type := error; code := "SHIFT_OVERLAP";
           message := [Lit "Staff member has an overlapping shift at this time"] |} ]
    else [] in
  let v5 :=
    match check10HourRest db staffId shift with
    | Some restPeriodViolation =>
        [ {| type := error; code := "REST_PERIOD_VIOLATION";
             message := restPeriodViolation |} ]
    | None => []
    end in
  let laborWarnings := checkLaborLimits db staffId shift in
  let violations := v1 ++ v2 ++ v3 ++ v4 ++ v5 ++ laborWarnings in
  let suggestions :=
    if existsb (fun v => Severity_eqb (type v) error) violations then
      let qualifiedStaff :=
        findStaffWithSkill db (ShiftData.skillId shift) (ShiftData.locationId shift) in
      let others := filter (fun s => negb (id_eqb (User.id s) staffId)) qualifiedStaff in
      if nonEmpty others then
        [ [Lit "Available alternatives: ";
           Lit (String.concat ", " (map User.name (firstn 3 others)))] ]
      else []
    else [] in
  {| valid := (List.length (errorsOf violations) =? 0)%nat;
     violations := violations;
     suggestions := if nonEmpty suggestions then Some suggestions else None |}.

(* ------------------------------------------------------------------ *)
(** * Server actions: sessions, transactions, results *)

(** Transaction primitives an action issues, in order. *)
Inductive Event :=
| TxBegin
| AdvisoryLock (key : Id)
| TxCommit
| TxRollback.

Record World := mkWorld {
  store : DB;
  trace : list Event
}.

(** Code running inside [db.transaction(async (tx) => ...)]: it reads and
    writes the store and may [throw new Error(msg)]. *)
Definition Tx (A : Type) : Type := World -> (string + A) * World.

Definition ret {A : Type} (a : A) : Tx A := fun w => (inr a, w).

Definition bind {A B : Type} (m : Tx A) (k : A -> Tx B) : Tx B :=
  fun w =>
    match m w with
    | (inl e, w') => (inl e, w')
    | (inr a, w') => k a w'
    end.

Notation "x <- m ;; k" := (bind m (fun x => k))
  (at level 61, m at next level, right associativity).
Notation "m ;;; k" := (bind m (fun _ => k))
  (at level 61, right associativity).

Definition throw {A : Type} (msg : string) : Tx A := fun w => (inl msg, w).

Definition select {A : Type} (q : DB -> A) : Tx A := fun w => (inr (q (store w)), w).

Definition execute (f : DB -> DB) : Tx unit :=
  fun w => (inr tt, {| store := f (store w); trace := trace w |}).

(** [SELECT pg_advisory_xact_lock(hashtext(key))] *)
Definition pg_advisory_xact_lock (key : Id) : Tx unit :=
  fun w => (inr tt, {| store := store w; trace := trace w ++ [AdvisoryLock key] |}).

(** [db.transaction(body)]: a thrown error rolls every write back. *)
Definition transaction {A : Type} (body : Tx A) (w : World) : (string + A) * World :=
  match body {| store := store w; trace := trace w ++ [TxBegin] |} with
  | (inl e, w') => (inl e, {| store := store w; trace := trace w' ++ [TxRollback] |})
  | (inr a, w') => (inr a, {| store := store w'; trace := trace w' ++ [TxCommit] |})
  end.

(** [requireAuth] / [requireRole]: [None] is the thrown error. *)
Definition requireAuth (session : option User.t) : option User.t := session.

Definition requireRole (roles : list Role) (session : option User.t) : option User.t :=
  match requireAuth session with
  | Some user => if existsb (Role_eqb (User.role user)) roles then Some user else None
  | None => None
  end.

(** [{ success: true }] or [{ success: false, error }]. *)
Inductive ActionResult :=
| Success
| Failure (msg : string).

(** Table updates. *)
Definition withShifts (d : DB) (xs : list Shift.t) : DB :=
  {| locations := locations d; skills := skills d;
     users := users d; shifts := xs; shiftAssignments := shiftAssignments d;
     swapRequests := swapRequests d; staffSkills := staffSkills d;
     staffLocationCerts := staffLocationCerts d;
     availabilityRules := availabilityRules d;
     availabilityExceptions := availabilityExceptions d |}.

Definition withShiftAssignments (d : DB) (xs : list ShiftAssignment.t) : DB :=
  {| locations := locations d; skills := skills d;
     users := users d; shifts := shifts d; shiftAssignments := xs;
     swapRequests := swapRequests d; staffSkills := staffSkills d;
     staffLocationCerts := staffLocationCerts d;
     availabilityRules := availabilityRules d;
     availabilityExceptions := availabilityExceptions d |}.

Definition withSwapRequests (d : DB) (xs : list SwapRequest.t) : DB :=
  {| locations := locations d; skills := skills d;
     users := users d; shifts := shifts d; shiftAssignments := shiftAssignments d;
     swapRequests := xs; staffSkills := staffSkills d;
     staffLocationCerts := staffLocationCerts d;
     availabilityRules := availabilityRules d;
     availabilityExceptions := availabilityExceptions d |}.

Definition setStore (w : World) (d : DB) : World :=
  {| store := d; trace := trace w |}.

(** [SELECT ... FROM shifts WHERE id = shiftId LIMIT 1] *)
Definition shiftById (d : DB) (shiftId : Id) : option Shift.t :=
  hd_error (filter (fun s => id_eqb (Shift.id s) shiftId) (shifts d)).

Definition assignmentById (d : DB) (assignmentId : Id) : option ShiftAssignment.t :=
  hd_error (filter (fun a => id_eqb (ShiftAssignment.id a) assignmentId) (shiftAssignments d)).

Definition requestById (d : DB) (requestId : Id) : option SwapRequest.t :=
  hd_error (filter (fun r => id_eqb (SwapRequest.id r) requestId) (swapRequests d)).

(** [new Date(`${date}T${time}`).getTime()] *)
Definition startInstant (date : Date) (time : Time) : Z :=
  dateBase date + toMinutes time * 60000.

(* ------------------------------------------------------------------ *)
(** * [assignStaffToShift] ([assignment-actions.ts]) *)

(** [String.prototype.trim] on 8-bit code units: tab, line feed, vertical
    tab, form feed, carriage return, space and no-break space are dropped
    at both ends. *)
Definition isWhiteSpace (c : ascii) : bool :=
  let n := nat_of_ascii c in
  ((n =? 9) || (n =? 10) || (n =? 11) || (n =? 12) || (n =? 13)
   || (n =? 32) || (n =? 160))%nat.

Fixpoint dropWhile {A : Type} (p : A -> bool) (xs : list A) : list A :=
  match xs with
  | [] => []
  | x :: rest => if p x then dropWhile p rest else xs
  end.

Definition trim (s : string) : string :=
  string_of_list_ascii
    (rev (dropWhile isWhiteSpace (rev (dropWhile isWhiteSpace (list_ascii_of_string s))))).

(** [errors.length === 1 && errors[0].code === 'SEVENTH_CONSECUTIVE_DAY'] *)
Definition onlySeventhDay (errors : list ConstraintViolation) : bool :=
  (List.length errors =? 1)%nat
  && match nth_error errors 0 with
     | Some e => (code e =? "SEVENTH_CONSECUTIVE_DAY")%string
     | None => false
     end.

(** [overrideReason && overrideReason.trim().length > 0] *)
Definition reasonGiven (overrideReason : option string) : bool :=
  match overrideReason with
  | Some r => negb (r =? "")%string && (0 <? String.length (trim r))%nat
  | None => false
  end.

Inductive AssignResult :=
| Assigned (warnings : list Message)
| Rejected (errorMessages : Message) (overridable : bool)
| AssignFailure (msg : string).

Definition shiftDataOf (shiftRow : Shift.t) : ShiftData.t :=
  {| ShiftData.id := Shift.id shiftRow;
     ShiftData.locationId := Shift.locationId shiftRow;
     ShiftData.date := Shift.date shiftRow;
     ShiftData.startTime := Shift.startTime shiftRow;
     ShiftData.endTime := Shift.endTime shiftRow;
     ShiftData.skillId := Shift.skillId shiftRow |}.

(** The helper [toEpochRange] of the locked re-check. *)
Definition toEpochRange (date : Date) (startT endT : Time) : Z * Z :=
  let startEpoch := startInstant date startT in
  let endEpoch := startInstant date endT in
  let endEpoch := if endEpoch <=? startEpoch then endEpoch + 24 * 60 * 60 * 1000 else endEpoch in
  (startEpoch, endEpoch).

(** [sql`${shifts.date} = ANY(${datesToCheck})`]: inside a [sql] template
    the query builder writes a JavaScript array as a parenthesised list of
    parameters, [($1, $2)] or [($1, $2, $3)].  [datesToCheck] always holds
    two or three dates, so the right-hand side of [ANY] is a row and not an
    array, and PostgreSQL refuses the statement whatever the tables hold. *)
Definition anyOfExpandedList {A : Type} (values : list Date) : Tx A :=
  throw "op ANY/ALL (array) requires array on right side".

(** The body of the transaction: lock on the staff member, overlap re-check,
    duplicate check, insert.  The re-check query is the one above, so
    nothing after it is reached. *)
Definition assignTx (user : User.t) (now : Z) (newId : Id)
  (shiftRow : Shift.t) (shiftId staffId : Id) : Tx unit :=
  pg_advisory_xact_lock staffId ;;;
  let prevDateStr := Shift.date shiftRow - 1 in
  let datesToCheck :=
    [Shift.date shiftRow; prevDateStr]
      ++ (if time_leb (Shift.endTime shiftRow) (Shift.startTime shiftRow)
          then [Shift.date shiftRow + 1] else []) in
  nearbyAssignments <- anyOfExpandedList datesToCheck ;;
  let '(newAbsStart, newAbsEnd) :=
    toEpochRange (Shift.date shiftRow) (Shift.startTime shiftRow) (Shift.endTime shiftRow) in
  (if existsb
        (fun existing : Shift.t =>
           let '(existAbsStart, existAbsEnd) :=
             toEpochRange (Shift.date existing) (Shift.startTime existing) (Shift.endTime existing) in
           (newAbsStart <? existAbsEnd) && (existAbsStart <? newAbsEnd))
        nearbyAssignments
   then throw "DOUBLE_BOOKING" else ret tt) ;;;
  duplicate <-
    select (fun d =>
              filter (fun a => id_eqb (ShiftAssignment.shiftId a) shiftId
                               && id_eqb (ShiftAssignment.staffId a) staffId)
                     (shiftAssignments d)) ;;
  (if nonEmpty duplicate then throw "ALREADY_ASSIGNED" else ret tt) ;;;
  execute (fun d =>
             withShiftAssignments d
               (shiftAssignments d ++
                [ {| ShiftAssignment.id := newId;
                     ShiftAssignment.shiftId := shiftId;
                     ShiftAssignment.staffId := staffId;
                     ShiftAssignment.assignedBy := User.id user;
                     ShiftAssignment.assignedAt := now |} ])).

(** Everything after the validation gate: the transaction and the mapping of
    its outcome to the action's result. *)
Definition commitAssignment (user : User.t) (now : Z) (newId : Id)
  (shiftRow : Shift.t) (shiftId staffId : Id)
  (validation : AssignmentValidationResult) (w : World) : AssignResult * World :=
  match transaction (assignTx user now newId shiftRow shiftId staffId) w with
  | (inl msg, w') =>
      if (msg =? "DOUBLE_BOOKING")%string then
        (AssignFailure "Staff member has a conflicting shift at this time. They were just assigned to an overlapping shift by another manager.", w')
      else if (msg =? "ALREADY_ASSIGNED")%string then
        (AssignFailure "Staff is already assigned to this shift", w')
      else (AssignFailure "Failed to assign staff", w')
  | (inr _, w') =>
      (Assigned (map message (warningsOf (violations validation))), w')
  end.

Definition assignStaffToShift (session : option User.t) (now : Z) (newId : Id)
  (shiftId staffId locationId : Id) (overrideReason : option string) (w : World)
  : AssignResult * World :=
  match requireRole [MANAGER; ADMIN] session with
  | None => (AssignFailure "Failed to assign staff", w)
  | Some user =>
      match shiftById (store w) shiftId with
      | None => (AssignFailure "Shift not found", w)
      | Some shiftRow =>
          let validation := validateAssignment (store w) staffId (shiftDataOf shiftRow) in
          let errors := errorsOf (violations validation) in
          if negb (valid validation)
             && negb (onlySeventhDay errors && reasonGiven overrideReason)
          then
            let errorMessages := join "; " (map message errors) in
            (Rejected errorMessages (onlySeventhDay errors), w)
          else
            commitAssignment user now newId shiftRow shiftId staffId validation w
      end
  end.

(* ------------------------------------------------------------------ *)
(** * Shift mutations ([schedules/[locationId]/actions.ts]) *)

(** [UPDATE t SET ... WHERE p RETURNING ...]: the rows matched and the table
    after the update. *)
Definition returning {A : Type} (p : A -> bool) (rows : list A) : list A :=
  filter p rows.

Definition updateWhere {A : Type} (p : A -> bool) (f : A -> A) (rows : list A) : list A :=
  map (fun r => if p r then f r else r) rows.

(** [DELETE FROM t WHERE p] *)
Definition deleteWhere {A : Type} (p : A -> bool) (rows : list A) : list A :=
  filter (fun r => negb (p r)) rows.

(** [inArray(column, ids)] *)
Definition inArray (x : Id) (ids : list Id) : bool := existsb (id_eqb x) ids.

(** The parsed form of [createShift]. *)
Record ShiftForm := mkShiftForm {
  form_locationId : Id;
  form_date : Date;
  form_startTime : Time;
  form_endTime : Time;
  form_skillId : Id;
  form_headcount : Z
}.

(** A text matching [^\d{2}:\d{2}$]. *)
Definition twoDigitTime (t : Time) : bool :=
  (0 <=? hour t) && (hour t <=? 99) && (0 <=? minute t) && (minute t <=? 99).

(** [createShiftSchema.safeParse(...).success] *)
Definition createShiftSchema (f : ShiftForm) : bool :=
  twoDigitTime (form_startTime f) && twoDigitTime (form_endTime f)
  && (1 <=? form_headcount f) && (form_headcount f <=? 20).

(** [updateShiftSchema]: the create schema extended by [shiftId] and
    [version: z.number().int().min(1)]. *)
Definition updateShiftSchema (f : ShiftForm) (version : Z) : bool :=
  createShiftSchema f && (1 <=? version).

(** What the database accepts.  A [time] column takes 00:00 to 23:59 and
    24:00; an [integer] column takes signed 32-bit values; a foreign key
    takes the primary key of a row of the referenced table.  A statement
    with a parameter its column refuses fails as a whole. *)
Definition timeColumn (t : Time) : bool :=
  ((0 <=? hour t) && (hour t <=? 23) && (0 <=? minute t) && (minute t <=? 59))
  || ((hour t =? 24) && (minute t =? 0)).

Definition integerColumn (z : Z) : bool :=
  (-2147483648 <=? z) && (z <=? 2147483647).

Definition references (key : Id) (primaryKeys : list Id) : bool :=
  inArray key primaryKeys.

(** The checks of [INSERT INTO shifts]: the two [time] columns and the
    foreign keys to [locations] and [skills] ([createdBy] is the session
    user, a row of [users]). *)
Definition shiftInsertAccepted (d : DB) (f : ShiftForm) : bool :=
  timeColumn (form_startTime f) && timeColumn (form_endTime f)
  && references (form_locationId f) (locations d)
  && references (form_skillId f) (skills d).

Definition createShift (session : option User.t) (now : Z) (newId : Id)
  (f : ShiftForm) (w : World) : ActionResult * World :=
  match requireRole [MANAGER; ADMIN] session with
  | None => (Failure "Failed to create shift", w)
  | Some user =>
      if negb (createShiftSchema f) then (Failure "Invalid shift data", w)
      else if negb (shiftInsertAccepted (store w) f)
      then (Failure "Failed to create shift", w)
      else
        let newShift :=
          {| Shift.id := newId;
             Shift.locationId := form_locationId f;
             Shift.date := form_date f;
             Shift.startTime := form_startTime f;
             Shift.endTime := form_endTime f;
             Shift.skillId := form_skillId f;
             Shift.headcount := form_headcount f;
             Shift.isPublished := false;
             Shift.publishedAt := None;
             Shift.version := 1;
             Shift.createdBy := User.id user;
             Shift.updatedAt := now |} in
        (Success, setStore w (withShifts (store w) (shifts (store w) ++ [newShift])))
  end.

(** The [.set({...})] of the edit. *)
Definition editedShift (f : ShiftForm) (version now : Z) (s : Shift.t) : Shift.t :=
  {| Shift.id := Shift.id s;
     Shift.locationId := Shift.locationId s;
     Shift.date := form_date f;
     Shift.startTime := form_startTime f;
     Shift.endTime := form_endTime f;
     Shift.skillId := form_skillId f;
     Shift.headcount := form_headcount f;
     Shift.isPublished := Shift.isPublished s;
     Shift.publishedAt := Shift.publishedAt s;
     Shift.version := version + 1;
     Shift.createdBy := Shift.createdBy s;
     Shift.updatedAt := now |}.

(** The [.set({...})] of the cascade cancellation. *)
Definition autoCancelled (now : Z) (r : SwapRequest.t) : SwapRequest.t :=
  {| SwapRequest.id := SwapRequest.id r;
     SwapRequest.shiftAssignmentId := SwapRequest.shiftAssignmentId r;
     SwapRequest.requestedBy := SwapRequest.requestedBy r;
     SwapRequest.type := SwapRequest.type r;
     SwapRequest.targetStaffId := SwapRequest.targetStaffId r;
     SwapRequest.status := CANCELLED;
     SwapRequest.reviewedBy := SwapRequest.reviewedBy r;
     SwapRequest.reviewedAt := SwapRequest.reviewedAt r;
     SwapRequest.reviewNotes := Some "Automatically cancelled because the shift was modified";
     SwapRequest.updatedAt := now |}.

(** The ids of the assignments of a shift. *)
Definition assignmentIdsOf (d : DB) (shiftId : Id) : list Id :=
  map ShiftAssignment.id
      (filter (fun a => id_eqb (ShiftAssignment.shiftId a) shiftId) (shiftAssignments d)).

(** The swap requests the edit selects before cancelling. *)
Definition affectedSwaps (d : DB) (assignmentIds : list Id) : list SwapRequest.t :=
  filter (fun r => SwapStatus_eqb (SwapRequest.status r) PENDING
                   && inArray (SwapRequest.shiftAssignmentId r) assignmentIds)
         (swapRequests d).

(** Lines 148-189 of [updateShift]: the cascade on the swap requests. *)
Definition cascadeCancel (now : Z) (shiftId : Id) (d : DB) : DB :=
  let assignmentIds := assignmentIdsOf d shiftId in
  if nonEmpty assignmentIds then
    let affected := affectedSwaps d assignmentIds in
    if nonEmpty affected then
      withSwapRequests d
        (updateWhere (fun r => inArray (SwapRequest.id r) (map SwapRequest.id affected))
                     (autoCancelled now) (swapRequests d))
    else d
  else d.

(** The parameters of the [UPDATE] are bound before any row is looked at:
    the two times and both [version] and [version + 1] go to [time] and
    [integer] columns. *)
Definition shiftUpdateBinds (f : ShiftForm) (version : Z) : bool :=
  timeColumn (form_startTime f) && timeColumn (form_endTime f)
  && integerColumn version && integerColumn (version + 1).

Definition updateShift (session : option User.t) (now : Z)
  (shiftId : Id) (f : ShiftForm) (version : Z) (w : World) : ActionResult * World :=
  match requireRole [MANAGER; ADMIN] session with
  | None => (Failure "Failed to update shift", w)
  | Some user =>
      if negb (updateShiftSchema f version) then (Failure "Invalid shift data", w)
      else if negb (shiftUpdateBinds f version) then (Failure "Failed to update shift", w)
      else
        let guard := fun s => id_eqb (Shift.id s) shiftId && (Shift.version s =? version) in
        let result := returning guard (shifts (store w)) in
        (* the foreign key to [skills] is checked on the rows that change *)
        if nonEmpty result && negb (references (form_skillId f) (skills (store w)))
        then (Failure "Failed to update shift", w)
        else
        let d1 := withShifts (store w)
                    (updateWhere guard (editedShift f version now) (shifts (store w))) in
        if (List.length result =? 0)%nat then
          match shiftById d1 shiftId with
          | None => (Failure "Shift not found", setStore w d1)
          | Some _ =>
              (Failure "Shift was modified by another user. Please refresh and try again.",
               setStore w d1)
          end
        else (Success, setStore w (cascadeCancel now shiftId d1))
  end.

(** The foreign keys [ON DELETE CASCADE]: deleting shifts removes their
    assignments, deleting assignments removes the swap requests on them. *)
Definition deleteAssignmentsWhere (p : ShiftAssignment.t -> bool) (d : DB) : DB :=
  let gone := map ShiftAssignment.id (filter p (shiftAssignments d)) in
  withSwapRequests
    (withShiftAssignments d (deleteWhere p (shiftAssignments d)))
    (deleteWhere (fun r => inArray (SwapRequest.shiftAssignmentId r) gone) (swapRequests d)).

Definition deleteShiftRow (shiftId : Id) (d : DB) : DB :=
  deleteAssignmentsWhere
    (fun a => id_eqb (ShiftAssignment.shiftId a) shiftId)
    (withShifts d (deleteWhere (fun s => id_eqb (Shift.id s) shiftId) (shifts d))).

(** [(start - Date.now()) / (1000 * 60 * 60)] *)
Definition hoursUntil (date : Date) (time : Time) (now : Z) : Q :=
  msToHours (startInstant date time - now).

Definition deleteShiftTx (now : Z) (shiftId : Id) : Tx unit :=
  pg_advisory_xact_lock shiftId ;;;
  found <- select (fun d => shiftById d shiftId) ;;
  match found with
  | None => throw "NOT_FOUND"
  | Some shift =>
      (if Shift.isPublished shift
          && Qle_bool (hoursUntil (Shift.date shift) (Shift.startTime shift) now) (inject_Z 48)
       then throw "TOO_CLOSE_TO_START" else ret tt) ;;;
      execute (deleteShiftRow shiftId)
  end.

Definition deleteShift (session : option User.t) (now : Z)
  (shiftId locationId : Id) (w : World) : ActionResult * World :=
  match requireRole [MANAGER; ADMIN] session with
  | None => (Failure "Failed to delete shift", w)
  | Some user =>
      match transaction (deleteShiftTx now shiftId) w with
      | (inl msg, w') =>
          if (msg =? "NOT_FOUND")%string then (Failure "Shift not found", w')
          else if (msg =? "TOO_CLOSE_TO_START")%string then
            (Failure "Cannot delete shift within 48 hours of its start time", w')
          else (Failure "Failed to delete shift", w')
      | (inr _, w') => (Success, w')
      end
  end.

Definition publishedShift (now : Z) (s : Shift.t) : Shift.t :=
  {| Shift.id := Shift.id s;
     Shift.locationId := Shift.locationId s;
     Shift.date := Shift.date s;
     Shift.startTime := Shift.startTime s;
     Shift.endTime := Shift.endTime s;
     Shift.skillId := Shift.skillId s;
     Shift.headcount := Shift.headcount s;
     Shift.isPublished := true;
     Shift.publishedAt := Some now;
     Shift.version := Shift.version s + 1;
     Shift.createdBy := Shift.createdBy s;
     Shift.updatedAt := now |}.

Definition unpublishedShift (now : Z) (s : Shift.t) : Shift.t :=
  {| Shift.id := Shift.id s;
     Shift.locationId := Shift.locationId s;
     Shift.date := Shift.date s;
     Shift.startTime := Shift.startTime s;
     Shift.endTime := Shift.endTime s;
     Shift.skillId := Shift.skillId s;
     Shift.headcount := Shift.headcount s;
     Shift.isPublished := false;
     Shift.publishedAt := None;
     Shift.version := Shift.version s + 1;
     Shift.createdBy := Shift.createdBy s;
     Shift.updatedAt := now |}.

Definition publishShift (session : option User.t) (now : Z)
  (shiftId locationId : Id) (w : World) : ActionResult * World :=
  match requireRole [MANAGER; ADMIN] session with
  | None => (Failure "Failed to publish shift", w)
  | Some user =>
      let guard := fun s => id_eqb (Shift.id s) shiftId && Bool.eqb (Shift.isPublished s) false in
      let result := returning guard (shifts (store w)) in
      let d1 := withShifts (store w) (updateWhere guard (publishedShift now) (shifts (store w))) in
      if (List.length result =? 0)%nat then
        match shiftById d1 shiftId with
        | None => (Failure "Shift not found", setStore w d1)
        | Some exists_ =>
            if Shift.isPublished exists_
            then (Failure "Shift is already published", setStore w d1)
            else (Failure "Failed to publish shift", setStore w d1)
        end
      else (Success, setStore w d1)
  end.

Definition unpublishShift (session : option User.t) (now : Z)
  (shiftId locationId : Id) (w : World) : ActionResult * World :=
  match requireRole [MANAGER; ADMIN] session with
  | None => (Failure "Failed to unpublish shift", w)
  | Some user =>
      match shiftById (store w) shiftId with
      | None => (Failure "Shift not found", w)
      | Some shift =>
          if negb (Shift.isPublished shift) then (Failure "Shift is not published", w)
          else if Qle_bool (hoursUntil (Shift.date shift) (Shift.startTime shift) now) (inject_Z 48)
          then (Failure "Cannot unpublish shift within 48 hours of its start time", w)
          else
            let guard := fun s => id_eqb (Shift.id s) shiftId && Bool.eqb (Shift.isPublished s) true in
            let result := returning guard (shifts (store w)) in
            let d1 := withShifts (store w)
                        (updateWhere guard (unpublishedShift now) (shifts (store w))) in
            if (List.length result =? 0)%nat
            then (Failure "Shift was already unpublished by another user", setStore w d1)
            else (Success, setStore w d1)
      end
  end.

(* ------------------------------------------------------------------ *)
(** * Worker self-pickup ([my-shifts/actions.ts]) *)

Definition pickUpShift (session : option User.t) (now : Z) (newId : Id)
  (shiftId : Id) (w : World) : ActionResult * World :=
  match requireRole [STAFF] session with
  | None => (Failure "Failed to pick up shift", w)
  | Some user =>
      match shiftById (store w) shiftId with
      | None => (Failure "Shift not found", w)
      | Some shift =>
          if negb (Shift.isPublished shift) then (Failure "Shift is not published", w)
          else if startInstant (Shift.date shift) (Shift.startTime shift) <=? now then
            (Failure "Cannot pick up a shift that has already started", w)
          else
            let assignmentCount :=
              Z.of_nat (List.length
                          (filter (fun a => id_eqb (ShiftAssignment.shiftId a) shiftId)
                                  (shiftAssignments (store w)))) in
            if assignmentCount >=? Shift.headcount shift then
              (Failure "This shift is already fully staffed", w)
            else
              let existing :=
                hd_error (filter (fun a => id_eqb (ShiftAssignment.shiftId a) shiftId
                                           && id_eqb (ShiftAssignment.staffId a) (User.id user))
                                 (shiftAssignments (store w))) in
              match existing with
              | Some _ => (Failure "You are already assigned to this shift", w)
              | None =>
                  (Success,
                   setStore w
                     (withShiftAssignments (store w)
                        (shiftAssignments (store w) ++
                         [ {| ShiftAssignment.id := newId;
                              ShiftAssignment.shiftId := shiftId;
                              ShiftAssignment.staffId := User.id user;
                              ShiftAssignment.assignedBy := User.id user;
                              ShiftAssignment.assignedAt := now |} ])))
              end
      end
  end.

(* ------------------------------------------------------------------ *)
(** * Staff-side swap actions ([my-shifts/swap-actions.ts]) *)

(** The count both creators run first:
    [requestedBy = user.id AND status = 'PENDING']. *)
Definition pendingCount (d : DB) (userId : Id) : Z :=
  Z.of_nat
    (List.length
       (filter (fun r => id_eqb (SwapRequest.requestedBy r) userId
                         && SwapStatus_eqb (SwapRequest.status r) PENDING)
               (swapRequests d))).

Definition capMessage : string :=
  "You already have 3 pending swap/drop requests. Please wait for approval or cancel existing requests.".

(** [shiftAssignmentId = assignmentId AND status = 'PENDING' LIMIT 1] *)
Definition existingRequest (d : DB) (assignmentId : Id) : option SwapRequest.t :=
  hd_error
    (filter (fun r => id_eqb (SwapRequest.shiftAssignmentId r) assignmentId
                      && SwapStatus_eqb (SwapRequest.status r) PENDING)
            (swapRequests d)).

Definition newRequest (now : Z) (newId assignmentId userId : Id)
  (ty : SwapType) (target : option Id) : SwapRequest.t :=
  {| SwapRequest.id := newId;
     SwapRequest.shiftAssignmentId := assignmentId;
     SwapRequest.requestedBy := userId;
     SwapRequest.type := ty;
     SwapRequest.targetStaffId := target;
     SwapRequest.status := PENDING;
     SwapRequest.reviewedBy := None;
     SwapRequest.reviewedAt := None;
     SwapRequest.reviewNotes := None;
     SwapRequest.updatedAt := now |}.

(** The [.set({ status: 'CANCELLED', updatedAt })] of a requester's cancel. *)
Definition cancelledRequest (now : Z) (r : SwapRequest.t) : SwapRequest.t :=
  {| SwapRequest.id := SwapRequest.id r;
     SwapRequest.shiftAssignmentId := SwapRequest.shiftAssignmentId r;
     SwapRequest.requestedBy := SwapRequest.requestedBy r;
     SwapRequest.type := SwapRequest.type r;
     SwapRequest.targetStaffId := SwapRequest.targetStaffId r;
     SwapRequest.status := CANCELLED;
     SwapRequest.reviewedBy := SwapRequest.reviewedBy r;
     SwapRequest.reviewedAt := SwapRequest.reviewedAt r;
     SwapRequest.reviewNotes := SwapRequest.reviewNotes r;
     SwapRequest.updatedAt := now |}.

Module SwapActions.

Definition createSwapRequest (session : option User.t) (now : Z) (newId : Id)
  (assignmentId targetStaffId : Id) (w : World) : ActionResult * World :=
  match requireRole [STAFF] session with
  | None => (Failure "Failed to create swap request", w)
  | Some user =>
      if pendingCount (store w) (User.id user) >=? 3 then (Failure capMessage, w)
      else
        match assignmentById (store w) assignmentId with
        | None => (Failure "Assignment not found", w)
        | Some assignment =>
            if negb (id_eqb (ShiftAssignment.staffId assignment) (User.id user)) then
              (Failure "You can only request swaps for your own shifts", w)
            else
              match existingRequest (store w) assignmentId with
              | Some _ =>
                  (Failure "There is already a pending swap request for this shift", w)
              | None =>
                  match shiftById (store w) (ShiftAssignment.shiftId assignment) with
                  | None => (Failure "Shift not found", w)
                  | Some shift =>
                      (* the foreign key of [target_staff_id] to [users] *)
                      if negb (references targetStaffId (map User.id (users (store w))))
                      then (Failure "Failed to create swap request", w)
                      else
                      (Success,
                       setStore w
                         (withSwapRequests (store w)
                            (swapRequests (store w) ++
                             [newRequest now newId assignmentId (User.id user)
                                         SWAP (Some targetStaffId)])))
                  end
              end
        end
  end.

Definition createDropRequest (session : option User.t) (now : Z) (newId : Id)
  (assignmentId : Id) (w : World) : ActionResult * World :=
  match requireRole [STAFF] session with
  | None => (Failure "Failed to create drop request", w)
  | Some user =>
      if pendingCount (store w) (User.id user) >=? 3 then (Failure capMessage, w)
      else
        match assignmentById (store w) assignmentId with
        | None => (Failure "Assignment not found", w)
        | Some assignment =>
            if negb (id_eqb (ShiftAssignment.staffId assignment) (User.id user)) then
              (Failure "You can only request drops for your own shifts", w)
            else
              match existingRequest (store w) assignmentId with
              | Some _ => (Failure "There is already a pending request for this shift", w)
              | None =>
                  match shiftById (store w) (ShiftAssignment.shiftId assignment) with
                  | None => (Failure "Shift not found", w)
                  | Some shift =>
                      if Qle_bool (hoursUntil (Shift.date shift) (Shift.startTime shift) now)
                                  (inject_Z 24)
                      then (Failure "Cannot drop a shift within 24 hours of its start time", w)
                      else
                        (Success,
                         setStore w
                           (withSwapRequests (store w)
                              (swapRequests (store w) ++
                               [newRequest now newId assignmentId (User.id user) DROP None])))
                  end
              end
        end
  end.

(** The cancel action of this file: no transaction, [PENDING] only. *)
Definition cancelSwapRequest (session : option User.t) (now : Z)
  (requestId : Id) (w : World) : ActionResult * World :=
  match requireRole [STAFF] session with
  | None => (Failure "Failed to cancel request", w)
  | Some user =>
      match requestById (store w) requestId with
      | None => (Failure "Request not found", w)
      | Some request =>
          if negb (id_eqb (SwapRequest.requestedBy request) (User.id user)) then
            (Failure "You can only cancel your own requests", w)
          else if negb (SwapStatus_eqb (SwapRequest.status request) PENDING) then
            (Failure "Only pending requests can be cancelled", w)
          else
            (Success,
             setStore w
               (withSwapRequests (store w)
                  (updateWhere (fun r => id_eqb (SwapRequest.id r) requestId)
                               (cancelledRequest now) (swapRequests (store w)))))
      end
  end.

End SwapActions.

(* ------------------------------------------------------------------ *)
(** * Manager-side workflow ([swap-requests/actions.ts]) *)

Definition SwapType_eqb (a b : SwapType) : bool :=
  match a, b with
  | SWAP, SWAP | DROP, DROP => true
  | _, _ => false
  end.

(** The text of a nullable column once it is known to be set. *)
Definition valueOf (s : option Id) : Id :=
  match s with Some v => v | None => "" end.

(** A truthy text: neither [null] nor empty. *)
Definition truthy (s : option Id) : bool :=
  match s with
  | Some v => negb (v =? "")%string
  | None => false
  end.

(** The [.set({...})] of an approval; an [undefined] value ([notes] not
    given) is left out of the update. *)
Definition approvedRequest (userId : Id) (now : Z) (notes : option string)
  (r : SwapRequest.t) : SwapRequest.t :=
  {| SwapRequest.id := SwapRequest.id r;
     SwapRequest.shiftAssignmentId := SwapRequest.shiftAssignmentId r;
     SwapRequest.requestedBy := SwapRequest.requestedBy r;
     SwapRequest.type := SwapRequest.type r;
     SwapRequest.targetStaffId := SwapRequest.targetStaffId r;
     SwapRequest.status := APPROVED;
     SwapRequest.reviewedBy := Some userId;
     SwapRequest.reviewedAt := Some now;
     SwapRequest.reviewNotes :=
       match notes with Some n => Some n | None => SwapRequest.reviewNotes r end;
     SwapRequest.updatedAt := now |}.

(** The [.set({ staffId, assignedBy, assignedAt })] of a swap approval. *)
Definition reassigned (target userId : Id) (now : Z) (a : ShiftAssignment.t)
  : ShiftAssignment.t :=
  {| ShiftAssignment.id := ShiftAssignment.id a;
     ShiftAssignment.shiftId := ShiftAssignment.shiftId a;
     ShiftAssignment.staffId := target;
     ShiftAssignment.assignedBy := userId;
     ShiftAssignment.assignedAt := now |}.

Module SwapRequestsActions.

Definition approveTx (user : User.t) (now : Z) (requestId : Id)
  (notes : option string) : Tx unit :=
  pg_advisory_xact_lock requestId ;;;
  found <- select (fun d => requestById d requestId) ;;
  match found with
  | None => throw "NOT_FOUND"
  | Some request =>
      if SwapType_eqb (SwapRequest.type request) SWAP
         && negb (SwapStatus_eqb (SwapRequest.status request) ACCEPTED_BY_TARGET)
      then throw "NOT_READY"
      else if SwapType_eqb (SwapRequest.type request) DROP
              && negb (SwapStatus_eqb (SwapRequest.status request) PENDING)
      then throw "NOT_PENDING"
      else
        foundAssignment <-
          select (fun d => assignmentById d (SwapRequest.shiftAssignmentId request)) ;;
        match foundAssignment with
        | None => throw "ASSIGNMENT_NOT_FOUND"
        | Some assignment =>
            execute (fun d =>
                       withSwapRequests d
                         (updateWhere (fun r => id_eqb (SwapRequest.id r) requestId)
                                      (approvedRequest (User.id user) now notes)
                                      (swapRequests d))) ;;;
            if SwapType_eqb (SwapRequest.type request) SWAP
               && truthy (SwapRequest.targetStaffId request)
            then
              execute (fun d =>
                         withShiftAssignments d
                           (updateWhere
                              (fun a => id_eqb (ShiftAssignment.id a)
                                               (ShiftAssignment.id assignment))
                              (reassigned (valueOf (SwapRequest.targetStaffId request))
                                          (User.id user) now)
                              (shiftAssignments d)))
            else if SwapType_eqb (SwapRequest.type request) DROP then
              execute (deleteAssignmentsWhere
                         (fun a => id_eqb (ShiftAssignment.id a)
                                          (ShiftAssignment.id assignment)))
            else ret tt
        end
  end.

Definition approveSwapRequest (session : option User.t) (now : Z)
  (requestId : Id) (notes : option string) (w : World) : ActionResult * World :=
  match requireRole [MANAGER; ADMIN] session with
  | None => (Failure "Failed to approve swap request", w)
  | Some user =>
      match transaction (approveTx user now requestId notes) w with
      | (inl msg, w') =>
          if (msg =? "NOT_FOUND")%string then (Failure "Swap request not found", w')
          else if (msg =? "NOT_PENDING")%string then
            (Failure "This request has already been processed by another manager", w')
          else if (msg =? "NOT_READY")%string then
            (Failure "Target staff has not yet accepted this swap request", w')
          else if (msg =? "ASSIGNMENT_NOT_FOUND")%string then
            (Failure "Shift assignment not found", w')
          else (Failure "Failed to approve swap request", w')
      | (inr _, w') => (Success, w')
      end
  end.

Definition cancelTx (user : User.t) (now : Z) (requestId : Id) : Tx unit :=
  pg_advisory_xact_lock requestId ;;;
  found <- select (fun d => requestById d requestId) ;;
  match found with
  | None => throw "NOT_FOUND"
  | Some request =>
      if negb (id_eqb (SwapRequest.requestedBy request) (User.id user)) then
        throw "NOT_OWNER"
      else if negb (SwapStatus_eqb (SwapRequest.status request) PENDING)
              && negb (SwapStatus_eqb (SwapRequest.status request) ACCEPTED_BY_TARGET)
      then throw "NOT_PENDING"
      else
        execute (fun d =>
                   withSwapRequests d
                     (updateWhere (fun r => id_eqb (SwapRequest.id r) requestId)
                                  (cancelledRequest now) (swapRequests d)))
  end.

(** The cancel action of the state machine: advisory lock on the request. *)
Definition cancelSwapRequest (session : option User.t) (now : Z)
  (requestId : Id) (w : World) : ActionResult * World :=
  match requireAuth session with
  | None => (Failure "Failed to cancel swap request", w)
  | Some user =>
      match transaction (cancelTx user now requestId) w with
      | (inl msg, w') =>
          if (msg =? "NOT_FOUND")%string then (Failure "Swap request not found", w')
          else if (msg =? "NOT_OWNER")%string then
            (Failure "You can only cancel your own requests", w')
          else if (msg =? "NOT_PENDING")%string then
            (Failure "This request has already been processed", w')
          else (Failure "Failed to cancel swap request", w')
      | (inr _, w') => (Success, w')
      end
  end.

End SwapRequestsActions.

(* ------------------------------------------------------------------ *)
(** * Specification predicates *)

(** Some single recurring rule of the staff member for the date's day of
    the week contains the range [startTime, endTime). *)
Definition containedInSingleRule
  (db : DB) (staffId : Id) (date : Date) (startTime endTime : Time) : Prop :=
  exists rule,
    In rule (availabilityRules db)
    /\ AvailabilityRule.staffId rule = staffId
    /\ AvailabilityRule.dayOfWeek rule = snd (getDayInfo date)
    /\ toMinutes (AvailabilityRule.startTime rule) <= toMinutes startTime
    /\ toMinutes endTime <= toMinutes (AvailabilityRule.endTime rule).

(** An [isAvailable = true] exception of the staff member for the date whose
    window contains the range. *)
Definition containedInException
  (db : DB) (staffId : Id) (date : Date) (startTime endTime : Time) : Prop :=
  exists exception windowStart windowEnd,
    In exception (availabilityExceptions db)
    /\ AvailabilityException.staffId exception = staffId
    /\ AvailabilityException.date exception = date
    /\ AvailabilityException.isAvailable exception = true
    /\ AvailabilityException.startTime exception = Some windowStart
    /\ AvailabilityException.endTime exception = Some windowEnd
    /\ toMinutes windowStart <= toMinutes startTime
    /\ toMinutes endTime <= toMinutes windowEnd.

(** [s] is a shift the staff member is assigned to, dated within the window
    [check10HourRest] reads. *)
Definition inRestWindow (db : DB) (staffId : Id) (date : Date) (s : Shift.t) : Prop :=
  (exists a, In a (shiftAssignments db)
             /\ ShiftAssignment.staffId a = staffId
             /\ ShiftAssignment.shiftId a = Shift.id s)
  /\ In s (shifts db)
  /\ date - 1 <= Shift.date s <= date + 2.

(** A directional gap that breaks the rest rule: more than 0 and less than
    10 hours. *)
Definition restGap (hours : Q) : Prop := (0 < hours)%Q /\ (hours < inject_Z 10)%Q.

(* ------------------------------------------------------------------ *)
(** * Fixtures *)

Definition emptyDB : DB := mkDB [] [] [] [] [] [] [] [] [] [].

(** 2024-01-01, a Monday. *)
Definition monday : Date := 19723.

Definition worker : User.t := User.mk "w1" "Alex" STAFF.
Definition colleague : User.t := User.mk "w2" "Jordan" STAFF.
Definition manager : User.t := User.mk "m1" "Sarah" MANAGER.

Definition candidate (date : Date) (startTime endTime : Time) : ShiftData.t :=
  ShiftData.mk "s1" "l1" date startTime endTime "k1".

Definition shiftRow (shiftId : Id) (date : Date) (startTime endTime : Time) : Shift.t :=
  Shift.mk shiftId "l1" date startTime endTime "k1" 1 true (Some 0) 1 "m1" 0.

Definition withRules (rules : list AvailabilityRule.t) : DB :=
  mkDB ["l1"] ["k1"] [worker; colleague; manager] [] [] [] [] [] rules [].

(** Monday rules 09:00-12:00 and 13:00-17:00. *)
Definition gapRules : DB :=
  withRules [ AvailabilityRule.mk "w1" MON (mkTime 9 0) (mkTime 12 0);
              AvailabilityRule.mk "w1" MON (mkTime 13 0) (mkTime 17 0) ].

(** Monday rules 09:00-12:00 and 12:00-17:00: their union is 09:00-17:00. *)
Definition adjoiningRules : DB :=
  withRules [ AvailabilityRule.mk "w1" MON (mkTime 9 0) (mkTime 12 0);
              AvailabilityRule.mk "w1" MON (mkTime 12 0) (mkTime 17 0) ].

(** No recurring rule for Saturday 2024-01-06, and an [isAvailable = true]
    exception 10:00-18:00 for that date. *)
Definition saturdayException : DB :=
  mkDB ["l1"] ["k1"] [worker; colleague; manager] [] [] [] [] []
       [ AvailabilityRule.mk "w1" MON (mkTime 9 0) (mkTime 17 0) ]
       [ AvailabilityException.mk "w1" (monday + 5) true
           (Some (mkTime 10 0)) (Some (mkTime 18 0)) (Some "Available for extra shift") ].

(** The worker holds a Monday shift 14:00-22:00. *)
Definition eveningShift : Shift.t := shiftRow "s0" monday (mkTime 14 0) (mkTime 22 0).

Definition afterEvening : DB :=
  mkDB ["l1"] ["k1"] [worker; colleague; manager]
       [eveningShift]
       [ShiftAssignment.mk "a0" "s0" "w1" "m1" 0]
       [] [] [] [] [].

(** The worker is qualified and available on Sunday 2024-01-07 and holds a
    one-hour shift on each of the six days before; shift "s1" is the
    Sunday shift. *)
Definition sixDaysWorked : DB :=
  mkDB ["l1"] ["k1"] [worker; colleague; manager]
       [ shiftRow "d1" monday (mkTime 9 0) (mkTime 10 0);
         shiftRow "d2" (monday + 1) (mkTime 9 0) (mkTime 10 0);
         shiftRow "d3" (monday + 2) (mkTime 9 0) (mkTime 10 0);
         shiftRow "d4" (monday + 3) (mkTime 9 0) (mkTime 10 0);
         shiftRow "d5" (monday + 4) (mkTime 9 0) (mkTime 10 0);
         shiftRow "d6" (monday + 5) (mkTime 9 0) (mkTime 10 0);
         shiftRow "s1" (monday + 6) (mkTime 9 0) (mkTime 10 0) ]
       [ ShiftAssignment.mk "a1" "d1" "w1" "m1" 0;
         ShiftAssignment.mk "a2" "d2" "w1" "m1" 0;
         ShiftAssignment.mk "a3" "d3" "w1" "m1" 0;
         ShiftAssignment.mk "a4" "d4" "w1" "m1" 0;
         ShiftAssignment.mk "a5" "d5" "w1" "m1" 0;
         ShiftAssignment.mk "a6" "d6" "w1" "m1" 0 ]
       []
       [ StaffSkill.mk "w1" "k1" ]
       [ StaffLocationCert.mk "w1" "l1" ]
       [ AvailabilityRule.mk "w1" SUN (mkTime 8 0) (mkTime 18 0) ]
       [].

(** The requester's requests in status PENDING or ACCEPTED_BY_TARGET. *)
Definition concurrentCount (d : DB) (userId : Id) : Z :=
  Z.of_nat
    (List.length
       (filter (fun r => id_eqb (SwapRequest.requestedBy r) userId
                         && (SwapStatus_eqb (SwapRequest.status r) PENDING
                             || SwapStatus_eqb (SwapRequest.status r) ACCEPTED_BY_TARGET))
               (swapRequests d))).

Definition swapOf (requestId assignmentId : Id) (status : SwapStatus) : SwapRequest.t :=
  SwapRequest.mk requestId assignmentId "w1" SWAP (Some "w2") status None None None 0.

(** The worker holds four shifts; three of them carry a swap request in the
    given status. *)
Definition threeRequests (status : SwapStatus) : DB :=
  mkDB ["l1"] ["k1"] [worker; colleague; manager]
       [ shiftRow "d1" monday (mkTime 9 0) (mkTime 17 0);
         shiftRow "d2" (monday + 1) (mkTime 9 0) (mkTime 17 0);
         shiftRow "d3" (monday + 2) (mkTime 9 0) (mkTime 17 0);
         shiftRow "d4" (monday + 3) (mkTime 9 0) (mkTime 17 0) ]
       [ ShiftAssignment.mk "a1" "d1" "w1" "m1" 0;
         ShiftAssignment.mk "a2" "d2" "w1" "m1" 0;
         ShiftAssignment.mk "a3" "d3" "w1" "m1" 0;
         ShiftAssignment.mk "a4" "d4" "w1" "m1" 0 ]
       [ swapOf "r1" "a1" status; swapOf "r2" "a2" status; swapOf "r3" "a3" status ]
       [] [] [] [].

(** The request references an assignment of the shift. *)
Definition referencesShift (d : DB) (shiftId : Id) (r : SwapRequest.t) : Prop :=
  exists a, In a (shiftAssignments d)
            /\ ShiftAssignment.shiftId a = shiftId
            /\ ShiftAssignment.id a = SwapRequest.shiftAssignmentId r.

(** The selection of the cascade as one test on a request. *)
Definition pendingOnShift (d : DB) (shiftId : Id) (r : SwapRequest.t) : bool :=
  SwapStatus_eqb (SwapRequest.status r) PENDING
  && inArray (SwapRequest.shiftAssignmentId r) (assignmentIdsOf d shiftId).

Definition cascadeNote : string :=
  "Automatically cancelled because the shift was modified".

(** Shift "s1" (version 1) with two assignments; two PENDING requests, one
    ACCEPTED_BY_TARGET and one APPROVED request on them, and a PENDING
    request on another shift. *)
Definition editedShiftDB : DB :=
  mkDB ["l1"] ["k1"] [worker; colleague; manager]
       [ shiftRow "s1" monday (mkTime 9 0) (mkTime 17 0);
         shiftRow "s2" (monday + 1) (mkTime 9 0) (mkTime 17 0) ]
       [ ShiftAssignment.mk "a1" "s1" "w1" "m1" 0;
         ShiftAssignment.mk "a2" "s1" "w2" "m1" 0;
         ShiftAssignment.mk "a3" "s2" "w1" "m1" 0 ]
       [ swapOf "r1" "a1" PENDING;
         SwapRequest.mk "r2" "a2" "w2" DROP None PENDING None None None 0;
         swapOf "r3" "a1" ACCEPTED_BY_TARGET;
         SwapRequest.mk "r4" "a2" "w2" SWAP (Some "w1") APPROVED (Some "m1") (Some 7)
                        (Some "ok") 7;
         swapOf "r5" "a3" PENDING ]
       [] [] [] [].

Definition editForm : ShiftForm :=
  mkShiftForm "l1" monday (mkTime 10 0) (mkTime 18 0) "k1" 2.

Definition alreadyProcessed : string := "This request has already been processed".

Definition onlyPending : string := "Only pending requests can be cancelled".

(** The worker's request "r1" was approved, "r2" was denied. *)
Definition processedRequests : DB :=
  mkDB ["l1"] ["k1"] [worker; colleague; manager]
       [ shiftRow "d1" monday (mkTime 9 0) (mkTime 17 0) ]
       [ ShiftAssignment.mk "a1" "d1" "w2" "m1" 7 ]
       [ SwapRequest.mk "r1" "a1" "w1" SWAP (Some "w2") APPROVED (Some "m1") (Some 7)
                        (Some "ok") 7;
         SwapRequest.mk "r2" "a1" "w1" DROP None DENIED (Some "m1") (Some 3)
                        (Some "no cover") 3 ]
       [] [] [] [].

(** The mutations of the [shifts] table: every [insert], [update] and
    [delete] on it in the repository. *)
Inductive ShiftOp :=
| CreateShift (newId : Id) (f : ShiftForm)
| UpdateShift (shiftId : Id) (f : ShiftForm) (version : Z)
| DeleteShift (shiftId locationId : Id)
| PublishShift (shiftId locationId : Id)
| UnpublishShift (shiftId locationId : Id).

Definition runShiftOp (session : option User.t) (now : Z) (op : ShiftOp) (w : World)
  : ActionResult * World :=
  match op with
  | CreateShift newId f => createShift session now newId f w
  | UpdateShift shiftId f version => updateShift session now shiftId f version w
  | DeleteShift shiftId locationId => deleteShift session now shiftId locationId w
  | PublishShift shiftId locationId => publishShift session now shiftId locationId w
  | UnpublishShift shiftId locationId => unpublishShift session now shiftId locationId w
  end.

(** The stored version of a shift. *)
Definition versionOf (d : DB) (shiftId : Id) : option Z :=
  option_map Shift.version (shiftById d shiftId).

Definition editGuard (shiftId : Id) (version : Z) (s : Shift.t) : bool :=
  id_eqb (Shift.id s) shiftId && (Shift.version s =? version).

Definition publishGuard (shiftId : Id) (published : bool) (s : Shift.t) : bool :=
  id_eqb (Shift.id s) shiftId && Bool.eqb (Shift.isPublished s) published.

Definition versionConflict : string :=
  "Shift was modified by another user. Please refresh and try again.".

(** One draft shift "s1" at version 3, one published shift "s2" far ahead. *)
Definition versionedShifts : DB :=
  mkDB ["l1"] ["k1"] [worker; colleague; manager]
       [ Shift.mk "s1" "l1" monday (mkTime 9 0) (mkTime 17 0) "k1" 2 false None 3 "m1" 0;
         Shift.mk "s2" "l1" (monday + 30) (mkTime 9 0) (mkTime 17 0) "k1" 2 true (Some 0) 5 "m1" 0 ]
       [] [] [] [] [] [].

(** Two shifts overlap in absolute time. *)
Definition overlapping (a b : Shift.t) : Prop :=
  absStart (Shift.date a) (Shift.startTime a) (Shift.endTime a)
  < absEnd (Shift.date b) (Shift.startTime b) (Shift.endTime b)
  /\ absStart (Shift.date b) (Shift.startTime b) (Shift.endTime b)
     < absEnd (Shift.date a) (Shift.startTime a) (Shift.endTime a).

(** The staff member holds two different assignments whose shifts overlap. *)
Definition doubleBooked (d : DB) (staffId : Id) : Prop :=
  exists a1 a2 s1 s2,
    In a1 (shiftAssignments d) /\ In a2 (shiftAssignments d)
    /\ ShiftAssignment.id a1 <> ShiftAssignment.id a2
    /\ ShiftAssignment.staffId a1 = staffId /\ ShiftAssignment.staffId a2 = staffId
    /\ shiftById d (ShiftAssignment.shiftId a1) = Some s1
    /\ shiftById d (ShiftAssignment.shiftId a2) = Some s2
    /\ overlapping s1 s2.

(** "w1" holds shift "s1" (Monday 09:00-17:00), "w2" holds shift "s2"
    (Monday 12:00-20:00); "w1" asked to swap "s1" with "w2", who accepted. *)
Definition acceptedSwap : DB :=
  mkDB ["l1"] ["k1"] [worker; colleague; manager]
       [ shiftRow "s1" monday (mkTime 9 0) (mkTime 17 0);
         shiftRow "s2" monday (mkTime 12 0) (mkTime 20 0) ]
       [ ShiftAssignment.mk "a1" "s1" "w1" "m1" 0;
         ShiftAssignment.mk "a2" "s2" "w2" "m1" 0 ]
       [ swapOf "r1" "a1" ACCEPTED_BY_TARGET ]
       [ StaffSkill.mk "w2" "k1" ]
       [ StaffLocationCert.mk "w2" "l1" ]
       [ AvailabilityRule.mk "w2" MON (mkTime 8 0) (mkTime 22 0) ]
       [].

(** The conditions under which [pickUpShift] answers with a failure, for a
    signed-in staff member. *)
Definition pickupRejected (d : DB) (userId : Id) (now : Z) (shiftId : Id) : Prop :=
  match shiftById d shiftId with
  | None => True
  | Some shift =>
      Shift.isPublished shift = false
      \/ startInstant (Shift.date shift) (Shift.startTime shift) <= now
      \/ Shift.headcount shift
         <= Z.of_nat (List.length
                        (filter (fun a => id_eqb (ShiftAssignment.shiftId a) shiftId)
                                (shiftAssignments d)))
      \/ exists a, In a (shiftAssignments d)
                   /\ ShiftAssignment.shiftId a = shiftId
                   /\ ShiftAssignment.staffId a = userId
  end.

(** The published Sunday shift "s1" has room for two.  The worker has no
    skill, no certification and no availability rule, worked the six days
    before (the last shift ending at 23:30) and already holds a Sunday
    shift 08:00-16:00. *)
Definition unqualifiedWorker : DB :=
  mkDB ["l1"] ["k1"] [worker; colleague; manager]
       [ shiftRow "d1" monday (mkTime 9 0) (mkTime 10 0);
         shiftRow "d2" (monday + 1) (mkTime 9 0) (mkTime 10 0);
         shiftRow "d3" (monday + 2) (mkTime 9 0) (mkTime 10 0);
         shiftRow "d4" (monday + 3) (mkTime 9 0) (mkTime 10 0);
         shiftRow "d5" (monday + 4) (mkTime 9 0) (mkTime 10 0);
         shiftRow "d6" (monday + 5) (mkTime 14 0) (mkTime 23 30);
         shiftRow "o1" (monday + 6) (mkTime 8 0) (mkTime 16 0);
         Shift.mk "s1" "l1" (monday + 6) (mkTime 9 0) (mkTime 17 0) "k1" 2 true (Some 0) 1 "m1" 0 ]
       [ ShiftAssignment.mk "a1" "d1" "w1" "m1" 0;
         ShiftAssignment.mk "a2" "d2" "w1" "m1" 0;
         ShiftAssignment.mk "a3" "d3" "w1" "m1" 0;
         ShiftAssignment.mk "a4" "d4" "w1" "m1" 0;
         ShiftAssignment.mk "a5" "d5" "w1" "m1" 0;
         ShiftAssignment.mk "a6" "d6" "w1" "m1" 0;
         ShiftAssignment.mk "a7" "o1" "w1" "m1" 0 ]
       [] [] [] [] [].

(* ------------------------------------------------------------------ *)
(** * Further actions of [assignment-actions.ts] and
      [swap-requests/actions.ts] *)

Definition unassignStaffFromShift (session : option User.t)
  (shiftId staffId locationId : Id) (w : World) : ActionResult * World :=
  match requireRole [MANAGER; ADMIN] session with
  | None => (Failure "Failed to unassign staff", w)
  | Some user =>
      (Success,
       setStore w
         (deleteAssignmentsWhere
            (fun a => id_eqb (ShiftAssignment.shiftId a) shiftId
                      && id_eqb (ShiftAssignment.staffId a) staffId)
            (store w)))
  end.

(** The [.set({...})] of a denial; an [undefined] value ([notes] not given)
    is left out of the update. *)
Definition deniedRequest (userId : Id) (now : Z) (notes : option string)
  (r : SwapRequest.t) : SwapRequest.t :=
  {| SwapRequest.id := SwapRequest.id r;
     SwapRequest.shiftAssignmentId := SwapRequest.shiftAssignmentId r;
     SwapRequest.requestedBy := SwapRequest.requestedBy r;
     SwapRequest.type := SwapRequest.type r;
     SwapRequest.targetStaffId := SwapRequest.targetStaffId r;
     SwapRequest.status := DENIED;
     SwapRequest.reviewedBy := Some userId;
     SwapRequest.reviewedAt := Some now;
     SwapRequest.reviewNotes :=
       match notes with Some n => Some n | None => SwapRequest.reviewNotes r end;
     SwapRequest.updatedAt := now |}.

Definition denyTx (user : User.t) (now : Z) (requestId : Id)
  (notes : option string) : Tx unit :=
  pg_advisory_xact_lock requestId ;;;
  found <- select (fun d => requestById d requestId) ;;
  match found with
  | None => throw "NOT_FOUND"
  | Some request =>
      if negb (SwapStatus_eqb (SwapRequest.status request) PENDING)
         && negb (SwapStatus_eqb (SwapRequest.status request) ACCEPTED_BY_TARGET)
      then throw "NOT_PENDING"
      else
        execute (fun d =>
                   withSwapRequests d
                     (updateWhere (fun r => id_eqb (SwapRequest.id r) requestId)
                                  (deniedRequest (User.id user) now notes)
                                  (swapRequests d)))
  end.

Definition denySwapRequest (session : option User.t) (now : Z)
  (requestId : Id) (notes : option string) (w : World) : ActionResult * World :=
  match requireRole [MANAGER; ADMIN] session with
  | None => (Failure "Failed to deny swap request", w)
  | Some user =>
      match transaction (denyTx user now requestId notes) w with
      | (inl msg, w') =>
          if (msg =? "NOT_FOUND")%string then (Failure "Swap request not found", w')
          else if (msg =? "NOT_PENDING")%string then
            (Failure "This request has already been processed by another manager", w')
          else (Failure "Failed to deny swap request", w')
      | (inr _, w') => (Success, w')
      end
  end.

(** [request.targetStaffId !== user.id] *)
Definition isTarget (request : SwapRequest.t) (user : User.t) : bool :=
  match SwapRequest.targetStaffId request with
  | Some target => id_eqb target (User.id user)
  | None => false
  end.

(** The [.set({...})] of the target's acceptance. *)
Definition acceptedRequest (now : Z) (r : SwapRequest.t) : SwapRequest.t :=
  {| SwapRequest.id := SwapRequest.id r;
     SwapRequest.shiftAssignmentId := SwapRequest.shiftAssignmentId r;
     SwapRequest.requestedBy := SwapRequest.requestedBy r;
     SwapRequest.type := SwapRequest.type r;
     SwapRequest.targetStaffId := SwapRequest.targetStaffId r;
     SwapRequest.status := ACCEPTED_BY_TARGET;
     SwapRequest.reviewedBy := SwapRequest.reviewedBy r;
     SwapRequest.reviewedAt := SwapRequest.reviewedAt r;
     SwapRequest.reviewNotes := SwapRequest.reviewNotes r;
     SwapRequest.updatedAt := now |}.

(** The [.set({...})] of the target's refusal. *)
Definition declinedRequest (now : Z) (r : SwapRequest.t) : SwapRequest.t :=
  {| SwapRequest.id := SwapRequest.id r;
     SwapRequest.shiftAssignmentId := SwapRequest.shiftAssignmentId r;
     SwapRequest.requestedBy := SwapRequest.requestedBy r;
     SwapRequest.type := SwapRequest.type r;
     SwapRequest.targetStaffId := SwapRequest.targetStaffId r;
     SwapRequest.status := DENIED;
     SwapRequest.reviewedBy := SwapRequest.reviewedBy r;
     SwapRequest.reviewedAt := SwapRequest.reviewedAt r;
     SwapRequest.reviewNotes := Some "Declined by target staff";
     SwapRequest.updatedAt := now |}.

(** The transaction shared by [acceptSwapAsTarget] and
    [declineSwapAsTarget]: they differ in the values they set. *)
Definition targetTx (user : User.t) (requestId : Id)
  (set : SwapRequest.t -> SwapRequest.t) : Tx unit :=
  pg_advisory_xact_lock requestId ;;;
  found <- select (fun d => requestById d requestId) ;;
  match found with
  | None => throw "NOT_FOUND"
  | Some request =>
      if negb (isTarget request user) then throw "NOT_TARGET"
      else if negb (SwapType_eqb (SwapRequest.type request) SWAP) then throw "NOT_SWAP"
      else if negb (SwapStatus_eqb (SwapRequest.status request) PENDING)
      then throw "NOT_PENDING"
      else
        execute (fun d =>
                   withSwapRequests d
                     (updateWhere (fun r => id_eqb (SwapRequest.id r) requestId)
                                  set (swapRequests d)))
  end.

(** The mapping of the thrown errors, the same in both actions. *)
Definition targetOutcome (generic : string) (r : (string + unit) * World)
  : ActionResult * World :=
  match r with
  | (inl msg, w') =>
      if (msg =? "NOT_FOUND")%string then (Failure "Swap request not found", w')
      else if (msg =? "NOT_TARGET")%string then
        (Failure "You are not the target of this swap request", w')
      else if (msg =? "NOT_SWAP")%string then (Failure "This is not a swap request", w')
      else if (msg =? "NOT_PENDING")%string then
        (Failure "This request has already been processed", w')
      else (Failure generic, w')
  | (inr _, w') => (Success, w')
  end.

Definition acceptSwapAsTarget (session : option User.t) (now : Z)
  (requestId : Id) (w : World) : ActionResult * World :=
  match requireAuth session with
  | None => (Failure "Failed to accept swap request", w)
  | Some user =>
      targetOutcome "Failed to accept swap request"
        (transaction (targetTx user requestId (acceptedRequest now)) w)
  end.

Definition declineSwapAsTarget (session : option User.t) (now : Z)
  (requestId : Id) (w : World) : ActionResult * World :=
  match requireAuth session with
  | None => (Failure "Failed to decline swap request", w)
  | Some user =>
      targetOutcome "Failed to decline swap request"
        (transaction (targetTx user requestId (declinedRequest now)) w)
  end.

(** The [.set({...})] of the lazy expiry. *)
Definition expiredRequest (now : Z) (r : SwapRequest.t) : SwapRequest.t :=
  {| SwapRequest.id := SwapRequest.id r;
     SwapRequest.shiftAssignmentId := SwapRequest.shiftAssignmentId r;
     SwapRequest.requestedBy := SwapRequest.requestedBy r;
     SwapRequest.type := SwapRequest.type r;
     SwapRequest.targetStaffId := SwapRequest.targetStaffId r;
     SwapRequest.status := CANCELLED;
     SwapRequest.reviewedBy := SwapRequest.reviewedBy r;
     SwapRequest.reviewedAt := SwapRequest.reviewedAt r;
     SwapRequest.reviewNotes := Some "Automatically expired (shift starts within 24 hours)";
     SwapRequest.updatedAt := now |}.

(** [type = 'DROP' AND status = 'PENDING'] *)
Definition isPendingDrop (r : SwapRequest.t) : bool :=
  SwapType_eqb (SwapRequest.type r) DROP
  && SwapStatus_eqb (SwapRequest.status r) PENDING.

(** The loop of [expireOldDropRequests] over the joined rows: for a shift
    within 24 hours the first pending drop on its assignment is collected. *)
Definition expiredRequestIds (now : Z) (pendingDrops : list SwapRequest.t)
  (shiftsToCheck : list (ShiftAssignment.t * Shift.t)) : list Id :=
  flat_map
    (fun row =>
       if Qle_bool (hoursUntil (Shift.date (snd row)) (Shift.startTime (snd row)) now)
                   (inject_Z 24)
       then
         match find (fun d => id_eqb (SwapRequest.shiftAssignmentId d)
                                     (ShiftAssignment.id (fst row)))
                    pendingDrops with
         | Some dropRequest => [SwapRequest.id dropRequest]
         | None => []
         end
       else [])
    shiftsToCheck.

Definition expireOldDropRequests (now : Z) (d : DB) : DB :=
  let pendingDrops := filter isPendingDrop (swapRequests d) in
  if (List.length pendingDrops =? 0)%nat then d
  else
    let assignmentIds := map SwapRequest.shiftAssignmentId pendingDrops in
    let shiftsToCheck :=
      filter (fun row => inArray (ShiftAssignment.id (fst row)) assignmentIds)
             (assignmentsWithShifts d) in
    let expired := expiredRequestIds now pendingDrops shiftsToCheck in
    if nonEmpty expired then
      withSwapRequests d
        (updateWhere (fun r => inArray (SwapRequest.id r) expired)
                     (expiredRequest now) (swapRequests d))
    else d.

(** A pending drop whose shift starts within 24 hours of [now]: what the
    lazy expiry looks for. *)
Definition dueDrop (d : DB) (now : Z) (r : SwapRequest.t) : Prop :=
  SwapRequest.type r = DROP
  /\ SwapRequest.status r = PENDING
  /\ exists a s,
      In a (shiftAssignments d) /\ In s (shifts d)
      /\ ShiftAssignment.id a = SwapRequest.shiftAssignmentId r
      /\ Shift.id s = ShiftAssignment.shiftId a
      /\ Qle_bool (hoursUntil (Shift.date s) (Shift.startTime s) now) (inject_Z 24) = true.

(** The worker's Monday shift "d1" with a pending drop request, a pending
    swap request on the Tuesday shift and a pending drop on a shift a month
    ahead. *)
Definition dropsToExpire : DB :=
  mkDB ["l1"] ["k1"] [worker; colleague; manager]
       [ shiftRow "d1" monday (mkTime 9 0) (mkTime 17 0);
         shiftRow "d2" (monday + 1) (mkTime 9 0) (mkTime 17 0);
         shiftRow "d3" (monday + 30) (mkTime 9 0) (mkTime 17 0) ]
       [ ShiftAssignment.mk "a1" "d1" "w1" "m1" 0;
         ShiftAssignment.mk "a2" "d2" "w1" "m1" 0;
         ShiftAssignment.mk "a3" "d3" "w1" "m1" 0 ]
       [ SwapRequest.mk "r1" "a1" "w1" DROP None PENDING None None None 0;
         swapOf "r2" "a2" PENDING;
         SwapRequest.mk "r3" "a3" "w1" DROP None PENDING None None None 0 ]
       [] [] [] [].

(** The shift starts no more than [hours] hours after [now]. *)
Definition startsWithin (hours : Z) (s : Shift.t) (now : Z) : Prop :=
  startInstant (Shift.date s) (Shift.startTime s) - now <= hours * 3600000.

Definition cutoffMessage : string :=
  "Cannot delete shift within 48 hours of its start time".

(** A published shift "s1" on Monday 09:00 held by the worker, with a
    pending drop request on the assignment, and an unrelated shift. *)
Definition publishedMonday : DB :=
  mkDB ["l1"] ["k1"] [worker; colleague; manager]
       [ shiftRow "s1" monday (mkTime 9 0) (mkTime 17 0);
         shiftRow "s2" (monday + 1) (mkTime 9 0) (mkTime 17 0) ]
       [ ShiftAssignment.mk "a1" "s1" "w1" "m1" 0;
         ShiftAssignment.mk "a2" "s2" "w2" "m1" 0 ]
       [ SwapRequest.mk "r1" "a1" "w1" DROP None PENDING None None None 0 ]
       [] [] [] [].

(** The same hours a month later. *)
Definition monthLater : ShiftForm :=
  mkShiftForm "l1" (monday + 30) (mkTime 9 0) (mkTime 17 0) "k1" 1.

(** A shift after a publish at [t1] and an unpublish at [t2]: a draft again,
    two versions later. *)
Definition republishedDraft (t2 : Z) (s : Shift.t) : Shift.t :=
  {| Shift.id := Shift.id s;
     Shift.locationId := Shift.locationId s;
     Shift.date := Shift.date s;
     Shift.startTime := Shift.startTime s;
     Shift.endTime := Shift.endTime s;
     Shift.skillId := Shift.skillId s;
     Shift.headcount := Shift.headcount s;
     Shift.isPublished := false;
     Shift.publishedAt := None;
     Shift.version := Shift.version s + 2;
     Shift.createdBy := Shift.createdBy s;
     Shift.updatedAt := t2 |}.

(** A time of day as the [time] column holds it. *)
Definition wellFormedTime (t : Time) : Prop :=
  0 <= hour t < 24 /\ 0 <= minute t < 60.

Definition wellFormedShift (s : Shift.t) : Prop :=
  wellFormedTime (Shift.startTime s) /\ wellFormedTime (Shift.endTime s).

Definition wellFormedShifts (d : DB) : Prop :=
  forall s, In s (shifts d) -> wellFormedShift s.

(** No staff member is assigned twice to one shift. *)
Definition onePerShiftAndWorker (d : DB) : Prop :=
  NoDup (map (fun a => (ShiftAssignment.shiftId a, ShiftAssignment.staffId a))
             (shiftAssignments d)).

(** The number of assignments of a shift. *)
Definition assignmentCount (d : DB) (shiftId : Id) : Z :=
  Z.of_nat (List.length
              (filter (fun a => id_eqb (ShiftAssignment.shiftId a) shiftId)
                      (shiftAssignments d))).

(** The candidate of a validation seen as a shift row, for [overlapping]. *)
Definition candidateRow (c : ShiftData.t) : Shift.t :=
  Shift.mk (ShiftData.id c) (ShiftData.locationId c) (ShiftData.date c)
           (ShiftData.startTime c) (ShiftData.endTime c) (ShiftData.skillId c)
           1 false None 1 "" 0.

(** The worker holds the Monday shift "s1"; the Tuesday shift "s2" has room
    for two and is open; the colleague is qualified, certified and available
    on Tuesdays.  No swap request exists. *)
Definition openTuesday : DB :=
  mkDB ["l1"] ["k1"] [worker; colleague; manager]
       [ shiftRow "s1" monday (mkTime 9 0) (mkTime 17 0);
         Shift.mk "s2" "l1" (monday + 1) (mkTime 9 0) (mkTime 17 0) "k1" 2 true (Some 0) 1 "m1" 0 ]
       [ ShiftAssignment.mk "a1" "s1" "w1" "m1" 0 ]
       []
       [ StaffSkill.mk "w2" "k1" ]
       [ StaffLocationCert.mk "w2" "l1" ]
       [ AvailabilityRule.mk "w2" TUE (mkTime 8 0) (mkTime 22 0) ]
       [].

(** An insert on the assignments table. *)
Definition insertedAssignment (newId shiftId staffId assignedBy : Id) (now : Z)
  : ShiftAssignment.t :=
  ShiftAssignment.mk newId shiftId staffId assignedBy now.

(** The staff member holds a shift dated [date]. *)
Definition worksOn (db : DB) (staffId : Id) (date : Date) : Prop :=
  exists s, In s (shiftsOfStaff db staffId) /\ Shift.date s = date.

(** The staff member has an exception marked unavailable on [date]. *)
Definition blockedOn (db : DB) (staffId : Id) (date : Date) : Prop :=
  exists exception,
    In exception (availabilityExceptions db)
    /\ AvailabilityException.staffId exception = staffId
    /\ AvailabilityException.date exception = date
    /\ AvailabilityException.isAvailable exception = false.

(** The Monday-to-Sunday week a day number lies in: day 0 was a Thursday, so
    day [7 * k - 3] is the Monday of week [k]. *)
Definition weekOf (date : Date) : Z := (date + 3) / 7.

Definition mondayOf (date : Date) : Date := 7 * weekOf date - 3.

(* ------------------------------------------------------------------ *)
(** * Availability settings ([settings/actions.ts]) *)

Definition withAvailabilityRules (d : DB) (xs : list AvailabilityRule.t) : DB :=
  {| locations := locations d; skills := skills d;
     users := users d; shifts := shifts d; shiftAssignments := shiftAssignments d;
     swapRequests := swapRequests d; staffSkills := staffSkills d;
     staffLocationCerts := staffLocationCerts d;
     availabilityRules := xs;
     availabilityExceptions := availabilityExceptions d |}.

Definition withAvailabilityExceptions (d : DB) (xs : list AvailabilityException.t) : DB :=
  {| locations := locations d; skills := skills d;
     users := users d; shifts := shifts d; shiftAssignments := shiftAssignments d;
     swapRequests := swapRequests d; staffSkills := staffSkills d;
     staffLocationCerts := staffLocationCerts d;
     availabilityRules := availabilityRules d;
     availabilityExceptions := xs |}.

(** [UPDATE t SET ... WHERE id = existing.id] after a [LIMIT 1] lookup by
    [p]: the availability rows carry no id here; the row the lookup returned
    is the first match, and its primary key selects that row alone. *)
Fixpoint updateFirst {A : Type} (p : A -> bool) (f : A -> A) (rows : list A) : list A :=
  match rows with
  | [] => []
  | r :: rest => if p r then f r :: rest else r :: updateFirst p f rest
  end.

(** The two times arrive as texts; [None] is the empty text. *)
Definition saveAvailabilityRule (session : option User.t) (dayOfWeek : DayOfWeek)
  (startTime endTime : option Time) (w : World) : ActionResult * World :=
  match session with
  | None => (Failure "Not authenticated", w)
  | Some user =>
      if negb (Role_eqb (User.role user) STAFF)
      then (Failure "Only staff can set availability", w)
      else
        match startTime, endTime with
        | Some startTime, Some endTime =>
            let mine := fun r => id_eqb (AvailabilityRule.staffId r) (User.id user)
                                 && DayOfWeek_eqb (AvailabilityRule.dayOfWeek r) dayOfWeek in
            (* both writes bind the two times to [time] columns *)
            if negb (timeColumn startTime && timeColumn endTime)
            then (Failure "Failed to save availability rule", w)
            else
            match hd_error (filter mine (availabilityRules (store w))) with
            | Some existing =>
                (Success,
                 setStore w
                   (withAvailabilityRules (store w)
                      (updateFirst mine
                         (fun r => AvailabilityRule.mk (AvailabilityRule.staffId r)
                                                       (AvailabilityRule.dayOfWeek r)
                                                       startTime endTime)
                         (availabilityRules (store w)))))
            | None =>
                (Success,
                 setStore w
                   (withAvailabilityRules (store w)
                      (availabilityRules (store w)
                       ++ [AvailabilityRule.mk (User.id user) dayOfWeek startTime endTime])))
            end
        | _, _ => (Failure "Start and end times are required", w)
        end
  end.

Definition saveAvailabilityException (session : option User.t) (date : Date)
  (isAvailable : bool) (startTime endTime : option Time) (reason : option string)
  (w : World) : ActionResult * World :=
  match session with
  | None => (Failure "Not authenticated", w)
  | Some user =>
      if negb (Role_eqb (User.role user) STAFF)
      then (Failure "Only staff can set availability", w)
      else
        let mine := fun e => id_eqb (AvailabilityException.staffId e) (User.id user)
                             && (AvailabilityException.date e =? date) in
        let nullableTime := fun t => match t with Some t => timeColumn t | None => true end in
        (* both writes bind the two nullable times to [time] columns *)
        if negb (nullableTime startTime && nullableTime endTime)
        then (Failure "Failed to save availability exception", w)
        else
        match hd_error (filter mine (availabilityExceptions (store w))) with
        | Some existing =>
            (Success,
             setStore w
               (withAvailabilityExceptions (store w)
                  (updateFirst mine
                     (fun e => AvailabilityException.mk (AvailabilityException.staffId e)
                                                        (AvailabilityException.date e)
                                                        isAvailable startTime endTime reason)
                     (availabilityExceptions (store w)))))
        | None =>
            (Success,
             setStore w
               (withAvailabilityExceptions (store w)
                  (availabilityExceptions (store w)
                   ++ [AvailabilityException.mk (User.id user) date isAvailable
                                                startTime endTime reason])))
        end
  end.

(** At most one recurring rule for the staff member and the weekday. *)
Definition atMostOneRule (d : DB) (staffId : Id) (dayOfWeek : DayOfWeek) : Prop :=
  (List.length (rulesFor d staffId dayOfWeek) <= 1)%nat.

(* ------------------------------------------------------------------ *)
(** * The overtime preview ([overtime/actions.ts]) *)

Record AssignmentImpact := mkImpact {
  currentWeeklyHours : Q;
  shiftHours : Q;
  newWeeklyHours : Q;
  currentDailyHours : Q;
  newDailyHours : Q;
  wouldCauseOvertime : bool;
  overtimeHours : Q;
  projectedCostImpact : Q;
  warnings : list Message
}.

(** [(end - start) / (1000 * 60 * 60)] on the two clock times of one day,
    plus 24 when [end <= start]. *)
Definition hoursBetween (startTime endTime : Time) : Q :=
  let hours := msToHours (toMinutes endTime * 60000 - toMinutes startTime * 60000) in
  if toMinutes endTime <=? toMinutes startTime then (hours + inject_Z 24)%Q else hours.

Definition sumHoursBetween (rows : list Shift.t) : Q :=
  fold_left (fun total s =>
               (total + hoursBetween (Shift.startTime s) (Shift.endTime s))%Q)
            rows (inject_Z 0).

Definition noImpact : AssignmentImpact :=
  {| currentWeeklyHours := inject_Z 0; shiftHours := inject_Z 0;
     newWeeklyHours := inject_Z 0; currentDailyHours := inject_Z 0;
     newDailyHours := inject_Z 0; wouldCauseOvertime := false;
     overtimeHours := inject_Z 0; projectedCostImpact := inject_Z 0;
     warnings := [] |}.

Definition analyzeAssignmentImpact (session : option User.t) (staffId : Id)
  (shiftDate : Date) (shiftStartTime shiftEndTime : Time) (d : DB) : AssignmentImpact :=
  match requireRole [MANAGER; ADMIN] session with
  | None => noImpact
  | Some _ =>
      let shiftHours := hoursBetween shiftStartTime shiftEndTime in
      let dayOfWeek := getDay shiftDate in
      let weekStart := shiftDate - dayOfWeek in
      let weekEnd := weekStart + 6 in
      let weeklyAssignments :=
        filter (fun s => (Shift.date s >=? weekStart) && (Shift.date s <=? weekEnd))
               (shiftsOfStaff d staffId) in
      let currentWeeklyHours := sumHoursBetween weeklyAssignments in
      let dailyAssignments :=
        filter (fun s => Shift.date s =? shiftDate) (shiftsOfStaff d staffId) in
      let currentDailyHours := sumHoursBetween dailyAssignments in
      let newWeeklyHours := (currentWeeklyHours + shiftHours)%Q in
      let newDailyHours := (currentDailyHours + shiftHours)%Q in
      let wouldCauseOvertime := Qgtb newWeeklyHours (inject_Z 40) in
      let overtimeHours :=
        if Qgtb (newWeeklyHours - inject_Z 40)%Q (inject_Z 0)
        then (newWeeklyHours - inject_Z 40)%Q else inject_Z 0 in
      let REGULAR_RATE := inject_Z 15 in
      let OVERTIME_RATE := Qmake 45 2 in
      let projectedCostImpact :=
        if Qgeb currentWeeklyHours (inject_Z 40) then
          (shiftHours * OVERTIME_RATE)%Q
        else if Qgtb newWeeklyHours (inject_Z 40) then
          let regularHours := (inject_Z 40 - currentWeeklyHours)%Q in
          let overtimeHours := (shiftHours - regularHours)%Q in
          (regularHours * REGULAR_RATE + overtimeHours * OVERTIME_RATE)%Q
        else (shiftHours * REGULAR_RATE)%Q in
      let daily :=
        if Qgtb newDailyHours (inject_Z 12) then
          [ [Lit "Would exceed 12-hour daily limit ("; Fixed1 newDailyHours; Lit " hours)"] ]
        else if Qgtb newDailyHours (inject_Z 8) then
          [ [Lit "Would exceed 8-hour standard day ("; Fixed1 newDailyHours; Lit " hours)"] ]
        else [] in
      let weekly :=
        if wouldCauseOvertime then
          [ [Lit "Would cause "; Fixed1 overtimeHours; Lit " overtime hours this week"] ]
        else if Qgeb newWeeklyHours (inject_Z 35) then
          [ [Lit "Approaching 40-hour overtime threshold ("; Fixed1 newWeeklyHours;
             Lit " hours)"] ]
        else [] in
      {| currentWeeklyHours := currentWeeklyHours;
         shiftHours := shiftHours;
         newWeeklyHours := newWeeklyHours;
         currentDailyHours := currentDailyHours;
         newDailyHours := newDailyHours;
         wouldCauseOvertime := wouldCauseOvertime;
         overtimeHours := overtimeHours;
         projectedCostImpact := projectedCostImpact;
         warnings := daily ++ weekly |}
  end.

(** The Sunday-to-Saturday week a day number lies in: day 3 was a Sunday. *)
Definition sundayWeekOf (date : Date) : Z := (date + 4) / 7.

Definition sundayOf (date : Date) : Date := 7 * sundayWeekOf date - 4.

(* ------------------------------------------------------------------ *)
(** * Swap candidates ([my-shifts/swap-actions.ts]) *)

Inductive EligibleResult :=
| EligibleStaff (staff : list User.t)
| EligibleFailure (msg : string).

(** [a < b] on two [time] values. *)
Definition time_ltb (a b : Time) : bool := negb (time_leb b a).

(** The one [inArray] of [getEligibleStaffForSwap] that is reached with an
    empty list is the exceptions query.  Whether that throws or matches no
    row depends on the release of the query builder, which the repository
    does not pin down in the sources; [emptyInArrayThrows] says which. *)
Definition getEligibleStaffForSwap (emptyInArrayThrows : bool)
  (session : option User.t) (assignmentId : Id) (shiftDate : Date)
  (shiftStartTime shiftEndTime : Time) (skillId locationId : Id) (d : DB)
  : EligibleResult :=
  match requireRole [STAFF] session with
  | None => EligibleFailure "Failed to fetch eligible staff"
  | Some user =>
      let staffWithSkill :=
        filter (fun r => id_eqb (StaffSkill.skillId r) skillId) (staffSkills d) in
      if (List.length staffWithSkill =? 0)%nat then EligibleStaff []
      else
        let staffIds := map StaffSkill.staffId staffWithSkill in
        let staffWithCert :=
          filter (fun c => id_eqb (StaffLocationCert.locationId c) locationId
                           && inArray (StaffLocationCert.staffId c) staffIds)
                 (staffLocationCerts d) in
        if (List.length staffWithCert =? 0)%nat then EligibleStaff []
        else
          let certifiedStaffIds := map StaffLocationCert.staffId staffWithCert in
          let dayOfWeek := DAY_ENUMS (getDay shiftDate) in
          let availableStaff :=
            filter (fun r => DayOfWeek_eqb (AvailabilityRule.dayOfWeek r) dayOfWeek
                             && inArray (AvailabilityRule.staffId r) certifiedStaffIds
                             && time_leb (AvailabilityRule.startTime r) shiftStartTime
                             && time_leb shiftEndTime (AvailabilityRule.endTime r))
                   (availabilityRules d) in
          let availableStaffIds := map AvailabilityRule.staffId availableStaff in
          if emptyInArrayThrows && (List.length availableStaffIds =? 0)%nat
          then EligibleFailure "Failed to fetch eligible staff"
          else
            let exceptions :=
              filter (fun e => (AvailabilityException.date e =? shiftDate)
                               && inArray (AvailabilityException.staffId e) availableStaffIds)
                     (availabilityExceptions d) in
            let unavailableStaffIds :=
              map AvailabilityException.staffId
                  (filter (fun e => negb (AvailabilityException.isAvailable e)) exceptions) in
            let finalAvailableIds :=
              filter (fun id => negb (inArray id unavailableStaffIds)) availableStaffIds in
            if (List.length finalAvailableIds =? 0)%nat then EligibleStaff []
            else
              let overlappingAssignments :=
                filter (fun row =>
                          (Shift.date (snd row) =? shiftDate)
                          && inArray (ShiftAssignment.staffId (fst row)) finalAvailableIds
                          && time_ltb (Shift.startTime (snd row)) shiftEndTime
                          && time_ltb shiftStartTime (Shift.endTime (snd row)))
                       (assignmentsWithShifts d) in
              let busyStaffIds :=
                map (fun row => ShiftAssignment.staffId (fst row)) overlappingAssignments in
              let finalAvailableIds :=
                filter (fun id => negb (inArray id busyStaffIds)) finalAvailableIds in
              let finalAvailableIds :=
                filter (fun id => negb (id_eqb id (User.id user))) finalAvailableIds in
              if (List.length finalAvailableIds =? 0)%nat then EligibleStaff []
              else
                EligibleStaff
                  (filter (fun u => inArray (User.id u) finalAvailableIds) (users d))
  end.

(** Every recurring rule holds two times of day. *)
Definition wellFormedRules (d : DB) : Prop :=
  forall r, In r (availabilityRules d) ->
            wellFormedTime (AvailabilityRule.startTime r)
            /\ wellFormedTime (AvailabilityRule.endTime r).

(** The colleague is qualified, certified and available on Mondays; the
    worker asks who could take the Monday shift. *)
Definition swapCandidates : DB :=
  mkDB ["l1"] ["k1"] [worker; colleague; manager]
       [ shiftRow "s1" monday (mkTime 9 0) (mkTime 17 0) ]
       [ ShiftAssignment.mk "a1" "s1" "w1" "m1" 0 ]
       []
       [ StaffSkill.mk "w1" "k1"; StaffSkill.mk "w2" "k1" ]
       [ StaffLocationCert.mk "w1" "l1"; StaffLocationCert.mk "w2" "l1" ]
       [ AvailabilityRule.mk "w1" MON (mkTime 8 0) (mkTime 22 0);
         AvailabilityRule.mk "w2" MON (mkTime 8 0) (mkTime 22 0) ]
       [].

(** The shift lasts at most [hours] hours from its absolute start to its
    absolute end. *)
Definition lastsAtMost (hours : Z) (s : Shift.t) : Prop :=
  absEnd (Shift.date s) (Shift.startTime s) (Shift.endTime s)
  - absStart (Shift.date s) (Shift.startTime s) (Shift.endTime s)
  <= hours * 3600000.

(** The worker holds 06:00-06:20 and 09:40-18:00 on Monday and is
    qualified, certified and available all day; the candidate 06:20-09:40
    fills the gap, which makes twelve hours exactly. *)
Definition twelveHourDay : DB :=
  mkDB ["l1"] ["k1"] [worker; colleague; manager]
       [ shiftRow "e1" monday (mkTime 6 0) (mkTime 6 20);
         shiftRow "e2" monday (mkTime 9 40) (mkTime 18 0);
         shiftRow "e3" monday (mkTime 6 20) (mkTime 9 40) ]
       [ ShiftAssignment.mk "a1" "e1" "w1" "m1" 0;
         ShiftAssignment.mk "a2" "e2" "w1" "m1" 0 ]
       []
       [ StaffSkill.mk "w1" "k1" ]
       [ StaffLocationCert.mk "w1" "l1" ]
       [ AvailabilityRule.mk "w1" MON (mkTime 0 0) (mkTime 23 59) ]
       [].
(* ------------------------------------------------------------------ *)
(** * Basic facts *)

Lemma id_eqb_eq (a b : Id) : id_eqb a b = true <-> a = b.
Proof. apply String.eqb_eq. Qed.

Lemma id_eqb_refl (a : Id) : id_eqb a a = true.
Proof. apply String.eqb_refl. Qed.

Lemma id_eqb_neq (a b : Id) : id_eqb a b = false <-> a <> b.
Proof. apply String.eqb_neq. Qed.

Lemma SwapStatus_eqb_eq (a b : SwapStatus) : SwapStatus_eqb a b = true <-> a = b.
Proof. destruct a, b; simpl; split; intros H; try reflexivity; discriminate H. Qed.

Lemma DayOfWeek_eqb_eq (a b : DayOfWeek) : DayOfWeek_eqb a b = true <-> a = b.
Proof. destruct a, b; simpl; split; intros H; try reflexivity; discriminate H. Qed.

Lemma nonEmpty_false {A : Type} (xs : list A) : nonEmpty xs = false <-> xs = [].
Proof. destruct xs; simpl; split; intros H; try reflexivity; discriminate H. Qed.

Lemma length_zero_nil {A : Type} (xs : list A) :
  (List.length xs =? 0)%nat = true <-> xs = [].
Proof.
  destruct xs; simpl; split; intros H; try reflexivity; discriminate H.
Qed.

(** A lookup by key through an update that keeps the key. *)
Lemma hd_filter_map {A : Type} (p : A -> bool) (g : A -> A) (rows : list A) :
  (forall x, p (g x) = p x) ->
  hd_error (filter p (map g rows)) = option_map g (hd_error (filter p rows)).
Proof.
  intros Hp. induction rows as [|r rows IH]; simpl; [reflexivity|].
  rewrite Hp. destruct (p r); simpl; [reflexivity|exact IH].
Qed.

Lemma hd_filter_app {A : Type} (p : A -> bool) (rows extra : list A) (x : A) :
  hd_error (filter p rows) = Some x ->
  hd_error (filter p (rows ++ extra)) = Some x.
Proof.
  intros H. rewrite filter_app.
  destruct (filter p rows); simpl in *; [discriminate H|exact H].
Qed.

Lemma hd_filter_In {A : Type} (p : A -> bool) (rows : list A) (x : A) :
  hd_error (filter p rows) = Some x -> In x rows /\ p x = true.
Proof.
  intros H. apply filter_In.
  destruct (filter p rows) as [|y ys]; simpl in H; [discriminate H|].
  injection H as ->. now left.
Qed.

(** ** Hours as rationals *)

Lemma msToHours_Qlt_0 (ms : Z) : (0 < msToHours ms)%Q <-> 0 < ms.
Proof.
  unfold msToHours, Qlt, Qdiv, Qmult, Qinv, inject_Z; simpl. lia.
Qed.

Lemma msToHours_Qlt (ms h : Z) : (msToHours ms < inject_Z h)%Q <-> ms < h * 3600000.
Proof.
  unfold msToHours, Qlt, Qdiv, Qmult, Qinv, inject_Z; simpl. lia.
Qed.

(** A gap in hours breaks the rest rule iff it is more than 0 and less than
    36_000_000 milliseconds. *)
Lemma restGap_milliseconds (ms : Z) :
  restGap (msToHours ms) <-> 0 < ms < 36000000.
Proof.
  unfold restGap. rewrite msToHours_Qlt_0, msToHours_Qlt. lia.
Qed.

(* ------------------------------------------------------------------ *)
(** * The codes a validation reports *)

Definition codes (r : AssignmentValidationResult) : list string :=
  map code (violations r).

Lemma codes_validateAssignment (db : DB) (staffId : Id) (shift : ShiftData.t) :
  codes (validateAssignment db staffId shift) =
  (if checkSkillMatch db staffId (ShiftData.skillId shift)
   then [] else ["SKILL_MISMATCH"])
  ++ (if checkLocationCertification db staffId (ShiftData.locationId shift)
      then [] else ["LOCATION_NOT_CERTIFIED"])
  ++ (if available (checkAvailability db staffId (ShiftData.date shift)
                      (ShiftData.startTime shift) (ShiftData.endTime shift))
      then [] else ["NOT_AVAILABLE"])
  ++ (if checkShiftOverlap db staffId shift then ["SHIFT_OVERLAP"] else [])
  ++ (match check10HourRest db staffId shift with
      | Some _ => ["REST_PERIOD_VIOLATION"]
      | None => []
      end)
  ++ map code (checkLaborLimits db staffId shift).
Proof.
  unfold codes, validateAssignment. cbn [violations].
  rewrite !map_app.
  destruct (checkSkillMatch _ _ _), (checkLocationCertification _ _ _),
    (available _), (checkShiftOverlap _ _ _), (check10HourRest _ _ _);
    reflexivity.
Qed.

Lemma labor_codes (db : DB) (staffId : Id) (shift : ShiftData.t) (c : string) :
  In c (map code (checkLaborLimits db staffId shift)) ->
  In c ["DAILY_HOURS_HARD_LIMIT"; "DAILY_HOURS_WARNING"; "WEEKLY_OVERTIME";
        "WEEKLY_HOURS_APPROACHING_OVERTIME"; "SEVENTH_CONSECUTIVE_DAY";
        "SIXTH_CONSECUTIVE_DAY"].
Proof.
  unfold checkLaborLimits.
  repeat match goal with
         | |- context [if ?b then _ else _] => destruct b
         end;
    simpl; intuition.
Qed.

Lemma not_available_reported (db : DB) (staffId : Id) (shift : ShiftData.t) :
  In "NOT_AVAILABLE" (codes (validateAssignment db staffId shift))
  <-> available (checkAvailability db staffId (ShiftData.date shift)
                   (ShiftData.startTime shift) (ShiftData.endTime shift)) = false.
Proof.
  rewrite codes_validateAssignment. rewrite !in_app_iff.
  split.
  - intros [H|[H|[H|[H|[H|H]]]]].
    + destruct (checkSkillMatch _ _ _); simpl in H; intuition; discriminate.
    + destruct (checkLocationCertification _ _ _); simpl in H; intuition; discriminate.
    + destruct (available _); simpl in H; intuition.
    + destruct (checkShiftOverlap _ _ _); simpl in H; intuition; discriminate.
    + destruct (check10HourRest _ _ _); simpl in H; intuition; discriminate.
    + apply labor_codes in H. simpl in H. intuition; discriminate.
  - intros ->. right. right. left. now left.
Qed.


Lemma Qgtb_lt (x y : Q) : Qgtb x y = true <-> (y < x)%Q.
Proof.
  unfold Qgtb. rewrite negb_true_iff, <- not_true_iff_false, Qle_bool_iff.
  split; [apply Qnot_le_lt|apply Qlt_not_le].
Qed.

Lemma Qltb_lt (x y : Q) : Qltb x y = true <-> (x < y)%Q.
Proof. unfold Qltb. apply (Qgtb_lt y x). Qed.

(* ------------------------------------------------------------------ *)
(** * Availability *)

Lemma rulesFor_In (db : DB) (staffId : Id) (dayEnum : DayOfWeek) (rule : AvailabilityRule.t) :
  In rule (rulesFor db staffId dayEnum)
  <-> In rule (availabilityRules db)
      /\ AvailabilityRule.staffId rule = staffId
      /\ AvailabilityRule.dayOfWeek rule = dayEnum.
Proof.
  unfold rulesFor. rewrite filter_In, andb_true_iff, id_eqb_eq, DayOfWeek_eqb_eq.
  tauto.
Qed.

Lemma checkSingleDayAvailability_spec
  (db : DB) (staffId : Id) (date : Date) (startTime endTime : Time) :
  available (checkSingleDayAvailability db staffId date startTime endTime) = true
  <-> containedInSingleRule db staffId date startTime endTime.
Proof.
  unfold checkSingleDayAvailability, containedInSingleRule, getDayInfo.
  cbn [snd].
  set (dayEnum := DAY_ENUMS (getDay date)).
  destruct (List.length (rulesFor db staffId dayEnum) =? 0)%nat eqn:Hlen.
  - apply length_zero_nil in Hlen. cbn [available]. split; [discriminate|].
    intros (rule & Hin & Hs & Hd & _).
    assert (Hr : In rule (rulesFor db staffId dayEnum)) by (apply rulesFor_In; auto).
    rewrite Hlen in Hr. destruct Hr.
  - destruct (existsb _ _) eqn:Hex; cbn [available].
    + split; [intros _|reflexivity].
      apply existsb_exists in Hex. destruct Hex as (rule & Hin & Hc).
      apply rulesFor_In in Hin. destruct Hin as (Hin & Hs & Hd).
      unfold ruleContains in Hc. apply andb_true_iff in Hc.
      destruct Hc as [H1 H2]. apply Z.geb_le in H1. apply Z.leb_le in H2.
      exists rule. auto.
    + split; [discriminate|].
      intros (rule & Hin & Hs & Hd & H1 & H2).
      assert (Hex' : existsb (fun r => ruleContains r (toMinutes startTime) (toMinutes endTime))
                             (rulesFor db staffId dayEnum) = true).
      { apply existsb_exists. exists rule. split; [apply rulesFor_In; auto|].
        unfold ruleContains. apply andb_true_iff.
        split; [apply Z.geb_le|apply Z.leb_le]; assumption. }
      rewrite Hex' in Hex. discriminate Hex.
Qed.

(** The loop over exceptions only ever answers "unavailable". *)
Lemma blockedBy_unavailable (exceptions : list AvailabilityException.t)
  (dflt : string) (a : Availability) :
  blockedBy exceptions dflt = Some a -> available a = false.
Proof.
  induction exceptions as [|e rest IH]; simpl; [discriminate|].
  destruct (AvailabilityException.isAvailable e); simpl; [exact IH|].
  intros H. injection H as <-. reflexivity.
Qed.

(** For a shift that does not cross midnight: a positive answer always
    comes from a single recurring rule. *)
Lemma checkAvailability_needs_rule
  (db : DB) (staffId : Id) (date : Date) (startTime endTime : Time) :
  isOvernightShift startTime endTime = false ->
  available (checkAvailability db staffId date startTime endTime) = true ->
  containedInSingleRule db staffId date startTime endTime.
Proof.
  intros Hday. unfold checkAvailability.
  destruct (blockedBy _ _) as [blocked|] eqn:Hb.
  - apply blockedBy_unavailable in Hb. congruence.
  - rewrite Hday. cbn [negb]. apply checkSingleDayAvailability_spec.
Qed.

(** C3. For a shift that does not cross midnight, on a date without any
    availability exception of the worker, validation reports no
    NOT_AVAILABLE violation iff one single recurring rule for that day of
    the week contains the whole range.  Coverage by several rules together
    is not enough: with Monday rules 09:00-12:00 and 13:00-17:00 (and also
    with 09:00-12:00 and 12:00-17:00) a Monday 10:00-14:00 shift is reported
    NOT_AVAILABLE. *)
Theorem availability_needs_single_rule :
  (forall (db : DB) (staffId : Id) (shift : ShiftData.t),
      isOvernightShift (ShiftData.startTime shift) (ShiftData.endTime shift) = false ->
      exceptionsOn db staffId (ShiftData.date shift) = [] ->
      (~ In "NOT_AVAILABLE" (codes (validateAssignment db staffId shift))
       <-> containedInSingleRule db staffId (ShiftData.date shift)
             (ShiftData.startTime shift) (ShiftData.endTime shift)))
  /\ In "NOT_AVAILABLE"
        (codes (validateAssignment gapRules "w1"
                  (candidate monday (mkTime 10 0) (mkTime 14 0))))
  /\ In "NOT_AVAILABLE"
        (codes (validateAssignment adjoiningRules "w1"
                  (candidate monday (mkTime 10 0) (mkTime 14 0)))).
Proof.
  split; [|split; apply not_available_reported; reflexivity].
  intros db staffId shift Hday Hexc.
  rewrite not_available_reported, not_false_iff_true.
  unfold checkAvailability. rewrite Hexc. cbn [blockedBy].
  rewrite Hday. cbn [negb].
  apply checkSingleDayAvailability_spec.
Qed.

Lemma availability_needs_single_rule_witness :
  ~ In "NOT_AVAILABLE"
      (codes (validateAssignment gapRules "w1"
                (candidate monday (mkTime 9 30) (mkTime 11 45))))
  <-> containedInSingleRule gapRules "w1" monday (mkTime 9 30) (mkTime 11 45).
Proof.
  apply (proj1 availability_needs_single_rule gapRules "w1"
           (candidate monday (mkTime 9 30) (mkTime 11 45))); reflexivity.
Defined.

(** C4 (as the code behaves). For a shift that does not cross midnight, an
    [isAvailable = true] exception for the date whose window contains the
    shift does not make the worker available: when no recurring rule
    for that day of the week contains the range, validation reports
    NOT_AVAILABLE all the same. *)
Theorem available_exception_is_ignored
  (db : DB) (staffId : Id) (shift : ShiftData.t) :
  isOvernightShift (ShiftData.startTime shift) (ShiftData.endTime shift) = false ->
  containedInException db staffId (ShiftData.date shift)
    (ShiftData.startTime shift) (ShiftData.endTime shift) ->
  ~ containedInSingleRule db staffId (ShiftData.date shift)
      (ShiftData.startTime shift) (ShiftData.endTime shift) ->
  In "NOT_AVAILABLE" (codes (validateAssignment db staffId shift)).
Proof.
  intros Hday _ Hrule. apply not_available_reported.
  apply not_true_iff_false. intros Hav. apply Hrule.
  now apply checkAvailability_needs_rule.
Qed.

Lemma available_exception_is_ignored_witness :
  In "NOT_AVAILABLE"
     (codes (validateAssignment saturdayException "w1"
               (candidate (monday + 5) (mkTime 10 0) (mkTime 18 0)))).
Proof.
  apply (@available_exception_is_ignored saturdayException "w1"
           (candidate (monday + 5) (mkTime 10 0) (mkTime 18 0))).
  - reflexivity.
  - exists (AvailabilityException.mk "w1" (monday + 5) true
              (Some (mkTime 10 0)) (Some (mkTime 18 0)) (Some "Available for extra shift")),
      (mkTime 10 0), (mkTime 18 0).
    repeat split; try reflexivity; try (simpl; lia). now left.
  - intros (rule & Hin & _ & Hd & _).
    destruct Hin as [<-|[]]. discriminate Hd.
Defined.

(* ------------------------------------------------------------------ *)
(** * Rest period *)

Lemma shiftsOfStaff_In (db : DB) (staffId : Id) (s : Shift.t) :
  In s (shiftsOfStaff db staffId)
  <-> (exists a, In a (shiftAssignments db)
                 /\ ShiftAssignment.staffId a = staffId
                 /\ ShiftAssignment.shiftId a = Shift.id s)
      /\ In s (shifts db).
Proof.
  unfold shiftsOfStaff, assignmentsWithShifts. rewrite in_map_iff. split.
  - intros ([a s'] & Hsnd & Hin). cbn [snd] in Hsnd. subst s'.
    apply filter_In in Hin. destruct Hin as [Hin Hst]. cbn [fst] in Hst.
    apply id_eqb_eq in Hst.
    apply in_flat_map in Hin. destruct Hin as (a' & Ha' & Hin).
    apply in_map_iff in Hin. destruct Hin as (s' & Heq & Hin).
    injection Heq as -> ->.
    apply filter_In in Hin. destruct Hin as [Hin Hid]. apply id_eqb_eq in Hid.
    split; [exists a; auto|exact Hin].
  - intros [(a & Ha & Hst & Hid) Hin]. exists (a, s). split; [reflexivity|].
    apply filter_In. cbn [fst]. split; [|now apply id_eqb_eq].
    apply in_flat_map. exists a. split; [exact Ha|].
    apply in_map. apply filter_In. split; [exact Hin|now apply id_eqb_eq].
Qed.

Lemma adjacentAssignments_In (db : DB) (staffId : Id) (date : Date) (s : Shift.t) :
  In s (adjacentAssignments db staffId date) <-> inRestWindow db staffId date s.
Proof.
  unfold adjacentAssignments, inRestWindow, addDays.
  rewrite filter_In, shiftsOfStaff_In, !orb_true_iff, !Z.eqb_eq.
  split.
  - intros [[Ha Hin] Hd]. repeat split; auto; lia.
  - intros (Ha & Hin & Hd). split; [auto|lia].
Qed.

Lemma restLoop_spec (newShift : ShiftData.t) (rows : list Shift.t) :
  restLoop newShift rows <> None
  <-> exists s, In s rows
                /\ (restGap (hoursAfterExisting newShift s)
                    \/ restGap (hoursBeforeExisting newShift s)).
Proof.
  unfold restGap. induction rows as [|s rows IH]; simpl.
  - split; [congruence|]. intros (s & [] & _).
  - destruct (Qgtb (hoursAfterExisting newShift s) 0
              && Qltb (hoursAfterExisting newShift s) (inject_Z 10)) eqn:Hafter.
    + split; [intros _|congruence].
      apply andb_true_iff in Hafter. rewrite Qgtb_lt, Qltb_lt in Hafter.
      exists s. auto.
    + destruct (Qgtb (hoursBeforeExisting newShift s) 0
                && Qltb (hoursBeforeExisting newShift s) (inject_Z 10)) eqn:Hbefore.
      * split; [intros _|congruence].
        apply andb_true_iff in Hbefore. rewrite Qgtb_lt, Qltb_lt in Hbefore.
        exists s. auto.
      * rewrite IH. split.
        -- intros (s' & Hin & Hgap). exists s'. auto.
        -- intros (s' & [<-|Hin] & Hgap); [|exists s'; auto].
           exfalso. destruct Hgap as [[H1 H2]|[H1 H2]].
           ++ apply Qgtb_lt in H1. apply Qltb_lt in H2.
              rewrite H1, H2 in Hafter. discriminate Hafter.
           ++ apply Qgtb_lt in H1. apply Qltb_lt in H2.
              rewrite H1, H2 in Hbefore. discriminate Hbefore.
Qed.


(* ------------------------------------------------------------------ *)
(** * The override gate of [assignStaffToShift] *)

Lemma valid_validateAssignment (db : DB) (staffId : Id) (shift : ShiftData.t) :
  valid (validateAssignment db staffId shift)
  = (List.length (errorsOf (violations (validateAssignment db staffId shift))) =? 0)%nat.
Proof. reflexivity. Qed.

Lemma onlySeventhDay_spec (errors : list ConstraintViolation) :
  onlySeventhDay errors = true
  <-> exists e, errors = [e] /\ code e = "SEVENTH_CONSECUTIVE_DAY".
Proof.
  unfold onlySeventhDay. split.
  - destruct errors as [|e [|e' rest]]; simpl; try discriminate.
    intros H. apply String.eqb_eq in H. exists e. auto.
  - intros (e & -> & Hc). simpl. now apply String.eqb_eq.
Qed.

Lemma reasonGiven_spec (overrideReason : option string) :
  reasonGiven overrideReason = true
  <-> exists r, overrideReason = Some r /\ trim r <> "".
Proof.
  unfold reasonGiven. destruct overrideReason as [r|].
  - rewrite andb_true_iff, negb_true_iff, String.eqb_neq, Nat.ltb_lt. split.
    + intros [_ Hlen]. exists r. split; [reflexivity|].
      intros E. rewrite E in Hlen. simpl in Hlen. lia.
    + intros (r' & E & Hne). injection E as <-. split.
      * intros ->. apply Hne. reflexivity.
      * destruct (trim r); [congruence|simpl; lia].
  - split; [discriminate|]. intros (r & E & _). discriminate E.
Qed.

Lemma commitAssignment_not_rejected (user : User.t) (now : Z) (newId : Id)
  (row : Shift.t) (shiftId staffId : Id) (validation : AssignmentValidationResult)
  (w : World) (errorMessages : Message) (overridable : bool) :
  fst (commitAssignment user now newId row shiftId staffId validation w)
  <> Rejected errorMessages overridable.
Proof.
  unfold commitAssignment.
  destruct (transaction _ w) as [[msg|[]] w'].
  - destruct (msg =? "DOUBLE_BOOKING")%string; [discriminate|].
    destruct (msg =? "ALREADY_ASSIGNED")%string; discriminate.
  - discriminate.
Qed.

(** Whatever passes the validation gate ends in the locked transaction,
    whose overlap re-check the database refuses: the transaction rolls back
    and the error, being neither DOUBLE_BOOKING nor ALREADY_ASSIGNED, reaches
    the outer handler. *)
Lemma commitAssignment_fails (user : User.t) (now : Z) (newId : Id)
  (row : Shift.t) (shiftId staffId : Id) (validation : AssignmentValidationResult)
  (w : World) :
  commitAssignment user now newId row shiftId staffId validation w
  = (AssignFailure "Failed to assign staff",
     {| store := store w;
        trace := trace w ++ [TxBegin; AdvisoryLock staffId; TxRollback] |}).
Proof.
  unfold commitAssignment, assignTx, anyOfExpandedList,
    transaction, bind, pg_advisory_xact_lock, throw.
  cbn [store trace fst snd String.eqb Ascii.eqb Bool.eqb].
  now rewrite <- !app_assoc.
Qed.

(** C1. The rejection half of the claim holds: when validation reports at
    least one error, [assignStaffToShift] rejects with the error messages
    joined by "; " unless the errors are exactly one SEVENTH_CONSECUTIVE_DAY
    violation and the override reason is non-empty after trimming, and in
    every rejection the [overridable] flag is true iff the errors were
    exactly that single violation.  In the override case the call is let
    through, but the assignment does not go ahead: the locked transaction
    rolls back on its overlap re-check, the action answers "Failed to
    assign staff" and the store is as it was. *)
Theorem seventh_day_override_is_never_committed
  (session : option User.t) (now : Z) (newId shiftId staffId locationId : Id)
  (overrideReason : option string) (w : World) (user : User.t) (row : Shift.t) :
  requireRole [MANAGER; ADMIN] session = Some user ->
  shiftById (store w) shiftId = Some row ->
  let validation := validateAssignment (store w) staffId (shiftDataOf row) in
  let errors := errorsOf (violations validation) in
  let singleSeventhDay :=
    exists e, errors = [e] /\ code e = "SEVENTH_CONSECUTIVE_DAY" in
  let reasonSupplied := exists r, overrideReason = Some r /\ trim r <> "" in
  errors <> [] ->
  (singleSeventhDay /\ reasonSupplied ->
   assignStaffToShift session now newId shiftId staffId locationId overrideReason w
   = (AssignFailure "Failed to assign staff",
      {| store := store w;
         trace := trace w ++ [TxBegin; AdvisoryLock staffId; TxRollback] |}))
  /\ (~ (singleSeventhDay /\ reasonSupplied) ->
      exists overridable,
        assignStaffToShift session now newId shiftId staffId locationId overrideReason w
        = (Rejected (join "; " (map message errors)) overridable, w)
        /\ (overridable = true <-> singleSeventhDay)).
Proof.
  intros Hrole Hshift validation errors singleSeventhDay reasonSupplied Herr.
  assert (Hvalid : valid validation = false).
  { unfold validation. rewrite valid_validateAssignment.
    fold validation. fold errors. destruct errors; [congruence|reflexivity]. }
  assert (Hgate : onlySeventhDay errors && reasonGiven overrideReason = true
                  <-> singleSeventhDay /\ reasonSupplied).
  { rewrite andb_true_iff, onlySeventhDay_spec, reasonGiven_spec. reflexivity. }
  unfold assignStaffToShift. rewrite Hrole, Hshift.
  fold validation. fold errors. rewrite Hvalid. cbn [negb andb].
  split.
  - intros H. apply Hgate in H. rewrite H. cbn [negb].
    apply commitAssignment_fails.
  - intros H.
    destruct (onlySeventhDay errors && reasonGiven overrideReason) eqn:E.
    + exfalso. apply H. now apply Hgate.
    + cbn [negb]. exists (onlySeventhDay errors).
      split; [reflexivity|apply onlySeventhDay_spec].
Qed.

(** The worker has worked six days in a row; the manager assigns the seventh
    with the reason " flu season ". *)
Lemma seventh_day_override_is_never_committed_witness :
  assignStaffToShift (Some manager) 5 "a7" "s1" "w1" "l1" (Some " flu season ")
                     (mkWorld sixDaysWorked [])
  = (AssignFailure "Failed to assign staff",
     mkWorld sixDaysWorked [TxBegin; AdvisoryLock "w1"; TxRollback]).
Proof.
  refine (proj1 (@seventh_day_override_is_never_committed
                   (Some manager) 5 "a7" "s1" "w1" "l1" (Some " flu season ")
                   (mkWorld sixDaysWorked []) manager
                   (shiftRow "s1" (monday + 6) (mkTime 9 0) (mkTime 10 0))
                   eq_refl eq_refl _) _).
  - vm_compute. discriminate.
  - split.
    + set (errs := errorsOf _). vm_compute in errs. subst errs.
      eexists. split; reflexivity.
    + exists " flu season ". split; [reflexivity|]. vm_compute. discriminate.
Defined.

(* ------------------------------------------------------------------ *)
(** * The cap on open requests *)

(** C2, as stated, fails: with three requests in status ACCEPTED_BY_TARGET
    (and none PENDING) both creators accept a fourth request. *)
Lemma cap_ignores_accepted_requests :
  3 <= concurrentCount (threeRequests ACCEPTED_BY_TARGET) "w1"
  /\ fst (SwapActions.createSwapRequest (Some worker) 0 "r4" "a4" "w2"
            (mkWorld (threeRequests ACCEPTED_BY_TARGET) [])) = Success
  /\ fst (SwapActions.createDropRequest (Some worker) 0 "r4" "a4"
            (mkWorld (threeRequests ACCEPTED_BY_TARGET) [])) = Success.
Proof.
  split; [|split].
  - vm_compute. discriminate.
  - vm_compute. reflexivity.
  - vm_compute. reflexivity.
Qed.

(** C2, amended. The cap counts the requester's requests in status PENDING
    only.  With three or more of them both creators reject with the cap
    message and change nothing; with fewer than three neither creator
    answers with the cap message, and a creation whose other preconditions
    hold (own assignment, no PENDING request on it, shift found, for a swap
    a target that is a user and, for a drop, more than 24 hours away)
    succeeds. *)
Theorem cap_counts_pending_only
  (session : option User.t) (now : Z) (newId assignmentId targetStaffId : Id)
  (w : World) (user : User.t) :
  requireRole [STAFF] session = Some user ->
  (3 <= pendingCount (store w) (User.id user) ->
   SwapActions.createSwapRequest session now newId assignmentId targetStaffId w
   = (Failure capMessage, w)
   /\ SwapActions.createDropRequest session now newId assignmentId w
      = (Failure capMessage, w))
  /\ (pendingCount (store w) (User.id user) < 3 ->
      fst (SwapActions.createSwapRequest session now newId assignmentId targetStaffId w)
      <> Failure capMessage
      /\ fst (SwapActions.createDropRequest session now newId assignmentId w)
         <> Failure capMessage
      /\ forall assignment shift,
          assignmentById (store w) assignmentId = Some assignment ->
          ShiftAssignment.staffId assignment = User.id user ->
          existingRequest (store w) assignmentId = None ->
          shiftById (store w) (ShiftAssignment.shiftId assignment) = Some shift ->
          (references targetStaffId (map User.id (users (store w))) = true ->
           fst (SwapActions.createSwapRequest session now newId assignmentId
                  targetStaffId w)
           = Success)
          /\ (Qle_bool (hoursUntil (Shift.date shift) (Shift.startTime shift) now)
                       (inject_Z 24) = false ->
              fst (SwapActions.createDropRequest session now newId assignmentId w)
              = Success)).
Proof.
  intros Hrole.
  unfold SwapActions.createSwapRequest, SwapActions.createDropRequest.
  rewrite Hrole. split.
  - intros Hcap. apply Z.geb_le in Hcap. rewrite Hcap. split; reflexivity.
  - intros Hcap.
    assert (E : (pendingCount (store w) (User.id user) >=? 3) = false)
      by (rewrite Z.geb_leb; apply Z.leb_gt; lia).
    rewrite E. split; [|split].
    + destruct (assignmentById _ _) as [assignment|]; [|discriminate].
      destruct (negb _); [discriminate|].
      destruct (existingRequest _ _); [discriminate|].
      destruct (shiftById _ _); [|discriminate].
      destruct (negb (references _ _)); discriminate.
    + destruct (assignmentById _ _) as [assignment|]; [|discriminate].
      destruct (negb _); [discriminate|].
      destruct (existingRequest _ _); [discriminate|].
      destruct (shiftById _ _) as [shift|]; [|discriminate].
      destruct (Qle_bool _ _); discriminate.
    + intros assignment shift Ha Hown Hnone Hs.
      rewrite Ha, Hown, id_eqb_refl, Hnone, Hs. cbn [negb].
      split; [intros ->; reflexivity|]. intros ->. reflexivity.
Qed.

Lemma cap_counts_pending_only_witness :
  (SwapActions.createSwapRequest (Some worker) 0 "r4" "a4" "w2"
     (mkWorld (threeRequests PENDING) [])
   = (Failure capMessage, mkWorld (threeRequests PENDING) [])
   /\ SwapActions.createDropRequest (Some worker) 0 "r4" "a4"
        (mkWorld (threeRequests PENDING) [])
      = (Failure capMessage, mkWorld (threeRequests PENDING) []))
  /\ fst (SwapActions.createSwapRequest (Some worker) 0 "r4" "a4" "w2"
            (mkWorld (threeRequests DENIED) [])) = Success.
Proof.
  split.
  - refine (proj1 (@cap_counts_pending_only (Some worker) 0 "r4" "a4" "w2"
                     (mkWorld (threeRequests PENDING) []) worker eq_refl) _).
    vm_compute. discriminate.
  - assert (Hfew : pendingCount (store (mkWorld (threeRequests DENIED) [])) (User.id worker)
                   < 3) by (vm_compute; reflexivity).
    destruct (proj2 (@cap_counts_pending_only (Some worker) 0 "r4" "a4" "w2"
                       (mkWorld (threeRequests DENIED) []) worker eq_refl) Hfew)
      as (_ & _ & Hruns).
    eapply (proj1 (Hruns _ _ eq_refl eq_refl eq_refl eq_refl)). reflexivity.
Defined.

(* ------------------------------------------------------------------ *)
(** * Keys *)

Lemma NoDup_key_inj {A : Type} (key : A -> Id) (rows : list A) (x y : A) :
  NoDup (map key rows) -> In x rows -> In y rows -> key x = key y -> x = y.
Proof.
  induction rows as [|r rows IH]; simpl; intros Hnd Hx Hy Hk; [destruct Hx|].
  inversion Hnd as [|? ? Hnotin Hnd']; subst.
  destruct Hx as [<-|Hx], Hy as [<-|Hy].
  - reflexivity.
  - exfalso. apply Hnotin. rewrite Hk. now apply in_map.
  - exfalso. apply Hnotin. rewrite <- Hk. now apply in_map.
  - now apply IH.
Qed.

Lemma lookup_NoDup {A : Type} (key : A -> Id) (rows : list A) (x : A) :
  NoDup (map key rows) -> In x rows ->
  hd_error (filter (fun y => id_eqb (key y) (key x)) rows) = Some x.
Proof.
  induction rows as [|r rows IH]; simpl; intros Hnd Hx; [destruct Hx|].
  inversion Hnd as [|? ? Hnotin Hnd']; subst.
  destruct Hx as [<-|Hx].
  - now rewrite id_eqb_refl.
  - destruct (id_eqb (key r) (key x)) eqn:E.
    + apply id_eqb_eq in E. exfalso. apply Hnotin. rewrite E. now apply in_map.
    + now apply IH.
Qed.

Lemma inArray_In (x : Id) (ids : list Id) : inArray x ids = true <-> In x ids.
Proof.
  unfold inArray. rewrite existsb_exists. split.
  - intros (y & Hin & E). apply id_eqb_eq in E. now subst.
  - intros Hin. exists x. split; [exact Hin|apply id_eqb_refl].
Qed.

(** Selecting rows and then updating by the selected keys touches exactly
    the selected rows, when keys are unique. *)
Lemma inArray_selected {A : Type} (key : A -> Id) (p : A -> bool)
  (rows : list A) (x : A) :
  NoDup (map key rows) -> In x rows ->
  inArray (key x) (map key (filter p rows)) = p x.
Proof.
  intros Hnd Hx. destruct (p x) eqn:Hp.
  - apply inArray_In. apply in_map. apply filter_In. auto.
  - apply not_true_iff_false. rewrite inArray_In, in_map_iff.
    intros (y & Hk & Hy). apply filter_In in Hy. destruct Hy as [Hy Hpy].
    assert (y = x) by (eapply NoDup_key_inj; eauto). subst y. congruence.
Qed.

(* ------------------------------------------------------------------ *)
(** * Cascade cancellation on edit *)

Lemma pendingOnShift_spec (d : DB) (shiftId : Id) (r : SwapRequest.t) :
  pendingOnShift d shiftId r = true
  <-> SwapRequest.status r = PENDING /\ referencesShift d shiftId r.
Proof.
  unfold pendingOnShift, referencesShift, assignmentIdsOf.
  rewrite andb_true_iff, SwapStatus_eqb_eq, inArray_In, in_map_iff.
  split; intros [Hs (a & H1 & H2)]; (split; [exact Hs|exists a]).
  - apply filter_In in H2. destruct H2 as [Hin Hid]. apply id_eqb_eq in Hid. auto.
  - destruct H2 as [Hid Ha]. split; [exact Ha|].
    apply filter_In. split; [exact H1|now apply id_eqb_eq].
Qed.

Lemma cascadeCancel_requests (now : Z) (shiftId : Id) (d : DB) :
  NoDup (map SwapRequest.id (swapRequests d)) ->
  swapRequests (cascadeCancel now shiftId d)
  = map (fun r => if pendingOnShift d shiftId r then autoCancelled now r else r)
        (swapRequests d).
Proof.
  intros Hnd. unfold cascadeCancel.
  destruct (nonEmpty (assignmentIdsOf d shiftId)) eqn:Hids.
  - destruct (nonEmpty (affectedSwaps d (assignmentIdsOf d shiftId))) eqn:Haff.
    + cbn [withSwapRequests swapRequests]. unfold updateWhere.
      apply map_ext_in. intros r Hr.
      unfold affectedSwaps. rewrite (inArray_selected SwapRequest.id _ _ r Hnd Hr).
      reflexivity.
    + apply nonEmpty_false in Haff. symmetry.
      rewrite <- (map_id (swapRequests d)) at 2.
      apply map_ext_in. intros r Hr.
      assert (E : pendingOnShift d shiftId r = false).
      { apply not_true_iff_false. intros Hp.
        assert (Hin : In r (affectedSwaps d (assignmentIdsOf d shiftId)))
          by (apply filter_In; auto).
        rewrite Haff in Hin. destruct Hin. }
      now rewrite E.
  - apply nonEmpty_false in Hids. symmetry.
    rewrite <- (map_id (swapRequests d)) at 2.
    apply map_ext_in. intros r Hr. unfold pendingOnShift. rewrite Hids.
    cbn [inArray existsb]. now rewrite andb_false_r.
Qed.

(** What a successful edit leaves in the store. *)
Lemma updateShift_success (session : option User.t) (now : Z) (shiftId : Id)
  (f : ShiftForm) (version : Z) (w w' : World) :
  updateShift session now shiftId f version w = (Success, w') ->
  let guard := fun s => id_eqb (Shift.id s) shiftId && (Shift.version s =? version) in
  returning guard (shifts (store w)) <> []
  /\ w' = setStore w
            (cascadeCancel now shiftId
               (withShifts (store w)
                  (updateWhere guard (editedShift f version now) (shifts (store w))))).
Proof.
  unfold updateShift.
  destruct (requireRole _ session) as [user|]; [|discriminate].
  destruct (negb (updateShiftSchema f version)); [discriminate|].
  destruct (negb (shiftUpdateBinds f version)); [discriminate|].
  destruct (nonEmpty _ && negb _); [discriminate|].
  destruct (List.length _ =? 0)%nat eqn:Hlen.
  - destruct (shiftById _ _); discriminate.
  - intros H. injection H as <-. split; [|reflexivity].
    intros E. apply length_zero_nil in E. congruence.
Qed.

(** C6. A successful edit cancels exactly the requests that are PENDING and
    reference an assignment of the edited shift: the table of requests
    afterwards is the old one with those rows set to CANCELLED with the
    synthetic note (reviewer fields kept), and every other request - in
    particular ACCEPTED_BY_TARGET and APPROVED ones on the same
    assignments - is found unchanged. *)
Theorem edit_cancels_exactly_pending_requests
  (session : option User.t) (now : Z) (shiftId : Id) (f : ShiftForm) (version : Z)
  (w w' : World) :
  NoDup (map SwapRequest.id (swapRequests (store w))) ->
  updateShift session now shiftId f version w = (Success, w') ->
  swapRequests (store w')
  = map (fun r => if pendingOnShift (store w) shiftId r then autoCancelled now r else r)
        (swapRequests (store w))
  /\ forall r, In r (swapRequests (store w)) ->
       (SwapRequest.status r = PENDING /\ referencesShift (store w) shiftId r ->
        exists r', requestById (store w') (SwapRequest.id r) = Some r'
                   /\ SwapRequest.status r' = CANCELLED
                   /\ SwapRequest.reviewNotes r' = Some cascadeNote
                   /\ SwapRequest.reviewedBy r' = SwapRequest.reviewedBy r
                   /\ SwapRequest.reviewedAt r' = SwapRequest.reviewedAt r)
       /\ (~ (SwapRequest.status r = PENDING /\ referencesShift (store w) shiftId r) ->
           requestById (store w') (SwapRequest.id r) = Some r).
Proof.
  intros Hnd Hok. apply updateShift_success in Hok. destruct Hok as [_ ->].
  cbn [store setStore].
  set (d1 := withShifts (store w) _).
  assert (Htable : swapRequests (cascadeCancel now shiftId d1)
                   = map (fun r => if pendingOnShift (store w) shiftId r
                                   then autoCancelled now r else r)
                         (swapRequests (store w))).
  { rewrite cascadeCancel_requests by exact Hnd. reflexivity. }
  split; [exact Htable|].
  intros r Hr.
  assert (Hlookup : requestById (cascadeCancel now shiftId d1) (SwapRequest.id r)
                    = Some (if pendingOnShift (store w) shiftId r
                            then autoCancelled now r else r)).
  { unfold requestById. rewrite Htable.
    rewrite hd_filter_map.
    - rewrite (lookup_NoDup SwapRequest.id _ r Hnd Hr). reflexivity.
    - intros x. destruct (pendingOnShift (store w) shiftId x); reflexivity. }
  split.
  - intros Hp. apply pendingOnShift_spec in Hp. rewrite Hp in Hlookup.
    exists (autoCancelled now r). repeat split; auto.
  - intros Hp. rewrite <- pendingOnShift_spec in Hp.
    apply not_true_iff_false in Hp. now rewrite Hp in Hlookup.
Qed.

Lemma edit_cancels_exactly_pending_requests_witness :
  swapRequests
    (store (snd (updateShift (Some manager) 9 "s1" editForm 1 (mkWorld editedShiftDB []))))
  = [ autoCancelled 9 (swapOf "r1" "a1" PENDING);
      autoCancelled 9 (SwapRequest.mk "r2" "a2" "w2" DROP None PENDING None None None 0);
      swapOf "r3" "a1" ACCEPTED_BY_TARGET;
      SwapRequest.mk "r4" "a2" "w2" SWAP (Some "w1") APPROVED (Some "m1") (Some 7)
                     (Some "ok") 7;
      swapOf "r5" "a3" PENDING ].
Proof.
  refine (proj1 (@edit_cancels_exactly_pending_requests
                   (Some manager) 9 "s1" editForm 1 (mkWorld editedShiftDB [])
                   (snd (updateShift (Some manager) 9 "s1" editForm 1
                                     (mkWorld editedShiftDB [])))
                   _ eq_refl)).
  simpl. repeat constructor; simpl; intuition discriminate.
Defined.

(* ------------------------------------------------------------------ *)
(** * Cancelling a processed request *)

(** C7, as stated, fails on the staff-side action: cancelling an APPROVED
    request there fails with another message. *)
Lemma staff_cancel_answers_only_pending :
  option_map SwapRequest.status (requestById processedRequests "r1") = Some APPROVED
  /\ fst (SwapActions.cancelSwapRequest (Some worker) 9 "r1" (mkWorld processedRequests []))
     = Failure onlyPending
  /\ Failure onlyPending <> Failure alreadyProcessed.
Proof.
  split; [reflexivity|]. split; [reflexivity|]. discriminate.
Qed.

(** C7, amended. For a request in status APPROVED or DENIED the requester's
    cancel fails and writes nothing: the lock-guarded action answers
    "This request has already been processed" and leaves the store as it
    was, the staff-side action answers "Only pending requests can be
    cancelled" and leaves the world as it was; in both cases the request is
    found afterwards with the same status, reviewedBy, reviewedAt and
    reviewNotes. *)
Theorem cancel_of_processed_request_changes_nothing
  (session : option User.t) (now : Z) (requestId : Id) (w : World)
  (user : User.t) (request : SwapRequest.t) :
  requireAuth session = Some user ->
  requestById (store w) requestId = Some request ->
  SwapRequest.requestedBy request = User.id user ->
  SwapRequest.status request = APPROVED \/ SwapRequest.status request = DENIED ->
  (fst (SwapRequestsActions.cancelSwapRequest session now requestId w)
   = Failure alreadyProcessed
   /\ store (snd (SwapRequestsActions.cancelSwapRequest session now requestId w)) = store w
   /\ requestById
        (store (snd (SwapRequestsActions.cancelSwapRequest session now requestId w)))
        requestId = Some request)
  /\ (User.role user = STAFF ->
      SwapActions.cancelSwapRequest session now requestId w = (Failure onlyPending, w)).
Proof.
  intros Hauth Hreq Hown Hstatus.
  assert (Hnp : negb (SwapStatus_eqb (SwapRequest.status request) PENDING) = true)
    by (destruct Hstatus as [-> | ->]; reflexivity).
  assert (Hna : negb (SwapStatus_eqb (SwapRequest.status request) ACCEPTED_BY_TARGET) = true)
    by (destruct Hstatus as [-> | ->]; reflexivity).
  split.
  - unfold SwapRequestsActions.cancelSwapRequest. rewrite Hauth.
    unfold transaction, SwapRequestsActions.cancelTx, bind, pg_advisory_xact_lock, select.
    cbn [store trace]. rewrite Hreq, Hown, id_eqb_refl, Hnp, Hna.
    cbn. auto.
  - intros Hrole. unfold SwapActions.cancelSwapRequest, requireRole.
    rewrite Hauth, Hrole. cbn [existsb Role_eqb orb].
    rewrite Hreq, Hown, id_eqb_refl, Hnp. reflexivity.
Qed.

Lemma cancel_of_processed_request_changes_nothing_witness :
  fst (SwapRequestsActions.cancelSwapRequest (Some worker) 9 "r2"
         (mkWorld processedRequests []))
  = Failure alreadyProcessed
  /\ store (snd (SwapRequestsActions.cancelSwapRequest (Some worker) 9 "r2"
                   (mkWorld processedRequests [])))
     = processedRequests.
Proof.
  destruct (@cancel_of_processed_request_changes_nothing
              (Some worker) 9 "r2" (mkWorld processedRequests []) worker
              (SwapRequest.mk "r2" "a1" "w1" DROP None DENIED (Some "m1") (Some 3)
                              (Some "no cover") 3)
              eq_refl eq_refl eq_refl (or_intror eq_refl)) as [(H1 & H2 & _) _].
  split; [exact H1|exact H2].
Defined.

(* ------------------------------------------------------------------ *)
(** * The version of a shift *)

Lemma shifts_cascadeCancel (now : Z) (shiftId : Id) (d : DB) :
  shifts (cascadeCancel now shiftId d) = shifts d.
Proof.
  unfold cascadeCancel.
  destruct (nonEmpty _); [|reflexivity].
  destruct (nonEmpty _); reflexivity.
Qed.

Lemma lookup_updateWhere (shiftId : Id) (p : Shift.t -> bool) (g : Shift.t -> Shift.t)
  (rows : list Shift.t) :
  (forall s, Shift.id (g s) = Shift.id s) ->
  hd_error (filter (fun s => id_eqb (Shift.id s) shiftId) (updateWhere p g rows))
  = option_map (fun s => if p s then g s else s)
               (hd_error (filter (fun s => id_eqb (Shift.id s) shiftId) rows)).
Proof.
  intros Hid. unfold updateWhere. apply hd_filter_map.
  intros s. destruct (p s); [now rewrite Hid|reflexivity].
Qed.

Lemma lookup_deleteWhere (shiftId gone : Id) (rows : list Shift.t) (s : Shift.t) :
  hd_error (filter (fun x => id_eqb (Shift.id x) shiftId)
                   (deleteWhere (fun x => id_eqb (Shift.id x) gone) rows)) = Some s ->
  hd_error (filter (fun x => id_eqb (Shift.id x) shiftId) rows) = Some s.
Proof.
  unfold deleteWhere. induction rows as [|r rows IH]; simpl; [discriminate|].
  destruct (id_eqb (Shift.id r) gone) eqn:Hgone; simpl.
  - destruct (id_eqb (Shift.id r) shiftId) eqn:Hk; [|exact IH].
    apply id_eqb_eq in Hgone. apply id_eqb_eq in Hk.
    intros Hfound. apply hd_filter_In in Hfound. destruct Hfound as [Hin Hs].
    apply filter_In in Hin. destruct Hin as [_ Hne].
    apply id_eqb_eq in Hs. apply negb_true_iff, id_eqb_neq in Hne. congruence.
  - destruct (id_eqb (Shift.id r) shiftId); [auto|exact IH].
Qed.

(** The shape of the [shifts] table after each action. *)
Lemma createShift_shifts (session : option User.t) (now : Z) (newId : Id)
  (f : ShiftForm) (w : World) :
  (fst (createShift session now newId f w) <> Success
   /\ snd (createShift session now newId f w) = w)
  \/ exists s, fst (createShift session now newId f w) = Success
               /\ shifts (store (snd (createShift session now newId f w)))
                  = shifts (store w) ++ [s]
               /\ Shift.id s = newId /\ Shift.version s = 1
               /\ Shift.isPublished s = false.
Proof.
  unfold createShift.
  destruct (requireRole _ session) as [user|]; [|left; split; [discriminate|reflexivity]].
  destruct (negb (createShiftSchema f)); [left; split; [discriminate|reflexivity]|].
  destruct (negb (shiftInsertAccepted (store w) f));
    [left; split; [discriminate|reflexivity]|].
  right. eexists. cbn. repeat split.
Qed.

Lemma updateShift_shifts (session : option User.t) (now : Z) (shiftId : Id)
  (f : ShiftForm) (version : Z) (w : World) :
  shifts (store (snd (updateShift session now shiftId f version w))) = shifts (store w)
  \/ shifts (store (snd (updateShift session now shiftId f version w)))
     = updateWhere (editGuard shiftId version) (editedShift f version now) (shifts (store w)).
Proof.
  unfold updateShift.
  destruct (requireRole _ session) as [user|]; [|now left].
  destruct (negb (updateShiftSchema f version)); [now left|].
  destruct (negb (shiftUpdateBinds f version)); [now left|].
  destruct (nonEmpty _ && negb _); [now left|].
  right. destruct (List.length _ =? 0)%nat.
  - destruct (shiftById _ _); reflexivity.
  - cbn [snd setStore store]. now rewrite shifts_cascadeCancel.
Qed.

Lemma publishShift_shifts (session : option User.t) (now : Z)
  (shiftId locationId : Id) (w : World) :
  shifts (store (snd (publishShift session now shiftId locationId w))) = shifts (store w)
  \/ shifts (store (snd (publishShift session now shiftId locationId w)))
     = updateWhere (publishGuard shiftId false) (publishedShift now) (shifts (store w)).
Proof.
  unfold publishShift.
  destruct (requireRole _ session) as [user|]; [|now left].
  right. destruct (List.length _ =? 0)%nat; [|reflexivity].
  destruct (shiftById _ _) as [s|]; [|reflexivity].
  destruct (Shift.isPublished s); reflexivity.
Qed.

Lemma unpublishShift_shifts (session : option User.t) (now : Z)
  (shiftId locationId : Id) (w : World) :
  shifts (store (snd (unpublishShift session now shiftId locationId w))) = shifts (store w)
  \/ shifts (store (snd (unpublishShift session now shiftId locationId w)))
     = updateWhere (publishGuard shiftId true) (unpublishedShift now) (shifts (store w)).
Proof.
  unfold unpublishShift.
  destruct (requireRole _ session) as [user|]; [|now left].
  destruct (shiftById _ _) as [s|]; [|now left].
  destruct (negb (Shift.isPublished s)); [now left|].
  destruct (Qle_bool _ _); [now left|].
  right. destruct (List.length _ =? 0)%nat; reflexivity.
Qed.

Lemma deleteShift_shifts (session : option User.t) (now : Z)
  (shiftId locationId : Id) (w : World) :
  shifts (store (snd (deleteShift session now shiftId locationId w))) = shifts (store w)
  \/ shifts (store (snd (deleteShift session now shiftId locationId w)))
     = deleteWhere (fun s => id_eqb (Shift.id s) shiftId) (shifts (store w)).
Proof.
  unfold deleteShift.
  destruct (requireRole _ session) as [user|]; [|now left].
  unfold transaction, deleteShiftTx, bind, pg_advisory_xact_lock, select.
  cbn [store trace].
  destruct (shiftById (store w) shiftId) as [s|]; [|now left].
  destruct (Shift.isPublished s && Qle_bool _ _); [now left|].
  right. reflexivity.
Qed.

Lemma publishShift_success (session : option User.t) (now : Z)
  (shiftId locationId : Id) (w : World) :
  fst (publishShift session now shiftId locationId w) = Success ->
  returning (publishGuard shiftId false) (shifts (store w)) <> []
  /\ shifts (store (snd (publishShift session now shiftId locationId w)))
     = updateWhere (publishGuard shiftId false) (publishedShift now) (shifts (store w)).
Proof.
  unfold publishShift.
  destruct (requireRole _ session) as [user|]; [|discriminate].
  destruct (List.length _ =? 0)%nat eqn:Hlen.
  - destruct (shiftById _ _) as [s|]; [|discriminate].
    destruct (Shift.isPublished s); discriminate.
  - intros _. split; [|reflexivity].
    intros E. apply length_zero_nil in E. unfold publishGuard in E. congruence.
Qed.

Lemma unpublishShift_success (session : option User.t) (now : Z)
  (shiftId locationId : Id) (w : World) :
  fst (unpublishShift session now shiftId locationId w) = Success ->
  returning (publishGuard shiftId true) (shifts (store w)) <> []
  /\ shifts (store (snd (unpublishShift session now shiftId locationId w)))
     = updateWhere (publishGuard shiftId true) (unpublishedShift now) (shifts (store w)).
Proof.
  unfold unpublishShift.
  destruct (requireRole _ session) as [user|]; [|discriminate].
  destruct (shiftById _ _) as [s|]; [|discriminate].
  destruct (negb (Shift.isPublished s)); [discriminate|].
  destruct (Qle_bool _ _); [discriminate|].
  destruct (List.length _ =? 0)%nat eqn:Hlen; [discriminate|].
  intros _. split; [|reflexivity].
  intros E. apply length_zero_nil in E. unfold publishGuard in E. congruence.
Qed.

Lemma returning_nonempty {A : Type} (p : A -> bool) (rows : list A) :
  returning p rows <> [] -> exists x, In x rows /\ p x = true.
Proof.
  unfold returning. destruct (filter p rows) as [|x xs] eqn:E; [congruence|].
  intros _. exists x. apply filter_In. rewrite E. now left.
Qed.

(** After an edit at [version] no row of the shift is left at [version]. *)
Lemma edited_rows_leave_version (shiftId : Id) (f : ShiftForm) (version now : Z)
  (rows : list Shift.t) :
  returning (editGuard shiftId version)
            (updateWhere (editGuard shiftId version) (editedShift f version now) rows) = [].
Proof.
  unfold returning, updateWhere.
  induction rows as [|r rows IH]; simpl; [reflexivity|].
  destruct (editGuard shiftId version r) eqn:E.
  - unfold editGuard at 1. cbn [editedShift Shift.id Shift.version].
    replace (version + 1 =? version) with false by (symmetry; apply Z.eqb_neq; lia).
    rewrite andb_false_r. exact IH.
  - rewrite E. exact IH.
Qed.

(** One step on the [shifts] table never lowers a stored version. *)
Lemma version_step (rows rows' : list Shift.t) (shiftId : Id) (v v' : Z) :
  rows' = rows
  \/ (exists s, rows' = rows ++ [s])
  \/ (exists p g, rows' = updateWhere p g rows
                  /\ (forall s, Shift.id (g s) = Shift.id s)
                  /\ (forall s, p s = true -> Shift.version s <= Shift.version (g s)))
  \/ (exists gone, rows' = deleteWhere (fun s => id_eqb (Shift.id s) gone) rows) ->
  option_map Shift.version
    (hd_error (filter (fun s => id_eqb (Shift.id s) shiftId) rows)) = Some v ->
  option_map Shift.version
    (hd_error (filter (fun s => id_eqb (Shift.id s) shiftId) rows')) = Some v' ->
  v <= v'.
Proof.
  intros Hshape Hv Hv'.
  destruct (hd_error (filter _ rows)) as [s|] eqn:Hs; [|discriminate Hv].
  cbn in Hv. injection Hv as <-.
  destruct Hshape as [-> | [(x & ->) | [(p & g & -> & Hid & Hup) | (gone & ->)]]].
  - rewrite Hs in Hv'. cbn in Hv'. injection Hv' as <-. lia.
  - rewrite (hd_filter_app _ _ _ Hs) in Hv'. cbn in Hv'. injection Hv' as <-. lia.
  - rewrite (lookup_updateWhere shiftId p g rows Hid), Hs in Hv'. cbn in Hv'.
    injection Hv' as <-. destruct (p s) eqn:Hp; [now apply Hup|lia].
  - destruct (hd_error (filter _ (deleteWhere _ rows))) as [s'|] eqn:Hs';
      [|discriminate Hv'].
    apply lookup_deleteWhere in Hs'. rewrite Hs in Hs'. injection Hs' as <-.
    cbn in Hv'. injection Hv' as <-. lia.
Qed.

Lemma shiftById_In (d : DB) (shiftId : Id) (s : Shift.t) :
  shiftById d shiftId = Some s -> In s (shifts d) /\ Shift.id s = shiftId.
Proof.
  intros H. unfold shiftById in H. apply hd_filter_In in H. cbn beta in H.
  destruct H as [Hin Hid]. apply id_eqb_eq in Hid. auto.
Qed.

Lemma guard_matches {A : Type} (p : A -> bool) (rows : list A) :
  (exists x, In x rows /\ p x = true) -> (List.length (returning p rows) =? 0)%nat = false.
Proof.
  intros (x & Hx & Hp). unfold returning.
  assert (Hin : In x (filter p rows)) by (apply filter_In; auto).
  destruct (filter p rows); [destruct Hin|reflexivity].
Qed.

Lemma createShift_succeeds (session : option User.t) (now : Z) (newId : Id)
  (f : ShiftForm) (w : World) :
  fst (createShift session now newId f w) = Success
  <-> (exists user, requireRole [MANAGER; ADMIN] session = Some user)
      /\ createShiftSchema f = true
      /\ shiftInsertAccepted (store w) f = true.
Proof.
  unfold createShift.
  destruct (requireRole _ session) as [user|].
  - destruct (createShiftSchema f); cbn [negb].
    + destruct (shiftInsertAccepted (store w) f); cbn [negb fst].
      * split; [intros _; repeat split; eauto|reflexivity].
      * split; [discriminate|]. intros (_ & _ & H). discriminate H.
    + split; [discriminate|]. intros (_ & H & _). discriminate H.
  - split; [discriminate|]. intros ((user & H) & _). discriminate H.
Qed.

Lemma updateShift_succeeds (session : option User.t) (now : Z) (shiftId : Id)
  (f : ShiftForm) (version : Z) (w : World) :
  fst (updateShift session now shiftId f version w) = Success
  <-> (exists user, requireRole [MANAGER; ADMIN] session = Some user)
      /\ updateShiftSchema f version = true
      /\ shiftUpdateBinds f version = true
      /\ references (form_skillId f) (skills (store w)) = true
      /\ exists s, In s (shifts (store w)) /\ editGuard shiftId version s = true.
Proof.
  unfold updateShift, editGuard.
  destruct (requireRole _ session) as [user|];
    [|split; [discriminate|intros ((user & H) & _); discriminate H]].
  destruct (updateShiftSchema f version); cbn [negb];
    [|split; [discriminate|intros (_ & H & _); discriminate H]].
  destruct (shiftUpdateBinds f version); cbn [negb];
    [|split; [discriminate|intros (_ & _ & H & _); discriminate H]].
  destruct (List.length (returning _ (shifts (store w))) =? 0)%nat eqn:Hlen.
  - apply length_zero_nil in Hlen. rewrite Hlen. cbn [nonEmpty andb].
    split.
    + destruct (shiftById _ _); discriminate.
    + intros (_ & _ & _ & _ & s & Hs & Hg). exfalso.
      assert (Hin : In s (returning (fun s0 => id_eqb (Shift.id s0) shiftId
                                               && (Shift.version s0 =? version))
                                    (shifts (store w)))) by (apply filter_In; auto).
      rewrite Hlen in Hin. destruct Hin.
  - assert (Hne : returning (fun s0 => id_eqb (Shift.id s0) shiftId
                                       && (Shift.version s0 =? version))
                            (shifts (store w)) <> []).
    { intros E. rewrite E in Hlen. discriminate Hlen. }
    pose proof (returning_nonempty _ _ Hne) as Hrow.
    destruct (returning _ (shifts (store w))) as [|x xs] eqn:E; [congruence|].
    cbn [nonEmpty andb].
    destruct (references (form_skillId f) (skills (store w))); cbn [negb fst].
    + split; [intros _; repeat split; eauto|reflexivity].
    + split; [discriminate|]. intros (_ & _ & _ & H & _). discriminate H.
Qed.

Lemma publishShift_succeeds (session : option User.t) (now : Z)
  (shiftId locationId : Id) (w : World) :
  fst (publishShift session now shiftId locationId w) = Success
  <-> (exists user, requireRole [MANAGER; ADMIN] session = Some user)
      /\ exists s, In s (shifts (store w)) /\ publishGuard shiftId false s = true.
Proof.
  split.
  - intros Hok. split.
    + unfold publishShift in Hok. destruct (requireRole _ session) as [user|]; eauto.
      discriminate Hok.
    + apply publishShift_success in Hok. now apply returning_nonempty.
  - intros ((user & Hrole) & Hrow). unfold publishShift. rewrite Hrole.
    fold (publishGuard shiftId false).
    now rewrite (guard_matches _ _ Hrow).
Qed.

Lemma unpublishShift_succeeds (session : option User.t) (now : Z)
  (shiftId locationId : Id) (w : World) :
  fst (unpublishShift session now shiftId locationId w) = Success
  <-> (exists user, requireRole [MANAGER; ADMIN] session = Some user)
      /\ exists s, shiftById (store w) shiftId = Some s
                   /\ Shift.isPublished s = true
                   /\ Qle_bool (hoursUntil (Shift.date s) (Shift.startTime s) now)
                                (inject_Z 48) = false.
Proof.
  unfold unpublishShift.
  destruct (requireRole _ session) as [user|];
    [|split; [discriminate|intros ((user & H) & _); discriminate H]].
  destruct (shiftById (store w) shiftId) as [s|] eqn:Hs;
    [|split; [discriminate|intros (_ & s & H & _); discriminate H]].
  destruct (Shift.isPublished s) eqn:Hpub; cbn [negb];
    [|split; [discriminate|intros (_ & s' & H & Hp & _); injection H as <-; congruence]].
  destruct (Qle_bool _ _) eqn:Hnear;
    [split; [discriminate|intros (_ & s' & H & _ & Hq); injection H as <-; congruence]|].
  assert (Hrow : exists x, In x (shifts (store w))
                           /\ (fun s0 => id_eqb (Shift.id s0) shiftId
                                         && Bool.eqb (Shift.isPublished s0) true) x = true).
  { exists s. apply shiftById_In in Hs. destruct Hs as [Hin Hid]. split; [exact Hin|].
    cbn beta. rewrite Hid, id_eqb_refl, Hpub. reflexivity. }
  rewrite (guard_matches _ _ Hrow). cbn [fst].
  split; [intros _; split; eauto|reflexivity].
Qed.

(** C8. Each shift mutation happens under conditions that can be met, and
    then moves the version as stated.  [createShift] succeeds exactly for a
    manager or admin with a form the schema, the [time] columns and the
    foreign keys to [locations] and [skills] accept, and stores the new
    shift with version 1.  [updateShift] succeeds exactly for a manager or
    admin with a form the schema accepts, parameters the [time] and
    [integer] columns accept, a skill that exists and a stored row of the
    shift that carries the supplied version; it writes version + 1 on the
    rows it matched, and a further edit with that same supplied version
    cannot succeed.  [publishShift]
    succeeds exactly when a draft row of the shift exists, [unpublishShift]
    exactly when the shift is published and starts more than 48 hours
    ahead; each adds exactly 1 to the version of the rows its conditional
    update matches.  No shift mutation (create, edit, delete, publish,
    unpublish, succeeding or failing) lowers the stored version of a
    shift. *)
Theorem shift_version_only_increases :
  (forall session now newId f w,
      (fst (createShift session now newId f w) = Success
       <-> (exists user, requireRole [MANAGER; ADMIN] session = Some user)
           /\ createShiftSchema f = true
           /\ shiftInsertAccepted (store w) f = true)
      /\ (fst (createShift session now newId f w) = Success ->
          exists s, shifts (store (snd (createShift session now newId f w)))
                    = shifts (store w) ++ [s]
                    /\ Shift.id s = newId /\ Shift.version s = 1))
  /\ (forall session now shiftId f version w,
         (fst (updateShift session now shiftId f version w) = Success
          <-> (exists user, requireRole [MANAGER; ADMIN] session = Some user)
              /\ updateShiftSchema f version = true
              /\ shiftUpdateBinds f version = true
              /\ references (form_skillId f) (skills (store w)) = true
              /\ exists s, In s (shifts (store w)) /\ editGuard shiftId version s = true)
         /\ (fst (updateShift session now shiftId f version w) = Success ->
             shifts (store (snd (updateShift session now shiftId f version w)))
             = updateWhere (editGuard shiftId version) (editedShift f version now)
                           (shifts (store w))
             /\ (forall s, editGuard shiftId version s = true ->
                           Shift.version (editedShift f version now s) = Shift.version s + 1)
             /\ (forall session2 now2 f2,
                    fst (updateShift session2 now2 shiftId f2 version
                           (snd (updateShift session now shiftId f version w)))
                    <> Success)))
  /\ (forall session now shiftId locationId w,
         (fst (publishShift session now shiftId locationId w) = Success
          <-> (exists user, requireRole [MANAGER; ADMIN] session = Some user)
              /\ exists s, In s (shifts (store w)) /\ publishGuard shiftId false s = true)
         /\ (fst (publishShift session now shiftId locationId w) = Success ->
             shifts (store (snd (publishShift session now shiftId locationId w)))
             = updateWhere (publishGuard shiftId false) (publishedShift now)
                           (shifts (store w))
             /\ (forall s, Shift.version (publishedShift now s) = Shift.version s + 1)))
  /\ (forall session now shiftId locationId w,
         (fst (unpublishShift session now shiftId locationId w) = Success
          <-> (exists user, requireRole [MANAGER; ADMIN] session = Some user)
              /\ exists s, shiftById (store w) shiftId = Some s
                           /\ Shift.isPublished s = true
                           /\ Qle_bool (hoursUntil (Shift.date s) (Shift.startTime s) now)
                                        (inject_Z 48) = false)
         /\ (fst (unpublishShift session now shiftId locationId w) = Success ->
             shifts (store (snd (unpublishShift session now shiftId locationId w)))
             = updateWhere (publishGuard shiftId true) (unpublishedShift now)
                           (shifts (store w))
             /\ (forall s, Shift.version (unpublishedShift now s) = Shift.version s + 1)))
  /\ (forall session now op w shiftId v v',
         versionOf (store w) shiftId = Some v ->
         versionOf (store (snd (runShiftOp session now op w))) shiftId = Some v' ->
         v <= v').
Proof.
  split; [|split; [|split; [|split]]].
  - intros session now newId f w. split; [apply createShift_succeeds|].
    intros Hok.
    destruct (createShift_shifts session now newId f w)
      as [[Hfail _] | (s & _ & Hs & Hid & Hv & _)]; [congruence|].
    exists s. auto.
  - intros session now shiftId f version w. split; [apply updateShift_succeeds|].
    intros Hok.
    destruct (updateShift session now shiftId f version w) as [result w'] eqn:E.
    cbn [fst snd] in *. subst result.
    apply updateShift_success in E. cbn zeta in E. destruct E as [Hrows ->].
    cbn [setStore store]. rewrite shifts_cascadeCancel. cbn [withShifts shifts].
    split; [reflexivity|split].
    + intros s Hg. unfold editGuard in Hg. apply andb_true_iff in Hg.
      destruct Hg as [_ Hv]. apply Z.eqb_eq in Hv. cbn. lia.
    + intros session2 now2 f2 Hok2.
      match type of Hok2 with
      | fst (updateShift _ _ _ _ _ ?w1) = _ =>
          destruct (updateShift session2 now2 shiftId f2 version w1) as [r2 w2] eqn:E2
      end.
      cbn [fst] in Hok2. subst r2. apply updateShift_success in E2.
      destruct E2 as [Hrows2 _]. apply Hrows2.
      cbn [setStore store]. rewrite shifts_cascadeCancel. cbn [withShifts shifts].
      apply edited_rows_leave_version.
  - intros session now shiftId locationId w. split; [apply publishShift_succeeds|].
    intros Hok. apply publishShift_success in Hok. destruct Hok as [Hrows Htable].
    split; [exact Htable|reflexivity].
  - intros session now shiftId locationId w. split; [apply unpublishShift_succeeds|].
    intros Hok. apply unpublishShift_success in Hok. destruct Hok as [Hrows Htable].
    split; [exact Htable|reflexivity].
  - intros session now op w shiftId v v'. unfold versionOf, shiftById.
    apply version_step.
    destruct op as [newId f|sid f version|sid loc|sid loc|sid loc]; cbn [runShiftOp].
    + destruct (createShift_shifts session now newId f w)
        as [[_ ->] | (s & _ & Hs & _)]; [now left|].
      right. left. now exists s.
    + destruct (updateShift_shifts session now sid f version w) as [->| ->];
        [now left|].
      do 2 right. left. exists (editGuard sid version), (editedShift f version now).
      split; [reflexivity|]. split; [reflexivity|].
      intros s Hg. unfold editGuard in Hg. apply andb_true_iff in Hg.
      destruct Hg as [_ Hv]. apply Z.eqb_eq in Hv. cbn. lia.
    + destruct (deleteShift_shifts session now sid loc w) as [->| ->]; [now left|].
      do 3 right. now exists sid.
    + destruct (publishShift_shifts session now sid loc w) as [->| ->]; [now left|].
      do 2 right. left. exists (publishGuard sid false), (publishedShift now).
      split; [reflexivity|]. split; [reflexivity|]. intros s _. cbn. lia.
    + destruct (unpublishShift_shifts session now sid loc w) as [->| ->]; [now left|].
      do 2 right. left. exists (publishGuard sid true), (unpublishedShift now).
      split; [reflexivity|]. split; [reflexivity|]. intros s _. cbn. lia.
Qed.

(** On [versionedShifts] a manager creates a shift (version 1), publishes
    the draft "s1" (3 to 4), unpublishes "s2" (5 to 6) and edits "s1" at
    version 3 (3 to 4). *)
Lemma shift_version_only_increases_witness :
  (fst (createShift (Some manager) 9 "s9" editForm (mkWorld versionedShifts [])) = Success
   /\ versionOf (store (snd (createShift (Some manager) 9 "s9" editForm
                               (mkWorld versionedShifts [])))) "s9" = Some 1)
  /\ (fst (publishShift (Some manager) 9 "s1" "l1" (mkWorld versionedShifts [])) = Success
      /\ versionOf (store (snd (publishShift (Some manager) 9 "s1" "l1"
                                  (mkWorld versionedShifts [])))) "s1" = Some 4)
  /\ (fst (unpublishShift (Some manager) 9 "s2" "l1" (mkWorld versionedShifts [])) = Success
      /\ versionOf (store (snd (unpublishShift (Some manager) 9 "s2" "l1"
                                  (mkWorld versionedShifts [])))) "s2" = Some 6)
  /\ (fst (updateShift (Some manager) 9 "s1" editForm 3 (mkWorld versionedShifts []))
      = Success
      /\ versionOf (store (snd (updateShift (Some manager) 9 "s1" editForm 3
                                  (mkWorld versionedShifts [])))) "s1" = Some 4)
  /\ 3 <= 4.
Proof.
  destruct shift_version_only_increases as (Hcreate & Hedit & Hpub & Hunpub & Hmono).
  split; [|split; [|split; [|split]]].
  - split; [|reflexivity].
    apply (proj1 (Hcreate (Some manager) 9 "s9" editForm (mkWorld versionedShifts []))).
    split; [exists manager; reflexivity|]. split; reflexivity.
  - split; [|reflexivity].
    apply (proj1 (Hpub (Some manager) 9 "s1" "l1" (mkWorld versionedShifts []))).
    split; [exists manager; reflexivity|].
    eexists. split; [left; reflexivity|reflexivity].
  - split; [|reflexivity].
    apply (proj1 (Hunpub (Some manager) 9 "s2" "l1" (mkWorld versionedShifts []))).
    split; [exists manager; reflexivity|].
    eexists. split; [reflexivity|]. split; reflexivity.
  - split; [|reflexivity].
    apply (proj1 (Hedit (Some manager) 9 "s1" editForm 3 (mkWorld versionedShifts []))).
    split; [exists manager; reflexivity|]. repeat (split; [reflexivity|]).
    eexists. split; [left; reflexivity|reflexivity].
  - exact (Hmono (Some manager) 9 (UpdateShift "s1" editForm 3)
             (mkWorld versionedShifts []) "s1" 3 4 eq_refl eq_refl).
Defined.

(* ------------------------------------------------------------------ *)
(** * Swap approval *)

(** C9. Approving a SWAP request in status ACCEPTED_BY_TARGET succeeds
    whenever the request, its target and its assignment exist - whatever
    validation would say about the target: the request becomes APPROVED and
    the existing assignment row is rewritten in place with the target as
    staff member and the approver and time as assignedBy / assignedAt.
    There is a state - the target already holds a shift overlapping the
    swapped one, so validation of the target reports SHIFT_OVERLAP - in
    which the approval succeeds and leaves the target with two
    overlapping assignments. *)
Theorem swap_approval_skips_validation :
  (forall session now requestId notes w user request assignment target,
      requireRole [MANAGER; ADMIN] session = Some user ->
      requestById (store w) requestId = Some request ->
      SwapRequest.type request = SWAP ->
      SwapRequest.status request = ACCEPTED_BY_TARGET ->
      SwapRequest.targetStaffId request = Some target ->
      target <> "" ->
      assignmentById (store w) (SwapRequest.shiftAssignmentId request) = Some assignment ->
      fst (SwapRequestsActions.approveSwapRequest session now requestId notes w) = Success
      /\ shiftAssignments
           (store (snd (SwapRequestsActions.approveSwapRequest session now requestId notes w)))
         = updateWhere
             (fun a => id_eqb (ShiftAssignment.id a) (ShiftAssignment.id assignment))
             (reassigned target (User.id user) now)
             (shiftAssignments (store w))
      /\ swapRequests
           (store (snd (SwapRequestsActions.approveSwapRequest session now requestId notes w)))
         = updateWhere (fun r => id_eqb (SwapRequest.id r) requestId)
                       (approvedRequest (User.id user) now notes)
                       (swapRequests (store w)))
  /\ In "SHIFT_OVERLAP"
        (codes (validateAssignment acceptedSwap "w2"
                  (shiftDataOf (shiftRow "s1" monday (mkTime 9 0) (mkTime 17 0)))))
  /\ ~ doubleBooked acceptedSwap "w2"
  /\ fst (SwapRequestsActions.approveSwapRequest (Some manager) 9 "r1" None
            (mkWorld acceptedSwap [])) = Success
  /\ shiftAssignments
       (store (snd (SwapRequestsActions.approveSwapRequest (Some manager) 9 "r1" None
                      (mkWorld acceptedSwap []))))
     = [ ShiftAssignment.mk "a1" "s1" "w2" "m1" 9;
         ShiftAssignment.mk "a2" "s2" "w2" "m1" 0 ]
  /\ doubleBooked
       (store (snd (SwapRequestsActions.approveSwapRequest (Some manager) 9 "r1" None
                      (mkWorld acceptedSwap []))))
       "w2".
Proof.
  split; [|split; [|split; [|split; [|split]]]].
  - intros session now requestId notes w user request assignment target
           Hrole Hreq Htype Hstatus Htarget Hne Hassign.
    unfold SwapRequestsActions.approveSwapRequest. rewrite Hrole.
    unfold transaction, SwapRequestsActions.approveTx, bind,
      pg_advisory_xact_lock, select, execute.
    cbn [store trace]. rewrite Hreq, Htype, Hstatus.
    cbn [SwapType_eqb SwapStatus_eqb negb andb store trace].
    rewrite Hassign, Htarget. unfold truthy.
    apply String.eqb_neq in Hne. rewrite Hne. cbn. auto.
  - vm_compute. tauto.
  - intros (a1 & a2 & s1 & s2 & H1 & H2 & Hne & Hs1 & Hs2 & _).
    simpl in H1, H2.
    destruct H1 as [<-|[<-|[]]]; destruct H2 as [<-|[<-|[]]];
      simpl in *; congruence.
  - reflexivity.
  - reflexivity.
  - exists (ShiftAssignment.mk "a1" "s1" "w2" "m1" 9),
      (ShiftAssignment.mk "a2" "s2" "w2" "m1" 0),
      (shiftRow "s1" monday (mkTime 9 0) (mkTime 17 0)),
      (shiftRow "s2" monday (mkTime 12 0) (mkTime 20 0)).
    split; [now left|]. split; [right; now left|].
    split; [discriminate|]. split; [reflexivity|]. split; [reflexivity|].
    split; [reflexivity|]. split; [reflexivity|].
    split; vm_compute; reflexivity.
Qed.

Lemma swap_approval_skips_validation_witness :
  fst (SwapRequestsActions.approveSwapRequest (Some manager) 9 "r1" (Some "fine")
         (mkWorld acceptedSwap [])) = Success.
Proof.
  exact (proj1 (proj1 swap_approval_skips_validation
                  (Some manager) 9 "r1" (Some "fine") (mkWorld acceptedSwap [])
                  manager (swapOf "r1" "a1" ACCEPTED_BY_TARGET)
                  (ShiftAssignment.mk "a1" "s1" "w1" "m1" 0) "w2"
                  eq_refl eq_refl eq_refl eq_refl eq_refl
                  (fun E => ltac:(discriminate E)) eq_refl)).
Defined.

(* ------------------------------------------------------------------ *)
(** * Self-pickup *)

Lemma hd_filter_none {A : Type} (p : A -> bool) (rows : list A) :
  hd_error (filter p rows) = None <-> forall x, In x rows -> p x = false.
Proof.
  induction rows as [|r rows IH]; simpl.
  - split; [intros _ x []|reflexivity].
  - destruct (p r) eqn:E; simpl.
    + split; [discriminate|]. intros H. specialize (H r (or_introl eq_refl)). congruence.
    + rewrite IH. split.
      * intros H x [<-|Hx]; auto.
      * intros H x Hx. apply H. now right.
Qed.

(** A branch of [pickUpShift] that answers with a failure: [cause] proves
    the rejection condition. *)
Ltac rejected cause :=
  split; [|split];
  [ split; [intros _; cause | intros _; eexists; reflexivity]
  | intros Hn; exfalso; apply Hn; cause
  | reflexivity ].

(** C10. For a signed-in staff member, [pickUpShift] answers with a failure
    iff the shift does not exist, is not published, does not start
    strictly after now, already has as many assignments as its headcount,
    or is already assigned to the worker; otherwise it inserts the
    assignment.  Its answer depends only on the shift row and the
    assignments of that shift - none of the tables the constraint engine
    reads - and it issues no transaction or advisory lock (the trace of
    transaction primitives is unchanged).  There is a state in which validation of the worker
    reports every error the engine has and the pickup succeeds. *)
Theorem pickup_checks_only_the_shift :
  (forall session now newId shiftId w user,
      requireRole [STAFF] session = Some user ->
      ((exists msg, fst (pickUpShift session now newId shiftId w) = Failure msg)
       <-> pickupRejected (store w) (User.id user) now shiftId)
      /\ (~ pickupRejected (store w) (User.id user) now shiftId ->
          pickUpShift session now newId shiftId w
          = (Success,
             setStore w
               (withShiftAssignments (store w)
                  (shiftAssignments (store w)
                   ++ [ShiftAssignment.mk newId shiftId (User.id user) (User.id user) now]))))
      /\ trace (snd (pickUpShift session now newId shiftId w)) = trace w)
  /\ (forall session now newId shiftId w1 w2,
         shiftById (store w1) shiftId = shiftById (store w2) shiftId ->
         filter (fun a => id_eqb (ShiftAssignment.shiftId a) shiftId)
                (shiftAssignments (store w1))
         = filter (fun a => id_eqb (ShiftAssignment.shiftId a) shiftId)
                  (shiftAssignments (store w2)) ->
         fst (pickUpShift session now newId shiftId w1)
         = fst (pickUpShift session now newId shiftId w2))
  /\ codes (validateAssignment unqualifiedWorker "w1"
              (candidate (monday + 6) (mkTime 9 0) (mkTime 17 0)))
     = ["SKILL_MISMATCH"; "LOCATION_NOT_CERTIFIED"; "NOT_AVAILABLE"; "SHIFT_OVERLAP";
        "REST_PERIOD_VIOLATION"; "DAILY_HOURS_HARD_LIMIT"; "SEVENTH_CONSECUTIVE_DAY"]
  /\ pickUpShift (Some worker) 0 "p1" "s1" (mkWorld unqualifiedWorker [])
     = (Success,
        mkWorld (withShiftAssignments unqualifiedWorker
                   (shiftAssignments unqualifiedWorker
                    ++ [ShiftAssignment.mk "p1" "s1" "w1" "w1" 0]))
                []).
Proof.
  split; [|split; [|split]]; try (vm_compute; reflexivity).
  - intros session now newId shiftId w user Hrole.
    unfold pickUpShift, pickupRejected. rewrite Hrole.
    destruct (shiftById (store w) shiftId) as [shift|].
    2: { rejected ltac:(exact I). }
    destruct (Shift.isPublished shift) eqn:Hpub; cbn [negb].
    2: { rejected ltac:(now left). }
    destruct (startInstant _ _ <=? now) eqn:Hstart.
    { apply Z.leb_le in Hstart. rejected ltac:(right; now left). }
    apply Z.leb_gt in Hstart.
    destruct (_ >=? Shift.headcount shift) eqn:Hcap.
    { apply Z.geb_le in Hcap. rejected ltac:(right; right; now left). }
    rewrite Z.geb_leb in Hcap. apply Z.leb_gt in Hcap.
    destruct (hd_error _) as [existing|] eqn:Hex.
    { apply hd_filter_In in Hex. destruct Hex as [Hin Hp].
      apply andb_true_iff in Hp. destruct Hp as [H1 H2].
      apply id_eqb_eq in H1. apply id_eqb_eq in H2.
      rejected ltac:(do 3 right; exists existing; auto). }
    assert (Hnot : ~ (true = false
                      \/ startInstant (Shift.date shift) (Shift.startTime shift) <= now
                      \/ Shift.headcount shift
                         <= Z.of_nat (List.length
                                        (filter (fun a => id_eqb (ShiftAssignment.shiftId a) shiftId)
                                                (shiftAssignments (store w))))
                      \/ exists a, In a (shiftAssignments (store w))
                                   /\ ShiftAssignment.shiftId a = shiftId
                                   /\ ShiftAssignment.staffId a = User.id user)).
    { intros [Hp|[Hs|[Hc|(a & Hin & H1 & H2)]]].
      - discriminate Hp.
      - lia.
      - lia.
      - rewrite hd_filter_none in Hex. specialize (Hex a Hin).
        cbn beta in Hex.
        rewrite H1, H2, !id_eqb_refl in Hex. discriminate Hex. }
    split; [|split]; [split| | reflexivity].
    + intros (msg & Hm). discriminate Hm.
    + intros Hr. exfalso. exact (Hnot Hr).
    + intros _. reflexivity.
  - intros session now newId shiftId w1 w2 Hshift Hassign.
    unfold pickUpShift.
    destruct (requireRole _ session) as [user|]; [|reflexivity].
    rewrite Hshift.
    destruct (shiftById (store w2) shiftId) as [shift|]; [|reflexivity].
    destruct (negb (Shift.isPublished shift)); [reflexivity|].
    destruct (startInstant _ _ <=? now); [reflexivity|].
    rewrite Hassign.
    destruct (_ >=? Shift.headcount shift); [reflexivity|].
    assert (E : forall w, filter (fun a => id_eqb (ShiftAssignment.shiftId a) shiftId
                                           && id_eqb (ShiftAssignment.staffId a) (User.id user))
                                 (shiftAssignments (store w))
                          = filter (fun a => id_eqb (ShiftAssignment.staffId a) (User.id user))
                                   (filter (fun a => id_eqb (ShiftAssignment.shiftId a) shiftId)
                                           (shiftAssignments (store w)))).
    { intros w. induction (shiftAssignments (store w)) as [|a rest IH]; simpl; [reflexivity|].
      destruct (id_eqb (ShiftAssignment.shiftId a) shiftId); simpl; [|exact IH].
      destruct (id_eqb (ShiftAssignment.staffId a) (User.id user)); now rewrite IH. }
    rewrite (E w1), (E w2), Hassign.
    destruct (hd_error _); reflexivity.
Qed.

Lemma pickup_checks_only_the_shift_witness :
  pickUpShift (Some colleague) 0 "p2" "s1" (mkWorld unqualifiedWorker [])
  = (Success,
     mkWorld (withShiftAssignments unqualifiedWorker
                (shiftAssignments unqualifiedWorker
                 ++ [ShiftAssignment.mk "p2" "s1" "w2" "w2" 0]))
             []).
Proof.
  refine (proj1 (proj2 (proj1 pickup_checks_only_the_shift
                          (Some colleague) 0 "p2" "s1" (mkWorld unqualifiedWorker [])
                          colleague eq_refl)) _).
  unfold pickupRejected. cbn.
  intros [H|[H|[H|(a & Hin & H1 & H2)]]].
  - discriminate H.
  - vm_compute in H. apply H. reflexivity.
  - vm_compute in H. apply H. reflexivity.
  - repeat (destruct Hin as [<-|Hin]; [discriminate H1|]). destruct Hin.
Defined.

(* ------------------------------------------------------------------ *)
(** * Worked examples *)

(** Six one-hour shifts on the six days before: the only error is
    SEVENTH_CONSECUTIVE_DAY; without a reason, or with a blank one, the
    assignment is rejected as overridable. *)
Example seventh_day_without_reason :
  codes (validateAssignment sixDaysWorked "w1"
           (candidate (monday + 6) (mkTime 9 0) (mkTime 10 0)))
  = ["SEVENTH_CONSECUTIVE_DAY"]
  /\ assignStaffToShift (Some manager) 5 "a7" "s1" "w1" "l1" None
                        (mkWorld sixDaysWorked [])
     = (Rejected [Lit "Staff member would work their 7th consecutive day. This requires manager override with documented reason."]
                 true,
        mkWorld sixDaysWorked [])
  /\ fst (assignStaffToShift (Some manager) 5 "a7" "s1" "w1" "l1" (Some "   ")
                             (mkWorld sixDaysWorked []))
     = fst (assignStaffToShift (Some manager) 5 "a7" "s1" "w1" "l1" None
                               (mkWorld sixDaysWorked [])).
Proof. repeat split; vm_compute; reflexivity. Qed.

(** A second error makes the rejection final, reason or not. *)
Example seventh_day_with_second_error :
  fst (assignStaffToShift (Some manager) 5 "a7" "s1" "w2" "l1" (Some "flu season")
                          (mkWorld sixDaysWorked []))
  = Rejected (join "; "
                [ [Lit "Staff member does not have the required skill for this shift"];
                  [Lit "Staff member is not certified to work at this location"];
                  [Lit "Staff has no availability set for "; Lit "Sunday"] ])
             false.
Proof. vm_compute. reflexivity. Qed.

(** With a reason the seventh-day assignment is let through and reaches the
    transaction that locks the staff member, which rolls back. *)
Example seventh_day_with_reason :
  assignStaffToShift (Some manager) 5 "a7" "s1" "w1" "l1" (Some " flu season ")
                     (mkWorld sixDaysWorked [])
  = (AssignFailure "Failed to assign staff",
     mkWorld sixDaysWorked [TxBegin; AdvisoryLock "w1"; TxRollback]).
Proof. vm_compute. reflexivity. Qed.

(** Twelve hours exactly, in thirds of an hour: the three quotients add up
    to a double just above 12, so the engine reports the daily hard limit. *)
Example twelve_hours_in_thirds :
  Qeq (shiftDurationHours (mkTime 6 0) (mkTime 6 20)
       + shiftDurationHours (mkTime 9 40) (mkTime 18 0)
       + shiftDurationHours (mkTime 6 20) (mkTime 9 40))%Q
      (inject_Z 12)
  /\ codes (validateAssignment twelveHourDay "w1"
              (candidate monday (mkTime 6 20) (mkTime 9 40)))
     = ["DAILY_HOURS_HARD_LIMIT"].
Proof. split; vm_compute; reflexivity. Qed.

Example trim_examples :
  trim "  flu season  " = "flu season" /\ trim "   " = "" /\ trim "" = "".
Proof. repeat split; vm_compute; reflexivity. Qed.

(** An overnight shift 23:00-03:00 lasts four hours and ends on the next
    day. *)
Example overnight_range :
  isOvernightShift (mkTime 23 0) (mkTime 3 0) = true
  /\ absoluteRange (mkTime 23 0) (mkTime 3 0) = (1380, 1620)
  /\ Qeq (shiftDurationHours (mkTime 23 0) (mkTime 3 0)) (inject_Z 4).
Proof. repeat split; vm_compute; reflexivity. Qed.

(* ------------------------------------------------------------------ *)
(** * The swap/drop workflow beyond the claims *)

(** Runs the transaction primitives of an action symbolically. *)
Ltac run_tx :=
  unfold transaction, bind, pg_advisory_xact_lock, select, execute, throw, ret;
  cbn [store trace fst snd].

Ltac unchanged := split; [discriminate|reflexivity].

(** X1. A request in status APPROVED, DENIED or CANCELLED is final: approve,
    deny, both cancel actions, accept and decline all fail on it, whoever
    calls them, and leave the store as it was. *)
Theorem processed_request_is_final
  (session : option User.t) (now : Z) (requestId : Id) (notes : option string)
  (w : World) (request : SwapRequest.t) :
  requestById (store w) requestId = Some request ->
  SwapRequest.status request = APPROVED
  \/ SwapRequest.status request = DENIED
  \/ SwapRequest.status request = CANCELLED ->
  let untouched (r : ActionResult * World) := fst r <> Success /\ store (snd r) = store w in
  untouched (SwapRequestsActions.approveSwapRequest session now requestId notes w)
  /\ untouched (denySwapRequest session now requestId notes w)
  /\ untouched (SwapRequestsActions.cancelSwapRequest session now requestId w)
  /\ untouched (SwapActions.cancelSwapRequest session now requestId w)
  /\ untouched (acceptSwapAsTarget session now requestId w)
  /\ untouched (declineSwapAsTarget session now requestId w).
Proof.
  intros Hreq Hstatus untouched. unfold untouched.
  assert (Hnp : SwapStatus_eqb (SwapRequest.status request) PENDING = false)
    by (destruct Hstatus as [-> | [-> | ->]]; reflexivity).
  assert (Hna : SwapStatus_eqb (SwapRequest.status request) ACCEPTED_BY_TARGET = false)
    by (destruct Hstatus as [-> | [-> | ->]]; reflexivity).
  repeat split.
  all: try (unfold SwapRequestsActions.approveSwapRequest;
            destruct (requireRole _ session) as [user|]; [|try discriminate; reflexivity];
            unfold SwapRequestsActions.approveTx; run_tx; rewrite Hreq, Hnp, Hna;
            destruct (SwapRequest.type request); cbn; try discriminate; reflexivity).
  all: try (unfold denySwapRequest;
            destruct (requireRole _ session) as [user|]; [|try discriminate; reflexivity];
            unfold denyTx; run_tx; rewrite Hreq, Hnp, Hna;
            cbn; try discriminate; reflexivity).
  all: try (unfold SwapRequestsActions.cancelSwapRequest;
            destruct (requireAuth session) as [user|]; [|try discriminate; reflexivity];
            unfold SwapRequestsActions.cancelTx; run_tx; rewrite Hreq, Hnp, Hna;
            destruct (id_eqb (SwapRequest.requestedBy request) (User.id user));
            cbn; try discriminate; reflexivity).
  all: try (unfold SwapActions.cancelSwapRequest;
            destruct (requireRole _ session) as [user|]; [|try discriminate; reflexivity];
            rewrite Hreq, Hnp;
            destruct (id_eqb (SwapRequest.requestedBy request) (User.id user));
            cbn; try discriminate; reflexivity).
  all: try (unfold acceptSwapAsTarget, declineSwapAsTarget;
            destruct (requireAuth session) as [user|]; [|try discriminate; reflexivity];
            unfold targetTx; run_tx; rewrite Hreq, Hnp;
            destruct (isTarget request user), (SwapRequest.type request);
            cbn; try discriminate; reflexivity).
Qed.

Lemma processed_request_is_final_witness :
  fst (denySwapRequest (Some manager) 9 "r1" None (mkWorld processedRequests []))
  <> Success
  /\ store (snd (denySwapRequest (Some manager) 9 "r1" None (mkWorld processedRequests [])))
     = processedRequests.
Proof.
  exact (proj1 (proj2 (@processed_request_is_final
                         (Some manager) 9 "r1" None (mkWorld processedRequests [])
                         (SwapRequest.mk "r1" "a1" "w1" SWAP (Some "w2") APPROVED
                                         (Some "m1") (Some 7) (Some "ok") 7)
                         eq_refl (or_introl eq_refl)))).
Defined.

(** X2. Until a manager approves, the workflow never changes who is
    assigned: creating a request, accepting, declining, denying and
    cancelling all leave the [shiftAssignments] and [shifts] tables as
    they were, whatever their outcome. *)
Theorem requests_leave_assignments_alone
  (session : option User.t) (now : Z) (newId requestId assignmentId targetStaffId : Id)
  (notes : option string) (w : World) :
  let same (r : ActionResult * World) :=
    shiftAssignments (store (snd r)) = shiftAssignments (store w)
    /\ shifts (store (snd r)) = shifts (store w) in
  same (SwapActions.createSwapRequest session now newId assignmentId targetStaffId w)
  /\ same (SwapActions.createDropRequest session now newId assignmentId w)
  /\ same (SwapActions.cancelSwapRequest session now requestId w)
  /\ same (SwapRequestsActions.cancelSwapRequest session now requestId w)
  /\ same (acceptSwapAsTarget session now requestId w)
  /\ same (declineSwapAsTarget session now requestId w)
  /\ same (denySwapRequest session now requestId notes w).
Proof.
  intros same. unfold same.
  repeat split.
  all: try (unfold SwapActions.createSwapRequest, SwapActions.createDropRequest;
            destruct (requireRole _ session) as [user|]; [|reflexivity];
            destruct (_ >=? 3); [reflexivity|];
            destruct (assignmentById _ _) as [a|]; [|reflexivity];
            destruct (negb _); [reflexivity|];
            destruct (existingRequest _ _); [reflexivity|];
            destruct (shiftById _ _) as [s|]; [|reflexivity];
            try destruct (Qle_bool _ _); try destruct (negb (references _ _));
            reflexivity).
  all: try (unfold SwapActions.cancelSwapRequest;
            destruct (requireRole _ session) as [user|]; [|reflexivity];
            destruct (requestById _ _) as [r|]; [|reflexivity];
            destruct (negb _); [reflexivity|];
            destruct (negb _); reflexivity).
  all: try (unfold SwapRequestsActions.cancelSwapRequest;
            destruct (requireAuth session) as [user|]; [|reflexivity];
            unfold SwapRequestsActions.cancelTx; run_tx;
            destruct (requestById _ _) as [r|]; [|reflexivity];
            destruct (negb _); [reflexivity|];
            destruct (_ && _); reflexivity).
  all: try (unfold acceptSwapAsTarget, declineSwapAsTarget;
            destruct (requireAuth session) as [user|]; [|reflexivity];
            unfold targetTx; run_tx;
            destruct (requestById _ _) as [r|]; [|reflexivity];
            destruct (negb _); [reflexivity|];
            destruct (negb _); [reflexivity|];
            destruct (negb _); reflexivity).
  all: try (unfold denySwapRequest;
            destruct (requireRole _ session) as [user|]; [|reflexivity];
            unfold denyTx; run_tx;
            destruct (requestById _ _) as [r|]; [|reflexivity];
            destruct (_ && _); reflexivity).
Qed.

(** ** Lookups through inserts and updates *)

Lemma lookup_append_fresh {A : Type} (key : A -> Id) (rows : list A) (x : A) :
  (forall r, In r rows -> key r <> key x) ->
  hd_error (filter (fun r => id_eqb (key r) (key x)) (rows ++ [x])) = Some x.
Proof.
  intros Hfresh. rewrite filter_app. simpl. rewrite id_eqb_refl.
  replace (filter (fun r => id_eqb (key r) (key x)) rows) with (@nil A); [reflexivity|].
  symmetry. induction rows as [|r rows IH]; simpl; [reflexivity|].
  destruct (id_eqb (key r) (key x)) eqn:E.
  - apply id_eqb_eq in E. exfalso. apply (Hfresh r); [now left|exact E].
  - apply IH. intros r' Hr'. apply Hfresh. now right.
Qed.

Lemma lookup_update_same {A : Type} (key : A -> Id) (k : Id) (g : A -> A)
  (rows : list A) :
  (forall x, key (g x) = key x) ->
  hd_error (filter (fun r => id_eqb (key r) k)
                   (updateWhere (fun r => id_eqb (key r) k) g rows))
  = option_map g (hd_error (filter (fun r => id_eqb (key r) k) rows)).
Proof.
  intros Hkey. unfold updateWhere. rewrite hd_filter_map.
  - destruct (hd_error _) as [x|] eqn:E; [|reflexivity].
    apply hd_filter_In in E. destruct E as [_ E]. cbn. now rewrite E.
  - intros x. destruct (id_eqb (key x) k) eqn:E; [|exact E].
    now rewrite Hkey.
Qed.

(** ** What each successful step of a swap leaves behind *)

Lemma createSwapRequest_success (session : option User.t) (now : Z)
  (newId assignmentId targetStaffId : Id) (w : World) :
  fst (SwapActions.createSwapRequest session now newId assignmentId targetStaffId w)
  = Success ->
  exists user a,
    requireRole [STAFF] session = Some user
    /\ assignmentById (store w) assignmentId = Some a
    /\ ShiftAssignment.staffId a = User.id user
    /\ existingRequest (store w) assignmentId = None
    /\ pendingCount (store w) (User.id user) < 3
    /\ snd (SwapActions.createSwapRequest session now newId assignmentId targetStaffId w)
       = setStore w
           (withSwapRequests (store w)
              (swapRequests (store w)
               ++ [newRequest now newId assignmentId (User.id user) SWAP
                              (Some targetStaffId)])).
Proof.
  unfold SwapActions.createSwapRequest.
  destruct (requireRole _ session) as [user|]; [|discriminate].
  destruct (_ >=? 3) eqn:Hcap; [discriminate|].
  destruct (assignmentById _ _) as [a|]; [|discriminate].
  destruct (negb _) eqn:Hown; [discriminate|].
  destruct (existingRequest _ _); [discriminate|].
  destruct (shiftById _ _) as [s|]; [|discriminate].
  destruct (negb (references _ _)); [discriminate|].
  intros _. exists user, a.
  apply negb_false_iff, id_eqb_eq in Hown.
  rewrite Z.geb_leb in Hcap. apply Z.leb_gt in Hcap.
  repeat split; auto.
Qed.

Lemma accept_runs (user : User.t) (now : Z) (requestId : Id) (w : World)
  (request : SwapRequest.t) :
  requestById (store w) requestId = Some request ->
  SwapRequest.targetStaffId request = Some (User.id user) ->
  SwapRequest.type request = SWAP ->
  SwapRequest.status request = PENDING ->
  fst (acceptSwapAsTarget (Some user) now requestId w) = Success
  /\ store (snd (acceptSwapAsTarget (Some user) now requestId w))
     = withSwapRequests (store w)
         (updateWhere (fun r => id_eqb (SwapRequest.id r) requestId)
                      (acceptedRequest now) (swapRequests (store w))).
Proof.
  intros Hreq Htarget Htype Hstatus.
  unfold acceptSwapAsTarget, requireAuth, targetTx, isTarget. run_tx.
  rewrite Hreq, Htarget, Htype, Hstatus, id_eqb_refl. cbn. auto.
Qed.

Lemma approve_swap_runs (user : User.t) (now : Z) (requestId : Id)
  (notes : option string) (w : World) (request : SwapRequest.t)
  (assignment : ShiftAssignment.t) (target : Id) :
  requireRole [MANAGER; ADMIN] (Some user) = Some user ->
  requestById (store w) requestId = Some request ->
  SwapRequest.type request = SWAP ->
  SwapRequest.status request = ACCEPTED_BY_TARGET ->
  SwapRequest.targetStaffId request = Some target ->
  target <> "" ->
  assignmentById (store w) (SwapRequest.shiftAssignmentId request) = Some assignment ->
  fst (SwapRequestsActions.approveSwapRequest (Some user) now requestId notes w) = Success
  /\ store (snd (SwapRequestsActions.approveSwapRequest (Some user) now requestId notes w))
     = withShiftAssignments
         (withSwapRequests (store w)
            (updateWhere (fun r => id_eqb (SwapRequest.id r) requestId)
                         (approvedRequest (User.id user) now notes)
                         (swapRequests (store w))))
         (updateWhere
            (fun a => id_eqb (ShiftAssignment.id a) (ShiftAssignment.id assignment))
            (reassigned target (User.id user) now)
            (shiftAssignments (store w))).
Proof.
  intros Hrole Hreq Htype Hstatus Htarget Hne Hassign.
  unfold SwapRequestsActions.approveSwapRequest. rewrite Hrole.
  unfold SwapRequestsActions.approveTx. run_tx.
  rewrite Hreq, Htype, Hstatus.
  cbn [SwapType_eqb SwapStatus_eqb negb andb store trace].
  rewrite Hassign, Htarget. unfold truthy.
  apply String.eqb_neq in Hne. rewrite Hne. cbn. auto.
Qed.

(** X3. The whole swap: once the owner's request is created, the target can
    accept it and a manager can then approve it - no further condition is
    checked on the way - and the assignment row ends up with the target as
    staff member and the request APPROVED. *)
Theorem swap_runs_from_request_to_reassignment
  (requester target mgr : User.t) (now1 now2 now3 : Z)
  (newId assignmentId : Id) (notes : option string) (w : World) :
  requireRole [MANAGER; ADMIN] (Some mgr) = Some mgr ->
  User.id target <> "" ->
  (forall r, In r (swapRequests (store w)) -> SwapRequest.id r <> newId) ->
  let step1 := SwapActions.createSwapRequest (Some requester) now1 newId assignmentId
                 (User.id target) w in
  let step2 := acceptSwapAsTarget (Some target) now2 newId (snd step1) in
  let step3 := SwapRequestsActions.approveSwapRequest (Some mgr) now3 newId notes
                 (snd step2) in
  fst step1 = Success ->
  fst step2 = Success
  /\ fst step3 = Success
  /\ exists a,
      assignmentById (store w) assignmentId = Some a
      /\ ShiftAssignment.staffId a = User.id requester
      /\ assignmentById (store (snd step3)) assignmentId
         = Some (reassigned (User.id target) (User.id mgr) now3 a)
      /\ option_map SwapRequest.status (requestById (store (snd step3)) newId)
         = Some APPROVED.
Proof.
  intros Hmgr Htarget Hfresh step1 step2 step3 Hok1.
  apply createSwapRequest_success in Hok1.
  destruct Hok1 as (user & a & Hrole & Ha & Hown & _ & _ & Hw1).
  assert (Huser : user = requester).
  { unfold requireRole, requireAuth in Hrole.
    destruct (existsb _ _); [now injection Hrole|discriminate]. }
  subst user.
  set (r0 := newRequest now1 newId assignmentId (User.id requester) SWAP
                        (Some (User.id target))) in *.
  assert (H1 : requestById (store (snd step1)) newId = Some r0).
  { unfold step1. rewrite Hw1. unfold requestById. cbn [setStore store withSwapRequests swapRequests].
    apply (lookup_append_fresh SwapRequest.id (swapRequests (store w)) r0).
    intros r Hr. now apply Hfresh. }
  destruct (@accept_runs target now2 newId (snd step1) r0 H1 eq_refl eq_refl eq_refl)
    as [Hok2 Hw2].
  fold step2 in Hok2, Hw2.
  assert (Hassign1 : shiftAssignments (store (snd step1)) = shiftAssignments (store w))
    by (unfold step1; now rewrite Hw1).
  assert (H2 : requestById (store (snd step2)) newId = Some (acceptedRequest now2 r0)).
  { rewrite Hw2. unfold requestById. cbn [withSwapRequests swapRequests].
    rewrite (lookup_update_same SwapRequest.id newId (acceptedRequest now2))
      by reflexivity.
    unfold requestById in H1. now rewrite H1. }
  assert (Ha2 : assignmentById (store (snd step2)) assignmentId = Some a).
  { rewrite Hw2. unfold assignmentById. cbn [withSwapRequests shiftAssignments].
    rewrite Hassign1. exact Ha. }
  destruct (@approve_swap_runs mgr now3 newId notes (snd step2) (acceptedRequest now2 r0)
              a (User.id target) Hmgr H2 eq_refl eq_refl eq_refl Htarget Ha2)
    as [Hok3 Hw3].
  fold step3 in Hok3, Hw3.
  split; [exact Hok2|]. split; [exact Hok3|].
  exists a. split; [exact Ha|]. split; [exact Hown|].
  assert (Hida : ShiftAssignment.id a = assignmentId).
  { unfold assignmentById in Ha. apply hd_filter_In in Ha.
    destruct Ha as [_ Ha]. now apply id_eqb_eq in Ha. }
  rewrite Hw3. split.
  - unfold assignmentById. cbn [withShiftAssignments shiftAssignments]. rewrite Hida.
    rewrite (lookup_update_same ShiftAssignment.id assignmentId
               (reassigned (User.id target) (User.id mgr) now3)) by reflexivity.
    unfold assignmentById in Ha2. now rewrite Ha2.
  - unfold requestById.
    cbn [withShiftAssignments withSwapRequests swapRequests].
    rewrite (lookup_update_same SwapRequest.id newId
               (approvedRequest (User.id mgr) now3 notes)) by reflexivity.
    unfold requestById in H2. now rewrite H2.
Qed.

Lemma swap_runs_from_request_to_reassignment_witness :
  fst (SwapRequestsActions.approveSwapRequest (Some manager) 3 "r9" None
         (snd (acceptSwapAsTarget (Some colleague) 2 "r9"
                 (snd (SwapActions.createSwapRequest (Some worker) 1 "r9" "a4" "w2"
                         (mkWorld (threeRequests ACCEPTED_BY_TARGET) []))))))
  = Success.
Proof.
  refine (proj1 (proj2 (@swap_runs_from_request_to_reassignment
                          worker colleague manager 1 2 3 "r9" "a4" None
                          (mkWorld (threeRequests ACCEPTED_BY_TARGET) [])
                          eq_refl _ _ eq_refl))).
  - discriminate.
  - intros r Hr. simpl in Hr.
    destruct Hr as [<-|[<-|[<-|[]]]]; discriminate.
Defined.

Lemma lookup_deleted {A : Type} (p : A -> bool) (rows : list A) :
  hd_error (filter p (deleteWhere p rows)) = None.
Proof.
  apply hd_filter_none. intros x Hx. unfold deleteWhere in Hx.
  apply filter_In in Hx. destruct Hx as [_ Hx]. now apply negb_true_iff in Hx.
Qed.

(** X4. Approving a PENDING drop request deletes the assignment, and with it
    (ON DELETE CASCADE) every swap request on that assignment - the approved
    request itself included: afterwards neither the assignment nor the
    request can be found, and the other assignments are untouched. *)
Theorem drop_approval_removes_assignment_and_request
  (user : User.t) (now : Z) (requestId : Id) (notes : option string) (w : World)
  (request : SwapRequest.t) (assignment : ShiftAssignment.t) :
  requireRole [MANAGER; ADMIN] (Some user) = Some user ->
  NoDup (map SwapRequest.id (swapRequests (store w))) ->
  requestById (store w) requestId = Some request ->
  SwapRequest.type request = DROP ->
  SwapRequest.status request = PENDING ->
  assignmentById (store w) (SwapRequest.shiftAssignmentId request) = Some assignment ->
  let after := SwapRequestsActions.approveSwapRequest (Some user) now requestId notes w in
  fst after = Success
  /\ shiftAssignments (store (snd after))
     = deleteWhere (fun a => id_eqb (ShiftAssignment.id a)
                                    (SwapRequest.shiftAssignmentId request))
                   (shiftAssignments (store w))
  /\ assignmentById (store (snd after)) (SwapRequest.shiftAssignmentId request) = None
  /\ requestById (store (snd after)) requestId = None
  /\ forall r, In r (swapRequests (store (snd after))) ->
               SwapRequest.shiftAssignmentId r <> SwapRequest.shiftAssignmentId request.
Proof.
  intros Hrole Hnd Hreq Htype Hstatus Hassign after.
  assert (Hin : In assignment (shiftAssignments (store w))
                /\ ShiftAssignment.id assignment = SwapRequest.shiftAssignmentId request).
  { unfold assignmentById in Hassign. apply hd_filter_In in Hassign.
    destruct Hassign as [H1 H2]. apply id_eqb_eq in H2. auto. }
  destruct Hin as [Hin Hid].
  assert (Hrin : In request (swapRequests (store w)) /\ SwapRequest.id request = requestId).
  { unfold requestById in Hreq. apply hd_filter_In in Hreq.
    destruct Hreq as [H1 H2]. apply id_eqb_eq in H2. auto. }
  destruct Hrin as [Hrin Hrid].
  assert (Hafter : after
                   = (Success,
                      {| store :=
                           deleteAssignmentsWhere
                             (fun a => id_eqb (ShiftAssignment.id a)
                                              (ShiftAssignment.id assignment))
                             (withSwapRequests (store w)
                                (updateWhere (fun r => id_eqb (SwapRequest.id r) requestId)
                                             (approvedRequest (User.id user) now notes)
                                             (swapRequests (store w))));
                         trace := (trace w ++ [TxBegin]) ++ [AdvisoryLock requestId]
                                  ++ [TxCommit] |})).
  { unfold after, SwapRequestsActions.approveSwapRequest. rewrite Hrole.
    unfold SwapRequestsActions.approveTx. run_tx.
    rewrite Hreq, Htype, Hstatus.
    cbn [SwapType_eqb SwapStatus_eqb negb andb store trace].
    rewrite Hassign. cbn. rewrite <- app_assoc. reflexivity. }
  rewrite Hafter. cbn [fst snd store]. rewrite Hid.
  set (gone := map ShiftAssignment.id
                   (filter (fun a => id_eqb (ShiftAssignment.id a)
                                            (SwapRequest.shiftAssignmentId request))
                           (shiftAssignments (store w)))).
  assert (Hgone : In (SwapRequest.shiftAssignmentId request) gone).
  { unfold gone. rewrite <- Hid at 1. apply in_map. apply filter_In.
    split; [exact Hin|]. rewrite Hid. apply id_eqb_refl. }
  assert (Hleft : forall r,
             In r (swapRequests
                     (deleteAssignmentsWhere
                        (fun a => id_eqb (ShiftAssignment.id a)
                                         (SwapRequest.shiftAssignmentId request))
                        (withSwapRequests (store w)
                           (updateWhere (fun r => id_eqb (SwapRequest.id r) requestId)
                                        (approvedRequest (User.id user) now notes)
                                        (swapRequests (store w)))))) ->
             ~ In (SwapRequest.shiftAssignmentId r) gone
             /\ exists r0, In r0 (swapRequests (store w))
                           /\ SwapRequest.id r0 = SwapRequest.id r
                           /\ SwapRequest.shiftAssignmentId r0
                              = SwapRequest.shiftAssignmentId r).
  { intros r Hr. unfold deleteAssignmentsWhere in Hr.
    cbn [withSwapRequests withShiftAssignments swapRequests shiftAssignments] in Hr.
    unfold deleteWhere in Hr. apply filter_In in Hr. destruct Hr as [Hr Hkeep].
    apply negb_true_iff in Hkeep. fold gone in Hkeep.
    split.
    - intros Hc. apply inArray_In in Hc. congruence.
    - unfold updateWhere in Hr. apply in_map_iff in Hr.
      destruct Hr as (r0 & <- & Hr0). exists r0. split; [exact Hr0|].
      destruct (id_eqb (SwapRequest.id r0) requestId); split; reflexivity. }
  split; [reflexivity|]. split; [reflexivity|]. split; [|split].
  - unfold assignmentById, deleteAssignmentsWhere.
    cbn [withSwapRequests withShiftAssignments shiftAssignments].
    apply lookup_deleted.
  - unfold requestById. apply hd_filter_none. intros r Hr.
    destruct (Hleft r Hr) as [Hnot (r0 & Hr0 & Hid0 & Hsa0)].
    apply id_eqb_neq. intros Hsame. apply Hnot.
    assert (r0 = request).
    { apply (NoDup_key_inj SwapRequest.id (swapRequests (store w))); auto. congruence. }
    subst r0. now rewrite <- Hsa0.
  - intros r Hr Hc. destruct (Hleft r Hr) as [Hnot _]. apply Hnot. now rewrite Hc.
Qed.

Lemma drop_approval_removes_assignment_and_request_witness :
  requestById
    (store (snd (SwapRequestsActions.approveSwapRequest (Some manager) 9 "r1" None
                   (mkWorld dropsToExpire []))))
    "r1" = None.
Proof.
  refine (proj1 (proj2 (proj2 (proj2
            (@drop_approval_removes_assignment_and_request
               manager 9 "r1" None (mkWorld dropsToExpire [])
               (SwapRequest.mk "r1" "a1" "w1" DROP None PENDING None None None 0)
               (ShiftAssignment.mk "a1" "d1" "w1" "m1" 0)
               eq_refl _ eq_refl eq_refl eq_refl eq_refl))))).
  simpl. repeat constructor; simpl; intuition discriminate.
Defined.

Lemma createDropRequest_success (session : option User.t) (now : Z)
  (newId assignmentId : Id) (w : World) :
  fst (SwapActions.createDropRequest session now newId assignmentId w) = Success ->
  exists user,
    requireRole [STAFF] session = Some user
    /\ snd (SwapActions.createDropRequest session now newId assignmentId w)
       = setStore w
           (withSwapRequests (store w)
              (swapRequests (store w)
               ++ [newRequest now newId assignmentId (User.id user) DROP None])).
Proof.
  unfold SwapActions.createDropRequest.
  destruct (requireRole _ session) as [user|]; [|discriminate].
  destruct (_ >=? 3); [discriminate|].
  destruct (assignmentById _ _) as [a|]; [|discriminate].
  destruct (negb _); [discriminate|].
  destruct (existingRequest _ _); [discriminate|].
  destruct (shiftById _ _) as [s|]; [|discriminate].
  destruct (Qle_bool _ _); [discriminate|].
  intros _. exists user. auto.
Qed.

(** With a PENDING request on the assignment in the table, neither creator
    succeeds for that assignment. *)
Lemma pending_request_blocks (session : option User.t) (now : Z)
  (newId assignmentId targetStaffId : Id) (w : World) :
  existingRequest (store w) assignmentId <> None ->
  fst (SwapActions.createSwapRequest session now newId assignmentId targetStaffId w)
  <> Success
  /\ fst (SwapActions.createDropRequest session now newId assignmentId w) <> Success.
Proof.
  intros Hex. unfold SwapActions.createSwapRequest, SwapActions.createDropRequest.
  destruct (requireRole _ session) as [user|]; [|split; discriminate].
  destruct (_ >=? 3); [split; discriminate|].
  destruct (assignmentById _ _) as [a|]; [|split; discriminate].
  destruct (negb _); [split; discriminate|].
  destruct (existingRequest _ _); [split; discriminate|congruence].
Qed.

Lemma existingRequest_appended (d : DB) (now : Z) (newId assignmentId userId : Id)
  (ty : SwapType) (target : option Id) :
  existingRequest
    (withSwapRequests d
       (swapRequests d ++ [newRequest now newId assignmentId userId ty target]))
    assignmentId <> None.
Proof.
  unfold existingRequest. cbn [withSwapRequests swapRequests].
  rewrite filter_app. cbn [filter newRequest SwapRequest.shiftAssignmentId
                             SwapRequest.status SwapStatus_eqb].
  rewrite id_eqb_refl. cbn [andb].
  destruct (filter _ (swapRequests d)); discriminate.
Qed.

(** X5. One open request per assignment: after a swap or a drop request has
    been created for an assignment, every further attempt to create a swap
    or a drop request for the same assignment - by anyone, at any time - is
    refused as long as the table is not changed in between. *)
Theorem second_request_on_assignment_is_refused :
  forall (session session2 : option User.t) (now now2 : Z)
         (newId newId2 assignmentId targetStaffId targetStaffId2 : Id) (w : World),
    (fst (SwapActions.createSwapRequest session now newId assignmentId targetStaffId w)
     = Success ->
     let w' := snd (SwapActions.createSwapRequest session now newId assignmentId
                      targetStaffId w) in
     fst (SwapActions.createSwapRequest session2 now2 newId2 assignmentId targetStaffId2 w')
     <> Success
     /\ fst (SwapActions.createDropRequest session2 now2 newId2 assignmentId w') <> Success)
    /\ (fst (SwapActions.createDropRequest session now newId assignmentId w) = Success ->
        let w' := snd (SwapActions.createDropRequest session now newId assignmentId w) in
        fst (SwapActions.createSwapRequest session2 now2 newId2 assignmentId targetStaffId2 w')
        <> Success
        /\ fst (SwapActions.createDropRequest session2 now2 newId2 assignmentId w')
           <> Success).
Proof.
  intros. split.
  - intros Hok w'. apply createSwapRequest_success in Hok.
    destruct Hok as (user & a & _ & _ & _ & _ & _ & Hw).
    apply pending_request_blocks. unfold w'. rewrite Hw. cbn [setStore store].
    apply existingRequest_appended.
  - intros Hok w'. apply createDropRequest_success in Hok.
    destruct Hok as (user & _ & Hw).
    apply pending_request_blocks. unfold w'. rewrite Hw. cbn [setStore store].
    apply existingRequest_appended.
Qed.

Lemma second_request_on_assignment_is_refused_witness :
  fst (SwapActions.createDropRequest (Some worker) 2 "r8" "a4"
         (snd (SwapActions.createSwapRequest (Some worker) 1 "r9" "a4" "w2"
                 (mkWorld (threeRequests ACCEPTED_BY_TARGET) []))))
  <> Success.
Proof.
  exact (proj2 (proj1 (second_request_on_assignment_is_refused
                         (Some worker) (Some worker) 1 2 "r9" "r8" "a4" "w2" "w2"
                         (mkWorld (threeRequests ACCEPTED_BY_TARGET) []))
                      eq_refl)).
Defined.

(* ------------------------------------------------------------------ *)
(** * Lazy expiry of drop requests *)

Lemma isPendingDrop_spec (r : SwapRequest.t) :
  isPendingDrop r = true
  <-> SwapRequest.type r = DROP /\ SwapRequest.status r = PENDING.
Proof.
  unfold isPendingDrop. rewrite andb_true_iff, SwapStatus_eqb_eq.
  destruct (SwapRequest.type r); simpl; intuition congruence.
Qed.

Lemma assignmentsWithShifts_In (d : DB) (a : ShiftAssignment.t) (s : Shift.t) :
  In (a, s) (assignmentsWithShifts d)
  <-> In a (shiftAssignments d) /\ In s (shifts d)
      /\ Shift.id s = ShiftAssignment.shiftId a.
Proof.
  unfold assignmentsWithShifts. rewrite in_flat_map. split.
  - intros (a' & Ha' & Hin). apply in_map_iff in Hin.
    destruct Hin as (s' & Heq & Hs'). injection Heq as -> ->.
    apply filter_In in Hs'. destruct Hs' as [Hs' Hid]. apply id_eqb_eq in Hid. auto.
  - intros (Ha & Hs & Hid). exists a. split; [exact Ha|].
    apply in_map. apply filter_In. split; [exact Hs|]. apply id_eqb_eq. auto.
Qed.

(** Every collected id is the id of a pending drop that is due. *)
Lemma expiredRequestIds_sound (d : DB) (now : Z) (k : Id) :
  In k (expiredRequestIds now (filter isPendingDrop (swapRequests d))
          (filter (fun row => inArray (ShiftAssignment.id (fst row))
                                (map SwapRequest.shiftAssignmentId
                                     (filter isPendingDrop (swapRequests d))))
                  (assignmentsWithShifts d))) ->
  exists r, In r (swapRequests d) /\ SwapRequest.id r = k /\ dueDrop d now r.
Proof.
  unfold expiredRequestIds. rewrite in_flat_map.
  intros ([a s] & Hrow & Hk). cbn [fst snd] in Hk.
  apply filter_In in Hrow. destruct Hrow as [Hrow _].
  apply assignmentsWithShifts_In in Hrow. destruct Hrow as (Ha & Hs & Hid).
  destruct (Qle_bool _ _) eqn:Hdue; [|destruct Hk].
  destruct (find _ _) as [r|] eqn:Hfind; [|destruct Hk].
  destruct Hk as [<-|[]].
  apply find_some in Hfind. destruct Hfind as [Hr Hsa].
  apply filter_In in Hr. destruct Hr as [Hr Hpd].
  apply isPendingDrop_spec in Hpd. apply id_eqb_eq in Hsa.
  exists r. split; [exact Hr|]. split; [reflexivity|].
  destruct Hpd as [Hty Hst]. repeat split; auto.
  exists a, s. auto.
Qed.

(** X6. The lazy expiry only ever touches pending drop requests whose shift
    starts within 24 hours: every such row it changes becomes CANCELLED with
    the note "Automatically expired (shift starts within 24 hours)", and
    every other request - swaps, processed requests, drops further ahead -
    is found unchanged.  When no assignment carries two pending drops, every
    due drop is expired. *)
Theorem expiry_touches_only_due_drops (now : Z) (d : DB) :
  NoDup (map SwapRequest.id (swapRequests d)) ->
  shiftAssignments (expireOldDropRequests now d) = shiftAssignments d
  /\ (forall r, In r (swapRequests d) ->
        requestById (expireOldDropRequests now d) (SwapRequest.id r) = Some r
        \/ (dueDrop d now r
            /\ requestById (expireOldDropRequests now d) (SwapRequest.id r)
               = Some (expiredRequest now r)))
  /\ (forall r, In r (swapRequests d) -> ~ dueDrop d now r ->
        requestById (expireOldDropRequests now d) (SwapRequest.id r) = Some r)
  /\ ((forall r1 r2, In r1 (swapRequests d) -> In r2 (swapRequests d) ->
         isPendingDrop r1 = true -> isPendingDrop r2 = true ->
         SwapRequest.shiftAssignmentId r1 = SwapRequest.shiftAssignmentId r2 -> r1 = r2) ->
      forall r, In r (swapRequests d) -> dueDrop d now r ->
        requestById (expireOldDropRequests now d) (SwapRequest.id r)
        = Some (expiredRequest now r)).
Proof.
  intros Hnd.
  set (pendingDrops := filter isPendingDrop (swapRequests d)).
  set (rows := filter (fun row => inArray (ShiftAssignment.id (fst row))
                                    (map SwapRequest.shiftAssignmentId pendingDrops))
                      (assignmentsWithShifts d)).
  set (expired := expiredRequestIds now pendingDrops rows).
  (* the table after the expiry, row by row *)
  assert (Hrow : forall r, In r (swapRequests d) ->
             requestById (expireOldDropRequests now d) (SwapRequest.id r)
             = Some (if inArray (SwapRequest.id r) expired
                     then expiredRequest now r else r)).
  { intros r Hr. unfold expireOldDropRequests. fold pendingDrops.
    destruct (List.length pendingDrops =? 0)%nat eqn:Hlen.
    - apply length_zero_nil in Hlen.
      assert (E : expired = []) by (unfold expired; rewrite Hlen; unfold expiredRequestIds;
                                    induction rows as [|x xs IH]; simpl;
                                    [reflexivity|destruct (Qle_bool _ _); exact IH]).
      rewrite E. cbn. unfold requestById.
      now apply (lookup_NoDup SwapRequest.id).
    - fold rows. fold expired. destruct (nonEmpty expired) eqn:Hne.
      + unfold requestById. cbn [withSwapRequests swapRequests]. unfold updateWhere.
        rewrite hd_filter_map.
        * now rewrite (lookup_NoDup SwapRequest.id _ r Hnd Hr).
        * intros x. destruct (inArray (SwapRequest.id x) expired); reflexivity.
      + apply nonEmpty_false in Hne. rewrite Hne. cbn. unfold requestById.
        now apply (lookup_NoDup SwapRequest.id). }
  assert (Hsound : forall r, In r (swapRequests d) ->
             inArray (SwapRequest.id r) expired = true -> dueDrop d now r).
  { intros r Hr Hin. apply inArray_In in Hin.
    apply expiredRequestIds_sound in Hin. destruct Hin as (r' & Hr' & Hid & Hdue).
    assert (r' = r) by (eapply NoDup_key_inj; eauto). now subst r'. }
  split; [|split; [|split]].
  - unfold expireOldDropRequests. destruct (_ =? 0)%nat; [reflexivity|].
    destruct (nonEmpty _); reflexivity.
  - intros r Hr. rewrite (Hrow r Hr).
    destruct (inArray (SwapRequest.id r) expired) eqn:E; [right|now left].
    split; [now apply Hsound|reflexivity].
  - intros r Hr Hnot. rewrite (Hrow r Hr).
    destruct (inArray (SwapRequest.id r) expired) eqn:E; [|reflexivity].
    exfalso. apply Hnot. now apply Hsound.
  - intros Huniq r Hr (Hty & Hst & a & s & Ha & Hs & Hida & Hids & Hdue).
    rewrite (Hrow r Hr).
    assert (Hpd : isPendingDrop r = true) by (apply isPendingDrop_spec; auto).
    assert (Hin : In (SwapRequest.id r) expired).
    { unfold expired, expiredRequestIds. apply in_flat_map. exists (a, s). split.
      - unfold rows. apply filter_In. split.
        + apply assignmentsWithShifts_In. auto.
        + cbn [fst]. apply inArray_In. rewrite Hida. apply in_map.
          unfold pendingDrops. apply filter_In. auto.
      - cbn [fst snd]. rewrite Hdue.
        destruct (find _ pendingDrops) as [r'|] eqn:Hfind.
        + apply find_some in Hfind. destruct Hfind as [Hr' Hsa].
          unfold pendingDrops in Hr'. apply filter_In in Hr'. destruct Hr' as [Hr' Hpd'].
          apply id_eqb_eq in Hsa.
          assert (r' = r) by (apply Huniq; auto; congruence).
          subst r'. now left.
        + exfalso.
          assert (Hr2 : In r pendingDrops) by (unfold pendingDrops; apply filter_In; auto).
          apply (find_none _ _ Hfind) in Hr2. rewrite Hida, id_eqb_refl in Hr2.
          discriminate Hr2. }
    apply inArray_In in Hin. now rewrite Hin.
Qed.

Lemma expiry_touches_only_due_drops_witness :
  map SwapRequest.status (swapRequests (expireOldDropRequests (dateBase monday) dropsToExpire))
  = [CANCELLED; PENDING; PENDING]
  /\ requestById (expireOldDropRequests (dateBase monday) dropsToExpire) "r2"
     = Some (swapOf "r2" "a2" PENDING).
Proof.
  split; [reflexivity|].
  refine (proj1 (proj2 (proj2 (@expiry_touches_only_due_drops (dateBase monday)
                                  dropsToExpire _)))
                (swapOf "r2" "a2" PENDING) _ _).
  - simpl. repeat constructor; simpl; intuition discriminate.
  - simpl. tauto.
  - intros (Hty & _). discriminate Hty.
Defined.

(* ------------------------------------------------------------------ *)
(** * Deleting, publishing and editing shifts *)

Lemma hoursUntil_le (date : Date) (time : Time) (now h : Z) :
  Qle_bool (hoursUntil date time now) (inject_Z h) = true
  <-> startInstant date time - now <= h * 3600000.
Proof.
  unfold hoursUntil, msToHours. rewrite Qle_bool_iff.
  unfold Qle, Qdiv, Qmult, Qinv, inject_Z; simpl. lia.
Qed.

Lemma hoursUntil_gt (date : Date) (time : Time) (now h : Z) :
  Qle_bool (hoursUntil date time now) (inject_Z h) = false
  <-> h * 3600000 < startInstant date time - now.
Proof.
  rewrite <- not_true_iff_false, hoursUntil_le. lia.
Qed.

Lemma update_without_match {A : Type} (p : A -> bool) (f : A -> A) (rows : list A) :
  returning p rows = [] -> updateWhere p f rows = rows.
Proof.
  unfold returning, updateWhere.
  induction rows as [|r rows IH]; simpl; intros H; [reflexivity|].
  destruct (p r); [discriminate H|]. now rewrite IH.
Qed.

Lemma deleteShift_runs (user : User.t) (now : Z) (shiftId locationId : Id)
  (w : World) (s : Shift.t) :
  requireRole [MANAGER; ADMIN] (Some user) = Some user ->
  shiftById (store w) shiftId = Some s ->
  (Shift.isPublished s && Qle_bool (hoursUntil (Shift.date s) (Shift.startTime s) now)
                                   (inject_Z 48) = true ->
   fst (deleteShift (Some user) now shiftId locationId w) = Failure cutoffMessage
   /\ store (snd (deleteShift (Some user) now shiftId locationId w)) = store w)
  /\ (Shift.isPublished s && Qle_bool (hoursUntil (Shift.date s) (Shift.startTime s) now)
                                      (inject_Z 48) = false ->
      fst (deleteShift (Some user) now shiftId locationId w) = Success
      /\ store (snd (deleteShift (Some user) now shiftId locationId w))
         = deleteShiftRow shiftId (store w)).
Proof.
  intros Hrole Hs. unfold deleteShift. rewrite Hrole.
  unfold deleteShiftTx. run_tx. rewrite Hs.
  split; intros E; rewrite E; cbn; auto.
Qed.

(** X7. The 48-hour cutoff of [deleteShift]: a published shift that starts
    within 48 hours is not deleted and the store stays as it was; a draft,
    or a shift further ahead, is deleted together with its assignments and
    every swap request on them, and no other shift is touched. *)
Theorem delete_respects_cutoff_and_cascades
  (user : User.t) (now : Z) (shiftId locationId : Id) (w : World) (s : Shift.t) :
  requireRole [MANAGER; ADMIN] (Some user) = Some user ->
  shiftById (store w) shiftId = Some s ->
  let after := deleteShift (Some user) now shiftId locationId w in
  (Shift.isPublished s = true /\ startsWithin 48 s now ->
   fst after = Failure cutoffMessage /\ store (snd after) = store w)
  /\ (Shift.isPublished s = false \/ ~ startsWithin 48 s now ->
      fst after = Success
      /\ shifts (store (snd after))
         = deleteWhere (fun x => id_eqb (Shift.id x) shiftId) (shifts (store w))
      /\ shiftById (store (snd after)) shiftId = None
      /\ (forall a, In a (shiftAssignments (store (snd after))) ->
                    In a (shiftAssignments (store w))
                    /\ ShiftAssignment.shiftId a <> shiftId)
      /\ (forall r, In r (swapRequests (store (snd after))) ->
                    In r (swapRequests (store w))
                    /\ ~ referencesShift (store w) shiftId r)).
Proof.
  intros Hrole Hs after.
  destruct (@deleteShift_runs user now shiftId locationId w s Hrole Hs) as [Hcut Hdel].
  fold after in Hcut, Hdel. unfold startsWithin. split.
  - intros [Hpub Hnear]. apply Hcut. rewrite Hpub. cbn [andb].
    now apply hoursUntil_le.
  - intros Hfree.
    assert (E : Shift.isPublished s
                && Qle_bool (hoursUntil (Shift.date s) (Shift.startTime s) now)
                            (inject_Z 48) = false).
    { destruct Hfree as [-> | Hfar]; [reflexivity|].
      apply andb_false_iff. right. apply hoursUntil_gt. lia. }
    destruct (Hdel E) as [Hok Hstore]. rewrite Hstore.
    split; [exact Hok|]. split; [reflexivity|]. split; [|split].
    + unfold shiftById, deleteShiftRow, deleteAssignmentsWhere.
      cbn [withSwapRequests withShiftAssignments withShifts shifts].
      apply lookup_deleted.
    + intros a Ha. unfold deleteShiftRow, deleteAssignmentsWhere in Ha.
      cbn [withSwapRequests withShiftAssignments withShifts shiftAssignments] in Ha.
      unfold deleteWhere in Ha. apply filter_In in Ha. destruct Ha as [Ha Hne].
      apply negb_true_iff in Hne. apply id_eqb_neq in Hne. auto.
    + intros r Hr. unfold deleteShiftRow, deleteAssignmentsWhere in Hr.
      cbn [withSwapRequests withShiftAssignments withShifts shiftAssignments swapRequests] in Hr.
      unfold deleteWhere in Hr. apply filter_In in Hr. destruct Hr as [Hr Hne].
      split; [exact Hr|]. apply negb_true_iff in Hne.
      intros (a & Ha & Hsid & Hid).
      assert (Hc : inArray (SwapRequest.shiftAssignmentId r)
                     (map ShiftAssignment.id
                          (filter (fun a => id_eqb (ShiftAssignment.shiftId a) shiftId)
                                  (shiftAssignments (store w)))) = true).
      { apply inArray_In. rewrite <- Hid. apply in_map. apply filter_In.
        split; [exact Ha|now apply id_eqb_eq]. }
      rewrite Hc in Hne. discriminate Hne.
Qed.

Lemma delete_respects_cutoff_and_cascades_witness :
  fst (deleteShift (Some manager) (dateBase monday) "s1" "l1" (mkWorld publishedMonday []))
  = Failure cutoffMessage
  /\ store (snd (deleteShift (Some manager) (dateBase monday) "s1" "l1"
                   (mkWorld publishedMonday []))) = publishedMonday.
Proof.
  refine (proj1 (@delete_respects_cutoff_and_cascades
                   manager (dateBase monday) "s1" "l1" (mkWorld publishedMonday [])
                   (shiftRow "s1" monday (mkTime 9 0) (mkTime 17 0)) eq_refl eq_refl) _).
  split; [reflexivity|]. unfold startsWithin. vm_compute. discriminate.
Defined.

Lemma updateShift_runs (user : User.t) (now : Z) (shiftId : Id) (f : ShiftForm)
  (version : Z) (w : World) (s : Shift.t) :
  requireRole [MANAGER; ADMIN] (Some user) = Some user ->
  updateShiftSchema f version = true ->
  shiftUpdateBinds f version = true ->
  references (form_skillId f) (skills (store w)) = true ->
  shiftById (store w) shiftId = Some s ->
  Shift.version s = version ->
  fst (updateShift (Some user) now shiftId f version w) = Success
  /\ shiftById (store (snd (updateShift (Some user) now shiftId f version w))) shiftId
     = Some (editedShift f version now s).
Proof.
  intros Hrole Hschema Hbinds Hskill Hs Hv. unfold updateShift.
  rewrite Hrole, Hschema, Hbinds, Hskill. cbn [negb]. rewrite andb_false_r.
  pose proof Hs as Hin. unfold shiftById in Hin. apply hd_filter_In in Hin.
  cbn beta in Hin. destruct Hin as [Hin Hid].
  destruct (List.length _ =? 0)%nat eqn:Hlen.
  - apply length_zero_nil in Hlen. exfalso.
    assert (Hc : In s (returning (fun x => id_eqb (Shift.id x) shiftId
                                           && (Shift.version x =? version))
                                 (shifts (store w)))).
    { apply filter_In. split; [exact Hin|]. rewrite Hid. cbn. now apply Z.eqb_eq. }
    rewrite Hlen in Hc. destruct Hc.
  - cbn [fst snd setStore store]. split; [reflexivity|].
    unfold shiftById. rewrite shifts_cascadeCancel. cbn [withShifts shifts].
    rewrite lookup_updateWhere by reflexivity.
    unfold shiftById in Hs. rewrite Hs. cbn [option_map].
    rewrite Hid. cbn. apply Z.eqb_eq in Hv. now rewrite Hv.
Qed.

(** X8. The cutoff does not bind edits: for a published shift starting
    within 48 hours a direct delete is refused, but an edit that moves it
    more than 48 hours ahead - with times the [time] columns accept, a
    version within the integer range and a skill that exists - succeeds,
    and the delete that follows succeeds too. *)
Theorem edit_then_delete_passes_the_cutoff
  (user : User.t) (now : Z) (shiftId locationId : Id) (f : ShiftForm)
  (w : World) (s : Shift.t) :
  requireRole [MANAGER; ADMIN] (Some user) = Some user ->
  shiftById (store w) shiftId = Some s ->
  Shift.isPublished s = true ->
  startsWithin 48 s now ->
  updateShiftSchema f (Shift.version s) = true ->
  shiftUpdateBinds f (Shift.version s) = true ->
  references (form_skillId f) (skills (store w)) = true ->
  48 * 3600000 < startInstant (form_date f) (form_startTime f) - now ->
  let edited := updateShift (Some user) now shiftId f (Shift.version s) w in
  fst (deleteShift (Some user) now shiftId locationId w) = Failure cutoffMessage
  /\ fst edited = Success
  /\ fst (deleteShift (Some user) now shiftId locationId (snd edited)) = Success
  /\ shiftById (store (snd (deleteShift (Some user) now shiftId locationId (snd edited))))
               shiftId = None.
Proof.
  intros Hrole Hs Hpub Hnear Hschema Hbinds Hskill Hfar edited.
  destruct (@deleteShift_runs user now shiftId locationId w s Hrole Hs) as [Hcut _].
  destruct (@updateShift_runs user now shiftId f (Shift.version s) w s
              Hrole Hschema Hbinds Hskill Hs eq_refl) as [Hok Hs'].
  fold edited in Hok, Hs'.
  destruct (@deleteShift_runs user now shiftId locationId (snd edited)
              (editedShift f (Shift.version s) now s) Hrole Hs') as [_ Hdel].
  assert (E : Shift.isPublished (editedShift f (Shift.version s) now s)
              && Qle_bool (hoursUntil (Shift.date (editedShift f (Shift.version s) now s))
                                      (Shift.startTime (editedShift f (Shift.version s) now s))
                                      now) (inject_Z 48) = false).
  { apply andb_false_iff. right. apply hoursUntil_gt. exact Hfar. }
  destruct (Hdel E) as [Hok2 Hstore].
  split.
  - apply Hcut. rewrite Hpub. cbn [andb]. now apply hoursUntil_le.
  - split; [exact Hok|]. split; [exact Hok2|].
    rewrite Hstore. unfold shiftById, deleteShiftRow, deleteAssignmentsWhere.
    cbn [withSwapRequests withShiftAssignments withShifts shifts].
    apply lookup_deleted.
Qed.

Lemma edit_then_delete_passes_the_cutoff_witness :
  fst (deleteShift (Some manager) (dateBase monday) "s1" "l1" (mkWorld publishedMonday []))
  = Failure cutoffMessage
  /\ fst (deleteShift (Some manager) (dateBase monday) "s1" "l1"
            (snd (updateShift (Some manager) (dateBase monday) "s1" monthLater 1
                    (mkWorld publishedMonday []))))
     = Success.
Proof.
  destruct (@edit_then_delete_passes_the_cutoff
              manager (dateBase monday) "s1" "l1" monthLater (mkWorld publishedMonday [])
              (shiftRow "s1" monday (mkTime 9 0) (mkTime 17 0))
              eq_refl eq_refl eq_refl) as (H1 & _ & H3 & _).
  - unfold startsWithin. vm_compute. discriminate.
  - reflexivity.
  - reflexivity.
  - reflexivity.
  - vm_compute. reflexivity.
  - split; [exact H1|exact H3].
Defined.

Lemma ids_updateWhere (p : Shift.t -> bool) (g : Shift.t -> Shift.t)
  (rows : list Shift.t) :
  (forall s, Shift.id (g s) = Shift.id s) ->
  map Shift.id (updateWhere p g rows) = map Shift.id rows.
Proof.
  intros Hid. unfold updateWhere. rewrite map_map. apply map_ext.
  intros s. destruct (p s); [apply Hid|reflexivity].
Qed.

Lemma publishShift_runs (user : User.t) (now : Z) (shiftId locationId : Id)
  (w : World) (s : Shift.t) :
  requireRole [MANAGER; ADMIN] (Some user) = Some user ->
  shiftById (store w) shiftId = Some s ->
  (Shift.isPublished s = false ->
   fst (publishShift (Some user) now shiftId locationId w) = Success
   /\ shiftById (store (snd (publishShift (Some user) now shiftId locationId w))) shiftId
      = Some (publishedShift now s))
  /\ (Shift.isPublished s = true ->
      NoDup (map Shift.id (shifts (store w))) ->
      fst (publishShift (Some user) now shiftId locationId w)
      = Failure "Shift is already published"
      /\ store (snd (publishShift (Some user) now shiftId locationId w)) = store w).
Proof.
  intros Hrole Hs. unfold publishShift. rewrite Hrole.
  pose proof Hs as Hin. unfold shiftById in Hin. apply hd_filter_In in Hin.
  cbn beta in Hin. destruct Hin as [Hin Hid].
  split.
  - intros Hdraft.
    destruct (List.length _ =? 0)%nat eqn:Hlen.
    + apply length_zero_nil in Hlen. exfalso.
      assert (Hc : In s (returning (fun x => id_eqb (Shift.id x) shiftId
                                             && Bool.eqb (Shift.isPublished x) false)
                                   (shifts (store w)))).
      { apply filter_In. split; [exact Hin|]. now rewrite Hid, Hdraft. }
      rewrite Hlen in Hc. destruct Hc.
    + cbn [fst snd setStore store]. split; [reflexivity|].
      unfold shiftById. cbn [withShifts shifts].
      rewrite lookup_updateWhere by reflexivity.
      unfold shiftById in Hs. rewrite Hs. cbn [option_map].
      now rewrite Hid, Hdraft.
  - intros Hpub Hnd.
    assert (Hnone : returning (fun x => id_eqb (Shift.id x) shiftId
                                        && Bool.eqb (Shift.isPublished x) false)
                              (shifts (store w)) = []).
    { destruct (returning _ _) as [|x xs] eqn:E; [reflexivity|exfalso].
      assert (Hx : In x (returning (fun x => id_eqb (Shift.id x) shiftId
                                             && Bool.eqb (Shift.isPublished x) false)
                                   (shifts (store w)))) by (rewrite E; now left).
      apply filter_In in Hx. destruct Hx as [Hx Hg]. apply andb_true_iff in Hg.
      destruct Hg as [Hg1 Hg2]. apply id_eqb_eq in Hg1. apply id_eqb_eq in Hid.
      assert (x = s) by (apply (NoDup_key_inj Shift.id (shifts (store w))); auto; congruence).
      subst x. rewrite Hpub in Hg2. discriminate Hg2. }
    rewrite Hnone. cbn [List.length Nat.eqb].
    rewrite (update_without_match _ _ _ Hnone).
    assert (E : withShifts (store w) (shifts (store w)) = store w)
      by (destruct (store w); reflexivity).
    rewrite E, Hs, Hpub. cbn. split; reflexivity.
Qed.

(** X9. Publish and unpublish: publishing a draft stores [isPublished],
    the time and version + 1; publishing it again is refused with "Shift is
    already published" and changes nothing; unpublishing it more than 48
    hours before its start gives back the draft, two versions later;
    within 48 hours the unpublish is refused and changes nothing. *)
Theorem publish_then_unpublish
  (user : User.t) (t1 t2 : Z) (shiftId locationId : Id) (w : World) (s : Shift.t) :
  requireRole [MANAGER; ADMIN] (Some user) = Some user ->
  NoDup (map Shift.id (shifts (store w))) ->
  shiftById (store w) shiftId = Some s ->
  Shift.isPublished s = false ->
  let published := publishShift (Some user) t1 shiftId locationId w in
  let again := publishShift (Some user) t2 shiftId locationId (snd published) in
  let unpublished := unpublishShift (Some user) t2 shiftId locationId (snd published) in
  fst published = Success
  /\ shiftById (store (snd published)) shiftId = Some (publishedShift t1 s)
  /\ fst again = Failure "Shift is already published"
  /\ store (snd again) = store (snd published)
  /\ (~ startsWithin 48 s t2 ->
      fst unpublished = Success
      /\ shiftById (store (snd unpublished)) shiftId = Some (republishedDraft t2 s))
  /\ (startsWithin 48 s t2 ->
      fst unpublished = Failure "Cannot unpublish shift within 48 hours of its start time"
      /\ snd unpublished = snd published).
Proof.
  intros Hrole Hnd Hs Hdraft published again unpublished.
  destruct (@publishShift_runs user t1 shiftId locationId w s Hrole Hs) as [Hpub _].
  destruct (Hpub Hdraft) as [Hok Hs1]. fold published in Hok, Hs1.
  assert (Hnd1 : NoDup (map Shift.id (shifts (store (snd published))))).
  { unfold published.
    destruct (publishShift_shifts (Some user) t1 shiftId locationId w) as [-> | ->];
      [exact Hnd|].
    rewrite ids_updateWhere by reflexivity. exact Hnd. }
  destruct (@publishShift_runs user t2 shiftId locationId (snd published)
              (publishedShift t1 s) Hrole Hs1) as [_ Hagain].
  destruct (Hagain eq_refl Hnd1) as [Hfail Hsame]. fold again in Hfail, Hsame.
  split; [exact Hok|]. split; [exact Hs1|]. split; [exact Hfail|]. split; [exact Hsame|].
  unfold unpublished, unpublishShift. rewrite Hrole, Hs1.
  cbn [publishedShift Shift.isPublished Shift.date Shift.startTime negb].
  unfold startsWithin. split.
  - intros Hfar.
    assert (E : Qle_bool (hoursUntil (Shift.date s) (Shift.startTime s) t2) (inject_Z 48)
                = false) by (apply hoursUntil_gt; lia).
    rewrite E.
    pose proof Hs1 as Hin. unfold shiftById in Hin. apply hd_filter_In in Hin.
    cbn beta in Hin. destruct Hin as [Hin Hid].
    destruct (List.length _ =? 0)%nat eqn:Hlen.
    + apply length_zero_nil in Hlen. exfalso.
      assert (Hc : In (publishedShift t1 s)
                      (returning (fun x => id_eqb (Shift.id x) shiftId
                                           && Bool.eqb (Shift.isPublished x) true)
                                 (shifts (store (snd published))))).
      { apply filter_In. split; [exact Hin|]. now rewrite Hid. }
      rewrite Hlen in Hc. destruct Hc.
    + cbn [fst snd setStore store]. split; [reflexivity|].
      unfold shiftById. cbn [withShifts shifts].
      rewrite lookup_updateWhere by reflexivity.
      unfold shiftById in Hs1. rewrite Hs1. cbn [option_map].
      rewrite Hid. unfold republishedDraft, unpublishedShift, publishedShift. cbn.
      do 2 f_equal. lia.
  - intros Hnear.
    assert (E : Qle_bool (hoursUntil (Shift.date s) (Shift.startTime s) t2) (inject_Z 48)
                = true) by (apply hoursUntil_le; lia).
    rewrite E. split; reflexivity.
Qed.

Lemma publish_then_unpublish_witness :
  shiftById
    (store (snd (unpublishShift (Some manager) 2 "s1" "l1"
                   (snd (publishShift (Some manager) 1 "s1" "l1"
                           (mkWorld versionedShifts []))))))
    "s1"
  = Some (Shift.mk "s1" "l1" monday (mkTime 9 0) (mkTime 17 0) "k1" 2 false None 5 "m1" 2).
Proof.
  refine (proj2 (proj1 (proj2 (proj2 (proj2 (proj2
            (@publish_then_unpublish manager 1 2 "s1" "l1" (mkWorld versionedShifts [])
               (Shift.mk "s1" "l1" monday (mkTime 9 0) (mkTime 17 0) "k1" 2 false None 3
                         "m1" 0)
               eq_refl _ eq_refl eq_refl))))) _)).
  - simpl. repeat constructor; simpl; intuition discriminate.
  - unfold startsWithin. vm_compute. intros H. apply H. reflexivity.
Defined.

(** X10. A failed edit says why and writes nothing.  When the database
    refuses a parameter of the update - a time that is no time of day, or a
    supplied version whose successor leaves the integer range - the edit
    answers "Failed to update shift".  Otherwise, when no stored row of the
    shift carries the supplied version, it answers "Shift not found" if the
    shift does not exist and the version-conflict message if it does.  In
    each case the store stays as it was. *)
Theorem failed_edit_reports_and_keeps_store
  (user : User.t) (now : Z) (shiftId : Id) (f : ShiftForm) (version : Z) (w : World) :
  requireRole [MANAGER; ADMIN] (Some user) = Some user ->
  updateShiftSchema f version = true ->
  (forall s, In s (shifts (store w)) -> Shift.id s = shiftId -> Shift.version s <> version) ->
  fst (updateShift (Some user) now shiftId f version w)
  = (if shiftUpdateBinds f version
     then match shiftById (store w) shiftId with
          | None => Failure "Shift not found"
          | Some _ => Failure versionConflict
          end
     else Failure "Failed to update shift")
  /\ store (snd (updateShift (Some user) now shiftId f version w)) = store w.
Proof.
  intros Hrole Hschema Hstale. unfold updateShift. rewrite Hrole, Hschema. cbn [negb].
  destruct (shiftUpdateBinds f version); cbn [negb]; [|split; reflexivity].
  assert (Hnone : returning (fun s => id_eqb (Shift.id s) shiftId
                                      && (Shift.version s =? version))
                            (shifts (store w)) = []).
  { destruct (returning _ _) as [|x xs] eqn:E; [reflexivity|exfalso].
    assert (Hx : In x (returning (fun s => id_eqb (Shift.id s) shiftId
                                           && (Shift.version s =? version))
                                 (shifts (store w)))) by (rewrite E; now left).
    apply filter_In in Hx. destruct Hx as [Hx Hg]. apply andb_true_iff in Hg.
    destruct Hg as [Hg1 Hg2]. apply id_eqb_eq in Hg1. apply Z.eqb_eq in Hg2.
    exact (Hstale x Hx Hg1 Hg2). }
  rewrite Hnone. cbn [List.length Nat.eqb nonEmpty andb].
  rewrite (update_without_match _ _ _ Hnone).
  assert (E : withShifts (store w) (shifts (store w)) = store w)
    by (destruct (store w); reflexivity).
  rewrite E. destruct (shiftById (store w) shiftId); split; reflexivity.
Qed.

Lemma failed_edit_reports_and_keeps_store_witness :
  fst (updateShift (Some manager) 9 "s1" editForm 2 (mkWorld versionedShifts []))
  = Failure versionConflict
  /\ fst (updateShift (Some manager) 9 "zz" editForm 2 (mkWorld versionedShifts []))
     = Failure "Shift not found"
  /\ fst (updateShift (Some manager) 9 "s1" editForm 2147483647
            (mkWorld versionedShifts []))
     = Failure "Failed to update shift".
Proof.
  split; [|split].
  - refine (proj1 (@failed_edit_reports_and_keeps_store
                     manager 9 "s1" editForm 2 (mkWorld versionedShifts [])
                     eq_refl eq_refl _)).
    intros s Hs Hid. simpl in Hs. destruct Hs as [<-|[<-|[]]]; simpl; discriminate.
  - refine (proj1 (@failed_edit_reports_and_keeps_store
                     manager 9 "zz" editForm 2 (mkWorld versionedShifts [])
                     eq_refl eq_refl _)).
    intros s Hs Hid. simpl in Hs. destruct Hs as [<-|[<-|[]]]; simpl; discriminate.
  - refine (proj1 (@failed_edit_reports_and_keeps_store
                     manager 9 "s1" editForm 2147483647 (mkWorld versionedShifts [])
                     eq_refl eq_refl _)).
    intros s Hs Hid. simpl in Hs. destruct Hs as [<-|[<-|[]]]; simpl; discriminate.
Defined.

(** X11. Roles gate every action before anything is read: without a
    manager or admin session none of the manager actions succeeds or
    changes the world, and without a staff session none of the staff
    actions does. *)
Theorem roles_gate_every_action
  (session : option User.t) (now : Z) (newId shiftId staffId locationId requestId
   assignmentId targetStaffId : Id) (f : ShiftForm) (version : Z)
  (reason notes : option string) (w : World) :
  (match session with
   | Some user => User.role user = STAFF
   | None => True
   end ->
   snd (createShift session now newId f w) = w
   /\ fst (createShift session now newId f w) <> Success
   /\ snd (updateShift session now shiftId f version w) = w
   /\ fst (updateShift session now shiftId f version w) <> Success
   /\ snd (deleteShift session now shiftId locationId w) = w
   /\ fst (deleteShift session now shiftId locationId w) <> Success
   /\ snd (publishShift session now shiftId locationId w) = w
   /\ fst (publishShift session now shiftId locationId w) <> Success
   /\ snd (unpublishShift session now shiftId locationId w) = w
   /\ fst (unpublishShift session now shiftId locationId w) <> Success
   /\ assignStaffToShift session now newId shiftId staffId locationId reason w
      = (AssignFailure "Failed to assign staff", w)
   /\ snd (unassignStaffFromShift session shiftId staffId locationId w) = w
   /\ fst (unassignStaffFromShift session shiftId staffId locationId w) <> Success
   /\ snd (SwapRequestsActions.approveSwapRequest session now requestId notes w) = w
   /\ fst (SwapRequestsActions.approveSwapRequest session now requestId notes w) <> Success
   /\ snd (denySwapRequest session now requestId notes w) = w
   /\ fst (denySwapRequest session now requestId notes w) <> Success)
  /\ (match session with
      | Some user => User.role user <> STAFF
      | None => True
      end ->
      snd (pickUpShift session now newId shiftId w) = w
      /\ fst (pickUpShift session now newId shiftId w) <> Success
      /\ snd (SwapActions.createSwapRequest session now newId assignmentId targetStaffId w) = w
      /\ fst (SwapActions.createSwapRequest session now newId assignmentId targetStaffId w)
         <> Success
      /\ snd (SwapActions.createDropRequest session now newId assignmentId w) = w
      /\ fst (SwapActions.createDropRequest session now newId assignmentId w) <> Success
      /\ snd (SwapActions.cancelSwapRequest session now requestId w) = w
      /\ fst (SwapActions.cancelSwapRequest session now requestId w) <> Success).
Proof.
  split.
  - intros Hrole.
    assert (E : requireRole [MANAGER; ADMIN] session = None).
    { unfold requireRole, requireAuth. destruct session as [user|]; [|reflexivity].
      now rewrite Hrole. }
    unfold createShift, updateShift, deleteShift, publishShift, unpublishShift,
      assignStaffToShift, unassignStaffFromShift,
      SwapRequestsActions.approveSwapRequest, denySwapRequest.
    rewrite E. repeat split; discriminate.
  - intros Hrole.
    assert (E : requireRole [STAFF] session = None).
    { unfold requireRole, requireAuth. destruct session as [user|]; [|reflexivity].
      destruct (User.role user); [reflexivity|reflexivity|congruence]. }
    unfold pickUpShift, SwapActions.createSwapRequest, SwapActions.createDropRequest,
      SwapActions.cancelSwapRequest.
    rewrite E. repeat split; discriminate.
Qed.

Lemma roles_gate_every_action_witness :
  snd (deleteShift (Some worker) 0 "s1" "l1" (mkWorld publishedMonday []))
  = mkWorld publishedMonday []
  /\ fst (deleteShift (Some worker) 0 "s1" "l1" (mkWorld publishedMonday [])) <> Success.
Proof.
  destruct (proj1 (@roles_gate_every_action (Some worker) 0 "n" "s1" "w1" "l1" "r1" "a1" "w2"
                     editForm 1 None None (mkWorld publishedMonday [])) eq_refl)
    as (_ & _ & _ & _ & H1 & H2 & _).
  split; [exact H1|exact H2].
Defined.

(* ------------------------------------------------------------------ *)
(** * Overlap: the date window is wide enough *)

Lemma toMinutes_bounds (t : Time) : wellFormedTime t -> 0 <= toMinutes t < 1440.
Proof. unfold wellFormedTime, toMinutes. lia. Qed.

Lemma time_leb_spec (a b : Time) :
  wellFormedTime a -> wellFormedTime b ->
  (time_leb a b = true <-> toMinutes a <= toMinutes b).
Proof.
  unfold wellFormedTime, time_leb, toMinutes. intros Ha Hb.
  rewrite orb_true_iff, andb_true_iff, Z.ltb_lt, Z.eqb_eq, Z.leb_le. lia.
Qed.

Lemma toEpochRange_abs (date : Date) (startT endT : Time) :
  toEpochRange date startT endT = (absStart date startT endT, absEnd date startT endT).
Proof.
  unfold toEpochRange, absStart, absEnd, absoluteRange, startInstant. cbn [fst snd].
  destruct (toMinutes endT <=? toMinutes startT) eqn:E.
  - apply Z.leb_le in E.
    replace (dateBase date + toMinutes endT * 60000
             <=? dateBase date + toMinutes startT * 60000) with true
      by (symmetry; apply Z.leb_le; lia).
    f_equal. lia.
  - apply Z.leb_gt in E.
    replace (dateBase date + toMinutes endT * 60000
             <=? dateBase date + toMinutes startT * 60000) with false
      by (symmetry; apply Z.leb_gt; lia).
    reflexivity.
Qed.

(** The dates both overlap checks read: the shift's date, the day before
    and, for a shift that crosses midnight, the day after. *)
Lemma outside_window_no_overlap (date : Date) (startT endT : Time) (s : Shift.t) :
  wellFormedTime startT -> wellFormedTime endT -> wellFormedShift s ->
  Shift.date s <> date -> Shift.date s <> date - 1 ->
  (time_leb endT startT = true -> Shift.date s <> date + 1) ->
  ~ (absStart date startT endT
     < absEnd (Shift.date s) (Shift.startTime s) (Shift.endTime s)
     /\ absStart (Shift.date s) (Shift.startTime s) (Shift.endTime s)
        < absEnd date startT endT).
Proof.
  intros Hst Hen [Hs1 Hs2] Hd0 Hd1 Hd2.
  pose proof (toMinutes_bounds Hst). pose proof (toMinutes_bounds Hen).
  pose proof (toMinutes_bounds Hs1). pose proof (toMinutes_bounds Hs2).
  pose proof (time_leb_spec Hen Hst) as Hleb.
  unfold absStart, absEnd, absoluteRange, dateBase. cbn [fst snd].
  destruct (toMinutes endT <=? toMinutes startT) eqn:E1;
    destruct (toMinutes (Shift.endTime s) <=? toMinutes (Shift.startTime s)) eqn:E2;
    try apply Z.leb_le in E1; try apply Z.leb_gt in E1;
    try apply Z.leb_le in E2; try apply Z.leb_gt in E2;
    destruct (time_leb endT startT); lia.
Qed.

Lemma in_dates (x : Date) (dates : list Date) :
  existsb (Z.eqb x) dates = true <-> In x dates.
Proof.
  rewrite existsb_exists. split.
  - intros (y & Hy & E). apply Z.eqb_eq in E. now subst.
  - intros H. exists x. split; [exact H|apply Z.eqb_refl].
Qed.

(** X12. [checkShiftOverlap] misses nothing: for well-formed times it
    answers true iff the staff member holds some other shift - on any date -
    that overlaps the candidate in absolute time.  Reading only the
    candidate's date, the day before and (for an overnight candidate) the
    day after loses no overlap. *)
Theorem overlap_check_is_complete (db : DB) (staffId : Id) (newShift : ShiftData.t) :
  wellFormedShifts db ->
  wellFormedTime (ShiftData.startTime newShift) ->
  wellFormedTime (ShiftData.endTime newShift) ->
  (checkShiftOverlap db staffId newShift = true
   <-> exists s, In s (shiftsOfStaff db staffId)
                 /\ Shift.id s <> ShiftData.id newShift
                 /\ overlapping (candidateRow newShift) s).
Proof.
  intros Hwf Hst Hen. unfold checkShiftOverlap, overlapping.
  cbn [candidateRow Shift.date Shift.startTime Shift.endTime].
  rewrite existsb_exists. split.
  - intros (s & Hs & Hov). apply filter_In in Hs. destruct Hs as [Hs Hf].
    apply andb_true_iff in Hf. destruct Hf as [_ Hne].
    apply negb_true_iff, id_eqb_neq in Hne.
    apply andb_true_iff in Hov. destruct Hov as [H1 H2].
    apply Z.ltb_lt in H1. apply Z.ltb_lt in H2. exists s. auto.
  - intros (s & Hs & Hne & Hov). exists s. split.
    + apply filter_In. split; [exact Hs|]. apply andb_true_iff. split.
      * destruct (existsb _ _) eqn:E; [reflexivity|exfalso].
        assert (Hnot : forall x, In x ([ShiftData.date newShift]
                                       ++ (if isOvernightShift (ShiftData.startTime newShift)
                                                               (ShiftData.endTime newShift)
                                           then [addDays (ShiftData.date newShift) 1] else [])
                                       ++ [addDays (ShiftData.date newShift) (-1)]) ->
                                 Shift.date s <> x).
        { intros x Hx Heq. apply not_true_iff_false in E. apply E.
          apply in_dates. now rewrite Heq. }
        apply shiftsOfStaff_In in Hs. destruct Hs as [_ Hin].
        apply (@outside_window_no_overlap (ShiftData.date newShift)
                 (ShiftData.startTime newShift) (ShiftData.endTime newShift) s);
          auto.
        -- apply Hnot. now left.
        -- apply Hnot. apply in_or_app. right. apply in_or_app. right.
           unfold addDays. left. lia.
        -- intros Hnight. apply Hnot. apply in_or_app. right. apply in_or_app. left.
           unfold isOvernightShift. rewrite Hnight. unfold addDays. now left.
      * apply negb_true_iff, id_eqb_neq. exact Hne.
    + destruct Hov as [H1 H2]. apply andb_true_iff. split; apply Z.ltb_lt; assumption.
Qed.

Lemma overlap_check_is_complete_witness :
  checkShiftOverlap acceptedSwap "w2" (candidate monday (mkTime 9 0) (mkTime 17 0)) = true
  <-> exists s, In s (shiftsOfStaff acceptedSwap "w2")
                /\ Shift.id s <> "s1"
                /\ overlapping (candidateRow (candidate monday (mkTime 9 0) (mkTime 17 0))) s.
Proof.
  apply (@overlap_check_is_complete acceptedSwap "w2"
           (candidate monday (mkTime 9 0) (mkTime 17 0))).
  - intros s Hs. simpl in Hs.
    destruct Hs as [<-|[<-|[]]]; repeat split; simpl; lia.
  - split; simpl; lia.
  - split; simpl; lia.
Defined.

(* ------------------------------------------------------------------ *)
(** * Assignments by a manager *)

Lemma requireRole_Some (roles : list Role) (session : option User.t) (user : User.t) :
  requireRole roles session = Some user ->
  session = Some user /\ existsb (Role_eqb (User.role user)) roles = true.
Proof.
  unfold requireRole, requireAuth. destruct session as [u|]; [|discriminate].
  destruct (existsb (Role_eqb (User.role u)) roles) eqn:E; [|discriminate].
  intros H. injection H as <-. auto.
Qed.

(** X13. [assignStaffToShift] never stores an assignment.  Whatever the
    session, the ids, the reason and the tables, the store after the call
    is the store before it and the answer is not a success.  A call that
    passes the role check, finds the shift and passes validation opens the
    transaction, takes the advisory lock on the staff member, rolls back on
    the overlap re-check - a statement the database refuses - and answers
    "Failed to assign staff". *)
Theorem assignment_is_never_committed
  (session : option User.t) (now : Z) (newId shiftId staffId locationId : Id)
  (overrideReason : option string) (w : World) :
  store (snd (assignStaffToShift session now newId shiftId staffId locationId
                overrideReason w)) = store w
  /\ (forall warnings,
        fst (assignStaffToShift session now newId shiftId staffId locationId
               overrideReason w) <> Assigned warnings)
  /\ (forall user row,
        requireRole [MANAGER; ADMIN] session = Some user ->
        shiftById (store w) shiftId = Some row ->
        valid (validateAssignment (store w) staffId (shiftDataOf row)) = true ->
        assignStaffToShift session now newId shiftId staffId locationId overrideReason w
        = (AssignFailure "Failed to assign staff",
           {| store := store w;
              trace := trace w ++ [TxBegin; AdvisoryLock staffId; TxRollback] |})).
Proof.
  unfold assignStaffToShift.
  destruct (requireRole [MANAGER; ADMIN] session) as [user|].
  2:{ repeat split; discriminate. }
  destruct (shiftById (store w) shiftId) as [row|].
  2:{ repeat split; discriminate. }
  destruct (negb (valid (validateAssignment (store w) staffId (shiftDataOf row)))
            && negb (onlySeventhDay
                       (errorsOf (violations (validateAssignment (store w) staffId
                                                (shiftDataOf row))))
                     && reasonGiven overrideReason)) eqn:Hgate.
  - split; [reflexivity|]. split; [discriminate|].
    intros user' row' _ Hrow Hvalid.
    injection Hrow as <-. rewrite Hvalid in Hgate. discriminate Hgate.
  - rewrite commitAssignment_fails. split; [reflexivity|]. split; [discriminate|].
    intros user' row' _ _ _. reflexivity.
Qed.

(** On [openTuesday] the colleague passes every check for the Tuesday shift;
    the assignment still fails and nothing is stored. *)
Lemma assignment_is_never_committed_witness :
  valid (validateAssignment openTuesday "w2"
           (shiftDataOf (Shift.mk "s2" "l1" (monday + 1) (mkTime 9 0) (mkTime 17 0)
                                  "k1" 2 true (Some 0) 1 "m1" 0))) = true
  /\ assignStaffToShift (Some manager) 5 "a9" "s2" "w2" "l1" None
                        (mkWorld openTuesday [])
     = (AssignFailure "Failed to assign staff",
        mkWorld openTuesday [TxBegin; AdvisoryLock "w2"; TxRollback]).
Proof.
  split; [reflexivity|].
  exact (proj2 (proj2 (@assignment_is_never_committed (Some manager) 5 "a9" "s2" "w2" "l1"
                         None (mkWorld openTuesday [])))
           manager _ eq_refl eq_refl eq_refl).
Defined.

(* ------------------------------------------------------------------ *)
(** * One assignment per shift and worker *)

Lemma NoDup_snoc {K : Type} (ks : list K) (k : K) :
  NoDup ks -> ~ In k ks -> NoDup (ks ++ [k]).
Proof.
  induction ks as [|x ks IH]; simpl; intros Hnd Hk.
  - constructor; [intros []|constructor].
  - inversion Hnd as [|? ? Hx Hnd']; subst. constructor.
    + intros Hin. apply in_app_or in Hin. destruct Hin as [Hin|[->|[]]]; auto.
    + apply IH; auto.
Qed.

Lemma onePerShiftAndWorker_insert (d : DB) (row : ShiftAssignment.t) :
  onePerShiftAndWorker d ->
  (forall a, In a (shiftAssignments d) ->
             ShiftAssignment.staffId a = ShiftAssignment.staffId row ->
             ShiftAssignment.shiftId a <> ShiftAssignment.shiftId row) ->
  onePerShiftAndWorker (withShiftAssignments d (shiftAssignments d ++ [row])).
Proof.
  unfold onePerShiftAndWorker. cbn [shiftAssignments withShiftAssignments].
  intros Hnd Hfresh. rewrite map_app. cbn [map]. apply NoDup_snoc; [exact Hnd|].
  intros Hin. apply in_map_iff in Hin. destruct Hin as (a & Heq & Ha).
  injection Heq as Hsh Hst. exact (Hfresh a Ha Hst Hsh).
Qed.

Lemma pickUpShift_success (session : option User.t) (now : Z) (newId shiftId : Id)
  (w w' : World) :
  pickUpShift session now newId shiftId w = (Success, w') ->
  exists user shift,
    requireRole [STAFF] session = Some user
    /\ shiftById (store w) shiftId = Some shift
    /\ Shift.isPublished shift = true
    /\ now < startInstant (Shift.date shift) (Shift.startTime shift)
    /\ assignmentCount (store w) shiftId < Shift.headcount shift
    /\ (forall a, In a (shiftAssignments (store w)) ->
                  ShiftAssignment.staffId a = User.id user ->
                  ShiftAssignment.shiftId a <> shiftId)
    /\ w' = setStore w (withShiftAssignments (store w)
                          (shiftAssignments (store w)
                           ++ [insertedAssignment newId shiftId (User.id user)
                                                  (User.id user) now])).
Proof.
  unfold pickUpShift.
  destruct (requireRole [STAFF] session) as [user|] eqn:Hrole; [|discriminate].
  destruct (shiftById (store w) shiftId) as [shift|] eqn:Hshift; [|discriminate].
  destruct (Shift.isPublished shift) eqn:Hpub; cbn [negb]; [|discriminate].
  destruct (startInstant (Shift.date shift) (Shift.startTime shift) <=? now) eqn:Hstart;
    [discriminate|].
  fold (assignmentCount (store w) shiftId).
  destruct (assignmentCount (store w) shiftId >=? Shift.headcount shift) eqn:Hcount;
    [discriminate|].
  match goal with |- context [hd_error ?l] => destruct (hd_error l) eqn:Hdup end;
    [discriminate|].
  intros H. injection H as <-.
  exists user, shift. repeat split; auto.
  - apply Z.leb_gt in Hstart. lia.
  - rewrite Z.geb_leb in Hcount. apply Z.leb_gt in Hcount. lia.
  - intros a Ha Hst Hsh.
    pose proof (proj1 (hd_filter_none _ _) Hdup a Ha) as Hp. cbn beta in Hp.
    apply andb_false_iff in Hp. destruct Hp as [Hp|Hp]; apply id_eqb_neq in Hp; auto.
Qed.

Lemma assignmentCount_insert (d : DB) (row : ShiftAssignment.t) (shiftId : Id) :
  assignmentCount (withShiftAssignments d (shiftAssignments d ++ [row])) shiftId
  = assignmentCount d shiftId
    + (if id_eqb (ShiftAssignment.shiftId row) shiftId then 1 else 0).
Proof.
  unfold assignmentCount. cbn [shiftAssignments withShiftAssignments].
  rewrite filter_app, length_app. cbn [filter].
  destruct (id_eqb (ShiftAssignment.shiftId row) shiftId); cbn [List.length]; lia.
Qed.

(** X14. A pickup never stores the same worker twice on one shift: if no
    (shift, worker) pair occurs twice in the assignments table, none does
    after a successful [pickUpShift].  The pickup also leaves the shift
    within its headcount and the number of assignments of every other shift
    as it was. *)
Theorem pickup_keeps_assignments_unique
  (session : option User.t) (now : Z) (newId shiftId : Id) (w w' : World) :
  onePerShiftAndWorker (store w) ->
  pickUpShift session now newId shiftId w = (Success, w') ->
  onePerShiftAndWorker (store w')
  /\ (exists shift, shiftById (store w) shiftId = Some shift
                    /\ assignmentCount (store w') shiftId <= Shift.headcount shift)
  /\ forall other, other <> shiftId ->
                   assignmentCount (store w') other = assignmentCount (store w) other.
Proof.
  intros Hone Hrun. apply pickUpShift_success in Hrun.
  destruct Hrun as (user & shift & _ & Hshift & _ & _ & Hcount & Hdup & ->).
  cbn [store setStore]. split; [|split].
  - apply onePerShiftAndWorker_insert; [exact Hone|exact Hdup].
  - exists shift. split; [exact Hshift|]. rewrite assignmentCount_insert.
    cbn [insertedAssignment ShiftAssignment.shiftId]. rewrite id_eqb_refl. lia.
  - intros other Hother. rewrite assignmentCount_insert.
    cbn [insertedAssignment ShiftAssignment.shiftId].
    destruct (id_eqb shiftId other) eqn:E; [|lia].
    apply id_eqb_eq in E. congruence.
Qed.

Lemma pickup_keeps_assignments_unique_witness :
  onePerShiftAndWorker
    (store (snd (pickUpShift (Some colleague) 5 "a9" "s2" (mkWorld openTuesday [])))).
Proof.
  assert (Hone : onePerShiftAndWorker (store (mkWorld openTuesday []))).
  { unfold onePerShiftAndWorker. simpl. constructor; [intros []|constructor]. }
  eapply (proj1 (@pickup_keeps_assignments_unique
                   (Some colleague) 5 "a9" "s2" (mkWorld openTuesday []) _ Hone _)).
  Unshelve. vm_compute. reflexivity.
Defined.

(** X15. A manager can undo a pickup: after a successful [pickUpShift],
    [unassignStaffFromShift] for that shift and worker succeeds and gives
    back the store as it was before, when no swap request pointed at the
    new assignment's id. *)
Theorem unassign_undoes_pickup
  (staffSession managerSession : option User.t) (worker boss : User.t) (now : Z)
  (newId shiftId locationId : Id) (w w1 : World) :
  requireRole [STAFF] staffSession = Some worker ->
  requireRole [MANAGER; ADMIN] managerSession = Some boss ->
  (forall r, In r (swapRequests (store w)) -> SwapRequest.shiftAssignmentId r <> newId) ->
  pickUpShift staffSession now newId shiftId w = (Success, w1) ->
  fst (unassignStaffFromShift managerSession shiftId (User.id worker) locationId w1)
  = Success
  /\ store (snd (unassignStaffFromShift managerSession shiftId (User.id worker)
                   locationId w1)) = store w.
Proof.
  intros Hstaff Hboss Hfresh Hrun. apply pickUpShift_success in Hrun.
  destruct Hrun as (user & shift & Hrole & _ & _ & _ & _ & Hdup & ->).
  rewrite Hstaff in Hrole. injection Hrole as <-.
  unfold unassignStaffFromShift. rewrite Hboss. cbn [fst snd store setStore].
  split; [reflexivity|]. unfold deleteAssignmentsWhere, insertedAssignment.
  cbn [shiftAssignments swapRequests withShiftAssignments withSwapRequests].
  set (staffId := User.id worker) in *.
  assert (Hold : forall a, In a (shiftAssignments (store w)) ->
                           id_eqb (ShiftAssignment.shiftId a) shiftId
                           && id_eqb (ShiftAssignment.staffId a) staffId = false).
  { intros a Ha. apply andb_false_iff.
    destruct (id_eqb (ShiftAssignment.staffId a) staffId) eqn:E; [left|now right].
    apply id_eqb_eq in E. apply id_eqb_neq. now apply Hdup. }
  assert (Hkeep : deleteWhere (fun a => id_eqb (ShiftAssignment.shiftId a) shiftId
                                        && id_eqb (ShiftAssignment.staffId a) staffId)
                    (shiftAssignments (store w)
                     ++ [ShiftAssignment.mk newId shiftId staffId staffId now])
                  = shiftAssignments (store w)).
  { unfold deleteWhere. rewrite filter_app. cbn [filter ShiftAssignment.shiftId
      ShiftAssignment.staffId]. rewrite !id_eqb_refl. cbn [andb negb].
    rewrite app_nil_r. apply forallb_filter_id. apply forallb_forall.
    intros a Ha. now rewrite (Hold a Ha). }
  assert (Hgone : filter (fun a => id_eqb (ShiftAssignment.shiftId a) shiftId
                                   && id_eqb (ShiftAssignment.staffId a) staffId)
                    (shiftAssignments (store w)
                     ++ [ShiftAssignment.mk newId shiftId staffId staffId now])
                  = [ShiftAssignment.mk newId shiftId staffId staffId now]).
  { rewrite filter_app. cbn [filter ShiftAssignment.shiftId ShiftAssignment.staffId].
    rewrite !id_eqb_refl. cbn [andb].
    replace (filter _ (shiftAssignments (store w))) with (@nil ShiftAssignment.t);
      [reflexivity|].
    symmetry. apply length_zero_iff_nil.
    destruct (filter _ (shiftAssignments (store w))) as [|a rest] eqn:E; [reflexivity|].
    assert (Ha : In a (a :: rest)) by now left.
    rewrite <- E in Ha. apply filter_In in Ha. destruct Ha as [Ha Hp].
    rewrite (Hold a Ha) in Hp. discriminate. }
  rewrite Hkeep, Hgone. cbn [map ShiftAssignment.id].
  assert (Hreqs : deleteWhere (fun r => inArray (SwapRequest.shiftAssignmentId r) [newId])
                    (swapRequests (store w)) = swapRequests (store w)).
  { unfold deleteWhere. apply forallb_filter_id. apply forallb_forall.
    intros r Hr. unfold inArray. cbn [existsb]. rewrite orb_false_r.
    apply negb_true_iff, id_eqb_neq. now apply Hfresh. }
  rewrite Hreqs. destruct (store w). reflexivity.
Qed.

Lemma unassign_undoes_pickup_witness :
  store (snd (unassignStaffFromShift (Some manager) "s2" "w2" "l1"
                (snd (pickUpShift (Some colleague) 5 "a9" "s2" (mkWorld openTuesday [])))))
  = openTuesday.
Proof.
  eapply (proj2 (@unassign_undoes_pickup (Some colleague) (Some manager) colleague manager
                   5 "a9" "s2" "l1" (mkWorld openTuesday []) _ eq_refl eq_refl _ _)).
  Unshelve.
  - intros r Hr. destruct Hr.
  - vm_compute. reflexivity.
Defined.

(* ------------------------------------------------------------------ *)
(** * The engine's verdict *)

Lemma Qgtb_false (x y : Q) : Qgtb x y = false <-> (x <= y)%Q.
Proof. unfold Qgtb. rewrite negb_false_iff. apply Qle_bool_iff. Qed.

(** The day's total as the engine adds it up: the hours already held on the
    date, summed in double precision, plus the candidate's hours. *)
Lemma labor_errors (db : DB) (staffId : Id) (shift : ShiftData.t) :
  List.length (errorsOf (checkLaborLimits db staffId shift)) = 0%nat
  <-> fgtb (fadd (getDailyHours db staffId (ShiftData.date shift))
                 (toDouble (shiftDurationHours (ShiftData.startTime shift)
                                               (ShiftData.endTime shift))))
           (ofInt 12) = false
      /\ getConsecutiveDays db staffId (ShiftData.date shift) < 7.
Proof.
  unfold checkLaborLimits, errorsOf. cbn zeta. rewrite !filter_app, !length_app.
  set (daily := fadd (getDailyHours db staffId (ShiftData.date shift))
                     (toDouble (shiftDurationHours (ShiftData.startTime shift)
                                                   (ShiftData.endTime shift)))).
  set (weekly := fadd (getWeeklyHours db staffId (ShiftData.date shift))
                      (toDouble (shiftDurationHours (ShiftData.startTime shift)
                                                    (ShiftData.endTime shift)))).
  destruct (fgtb daily (ofInt 12)); destruct (fgtb daily (ofInt 8));
    destruct (fgeb weekly (ofInt 40)); destruct (fgeb weekly (ofInt 35));
    destruct (getConsecutiveDays db staffId (ShiftData.date shift) >=? 7) eqn:E7;
    destruct (getConsecutiveDays db staffId (ShiftData.date shift) >=? 6) eqn:E6;
    cbn [filter type Severity_eqb List.length app Nat.add];
    rewrite Z.geb_leb in E7;
    try apply Z.leb_le in E7; try apply Z.leb_gt in E7;
    split; try (intros [? ?]); try discriminate; try lia; auto.
Qed.

(** X16. The verdict of [validateAssignment] is exactly the conjunction of
    its hard checks: [valid] is true iff the staff member has the skill and
    the location certification, is available, has no overlapping shift and
    no rest-period violation, is below a seventh consecutive day, and the
    day's total - the hours held on the date plus the candidate's, added up
    in double precision as the program does - is not greater than 12.  The
    8-hour, 35-hour, 40-hour and sixth-day warnings never change the
    verdict. *)
Theorem verdict_is_the_hard_checks (db : DB) (staffId : Id) (shift : ShiftData.t) :
  valid (validateAssignment db staffId shift) = true
  <-> checkSkillMatch db staffId (ShiftData.skillId shift) = true
      /\ checkLocationCertification db staffId (ShiftData.locationId shift) = true
      /\ available (checkAvailability db staffId (ShiftData.date shift)
                      (ShiftData.startTime shift) (ShiftData.endTime shift)) = true
      /\ checkShiftOverlap db staffId shift = false
      /\ check10HourRest db staffId shift = None
      /\ fgtb (fadd (getDailyHours db staffId (ShiftData.date shift))
                    (toDouble (shiftDurationHours (ShiftData.startTime shift)
                                                  (ShiftData.endTime shift))))
              (ofInt 12) = false
      /\ getConsecutiveDays db staffId (ShiftData.date shift) < 7.
Proof.
  rewrite valid_validateAssignment. unfold validateAssignment. cbn [violations].
  unfold errorsOf. rewrite !filter_app, !length_app.
  fold (errorsOf (checkLaborLimits db staffId shift)).
  rewrite Nat.eqb_eq. rewrite <- labor_errors.
  destruct (checkSkillMatch db staffId (ShiftData.skillId shift));
    destruct (checkLocationCertification db staffId (ShiftData.locationId shift));
    destruct (available (checkAvailability db staffId (ShiftData.date shift)
                           (ShiftData.startTime shift) (ShiftData.endTime shift)));
    destruct (checkShiftOverlap db staffId shift);
    destruct (check10HourRest db staffId shift);
    cbn [negb filter type Severity_eqb List.length app Nat.add];
    split; intros H; repeat split; try discriminate; try lia;
    repeat match goal with H : _ /\ _ |- _ => destruct H end;
    try discriminate; try lia; auto.
Qed.

(* ------------------------------------------------------------------ *)
(** * Consecutive days *)

Lemma workedOn_spec (db : DB) (staffId : Id) (date : Date) :
  workedOn db staffId date = true <-> worksOn db staffId date.
Proof.
  unfold workedOn, worksOn. split.
  - intros H. destruct (filter _ _) as [|s rest] eqn:E; [discriminate|].
    assert (Hin : In s (s :: rest)) by now left.
    rewrite <- E in Hin. apply filter_In in Hin. destruct Hin as [Hin Hd].
    apply Z.eqb_eq in Hd. exists s. auto.
  - intros (s & Hs & Hd).
    assert (Hin : In s (filter (fun s0 => Shift.date s0 =? date)
                               (shiftsOfStaff db staffId))).
    { apply filter_In. split; [exact Hs|]. now apply Z.eqb_eq. }
    destruct (filter _ _); [destruct Hin|reflexivity].
Qed.

(** One bounded walk: the days counted were all worked, and the walk stopped
    at a day off unless it ran out of iterations. *)
Lemma countWorked_spec (db : DB) (staffId : Id) (step : Z) (i : nat) (currentDate : Date) :
  let k := countWorked db staffId step i currentDate in
  0 <= k <= Z.of_nat i
  /\ (forall j, 0 <= j < k -> worksOn db staffId (currentDate + j * step))
  /\ (k < Z.of_nat i -> ~ worksOn db staffId (currentDate + k * step)).
Proof.
  revert currentDate. induction i as [|i IH]; intros currentDate; cbn [countWorked].
  - cbn zeta. repeat split; intros; lia.
  - destruct (workedOn db staffId currentDate) eqn:E.
    + specialize (IH (currentDate + step)). cbn zeta in IH |- *.
      destruct IH as (Hb & Hrun & Hstop). repeat split; try lia.
      * intros j Hj. destruct (Z.eq_dec j 0) as [->|Hj0].
        -- replace (currentDate + 0 * step) with currentDate by lia.
           now apply workedOn_spec.
        -- replace (currentDate + j * step)
             with (currentDate + step + (j - 1) * step) by lia.
           apply Hrun. lia.
      * intros Hlt.
        replace (currentDate
                 + (1 + countWorked db staffId step i (currentDate + step)) * step)
          with (currentDate + step
                + countWorked db staffId step i (currentDate + step) * step) by lia.
        apply Hstop. lia.
    + cbn zeta. repeat split; try lia.
      intros _. replace (currentDate + 0 * step) with currentDate by lia.
      rewrite <- workedOn_spec. congruence.
Qed.

(** X17. [getConsecutiveDays] counts the unbroken run of worked days around
    the date, looking at most 14 days each way: the result is
    [before + 1 + after] where the [before] days just before the date and
    the [after] days just after it all carry a shift of the staff member,
    and each run ends at a day off unless it reached the 14-day bound.  So
    the result lies between 1 and 29. *)
Theorem consecutive_days_count_the_run (db : DB) (staffId : Id) (date : Date) :
  exists before after,
    getConsecutiveDays db staffId date = before + 1 + after
    /\ 0 <= before <= 14 /\ 0 <= after <= 14
    /\ (forall j, 1 <= j <= before -> worksOn db staffId (date - j))
    /\ (before < 14 -> ~ worksOn db staffId (date - before - 1))
    /\ (forall j, 1 <= j <= after -> worksOn db staffId (date + j))
    /\ (after < 14 -> ~ worksOn db staffId (date + after + 1)).
Proof.
  exists (countWorked db staffId (-1) 14 (date - 1)),
         (countWorked db staffId 1 14 (date + 1)).
  pose proof (countWorked_spec db staffId (-1) 14 (date - 1)) as (Hb & Hbrun & Hbstop).
  pose proof (countWorked_spec db staffId 1 14 (date + 1)) as (Ha & Harun & Hastop).
  split; [reflexivity|]. split; [lia|]. split; [lia|]. repeat split.
  - intros j Hj. replace (date - j) with (date - 1 + (j - 1) * -1) by lia.
    apply Hbrun. lia.
  - intros Hlt.
    replace (date - countWorked db staffId (-1) 14 (date - 1) - 1)
      with (date - 1 + countWorked db staffId (-1) 14 (date - 1) * -1) by lia.
    apply Hbstop. lia.
  - intros j Hj. replace (date + j) with (date + 1 + (j - 1) * 1) by lia.
    apply Harun. lia.
  - intros Hlt.
    replace (date + countWorked db staffId 1 14 (date + 1) + 1)
      with (date + 1 + countWorked db staffId 1 14 (date + 1) * 1) by lia.
    apply Hastop. lia.
Qed.

(* ------------------------------------------------------------------ *)
(** * Availability across midnight *)

Lemma blockedBy_None (exceptions : list AvailabilityException.t) (dflt : string) :
  blockedBy exceptions dflt = None
  <-> forall e, In e exceptions -> AvailabilityException.isAvailable e = true.
Proof.
  induction exceptions as [|e rest IH]; simpl.
  - split; [intros _ e []|reflexivity].
  - destruct (AvailabilityException.isAvailable e) eqn:E; simpl.
    + rewrite IH. split.
      * intros H x [<-|Hx]; auto.
      * intros H x Hx. apply H. now right.
    + split; [discriminate|]. intros H.
      specialize (H e (or_introl eq_refl)). congruence.
Qed.

Lemma not_blocked (db : DB) (staffId : Id) (date : Date) (dflt : string) :
  blockedBy (exceptionsOn db staffId date) dflt = None <-> ~ blockedOn db staffId date.
Proof.
  rewrite blockedBy_None. unfold blockedOn, exceptionsOn. split.
  - intros H (e & Hin & Hst & Hd & Hav).
    assert (Hav' : AvailabilityException.isAvailable e = true).
    { apply H. apply filter_In. split; [exact Hin|].
      apply andb_true_iff. split; [now apply id_eqb_eq|now apply Z.eqb_eq]. }
    congruence.
  - intros H e He. apply filter_In in He. destruct He as [Hin Hp].
    apply andb_true_iff in Hp. destruct Hp as [Hst Hd].
    apply id_eqb_eq in Hst. apply Z.eqb_eq in Hd.
    destruct (AvailabilityException.isAvailable e) eqn:E; [reflexivity|].
    exfalso. apply H. exists e. auto.
Qed.

(** X18. A shift that crosses midnight is checked as two days: the staff
    member is available iff no exception marks them unavailable on the
    start date, one rule of the start date's weekday covers the start time
    up to 23:59, no exception marks them unavailable on the next date, and
    one rule of the next weekday covers 00:00 up to the end time. *)
Theorem overnight_availability_needs_both_days
  (db : DB) (staffId : Id) (date : Date) (startTime endTime : Time) :
  isOvernightShift startTime endTime = true ->
  (available (checkAvailability db staffId date startTime endTime) = true
   <-> ~ blockedOn db staffId date
       /\ containedInSingleRule db staffId date startTime (mkTime 23 59)
       /\ ~ blockedOn db staffId (date + 1)
       /\ containedInSingleRule db staffId (date + 1) (mkTime 0 0) endTime).
Proof.
  intros Hnight. unfold checkAvailability. rewrite Hnight. cbn [negb]. unfold addDays.
  rewrite <- (not_blocked db staffId date "Staff marked as unavailable on this date").
  rewrite <- (not_blocked db staffId (date + 1)
                "Staff marked as unavailable on the next date (overnight shift spans two days)").
  rewrite <- !checkSingleDayAvailability_spec.
  destruct (blockedBy (exceptionsOn db staffId date) _) as [b1|] eqn:Hb1.
  { apply blockedBy_unavailable in Hb1. rewrite Hb1.
    split; [discriminate|]. intros [H _]. discriminate H. }
  destruct (available (checkSingleDayAvailability db staffId date startTime (mkTime 23 59)));
    cbn [negb available].
  2:{ split; [discriminate|]. intros (_ & H & _). discriminate H. }
  destruct (blockedBy (exceptionsOn db staffId (date + 1)) _) as [b2|] eqn:Hb2.
  { apply blockedBy_unavailable in Hb2. rewrite Hb2.
    split; [discriminate|]. intros (_ & _ & H & _). discriminate H. }
  destruct (available (checkSingleDayAvailability db staffId (date + 1) (mkTime 0 0) endTime));
    cbn [negb available].
  - split; auto.
  - split; [discriminate|]. intros (_ & _ & _ & H). discriminate H.
Qed.

Lemma overnight_availability_needs_both_days_witness :
  available (checkAvailability adjoiningRules "w1" monday (mkTime 22 0) (mkTime 6 0)) = true
  <-> ~ blockedOn adjoiningRules "w1" monday
      /\ containedInSingleRule adjoiningRules "w1" monday (mkTime 22 0) (mkTime 23 59)
      /\ ~ blockedOn adjoiningRules "w1" (monday + 1)
      /\ containedInSingleRule adjoiningRules "w1" (monday + 1) (mkTime 0 0) (mkTime 6 0).
Proof.
  apply (@overnight_availability_needs_both_days adjoiningRules "w1" monday
           (mkTime 22 0) (mkTime 6 0)).
  reflexivity.
Defined.

(* ------------------------------------------------------------------ *)
(** * Hours *)

(** X19. The two ways the engine measures a shift agree: the hours
    [shiftDurationHours] adds to the daily and weekly totals are the length
    of the absolute interval the overlap and rest checks use.  For
    well-formed times a shift lasts more than 0 and at most 24 hours, and a
    shift whose end equals its start counts as 24 hours. *)
Theorem duration_is_the_absolute_length (date : Date) (startTime endTime : Time) :
  wellFormedTime startTime -> wellFormedTime endTime ->
  Qeq (shiftDurationHours startTime endTime)
      (msToHours (absEnd date startTime endTime - absStart date startTime endTime))
  /\ (0 < shiftDurationHours startTime endTime)%Q
  /\ (shiftDurationHours startTime endTime <= inject_Z 24)%Q
  /\ (toMinutes startTime = toMinutes endTime ->
      Qeq (shiftDurationHours startTime endTime) (inject_Z 24)).
Proof.
  intros Hs He.
  pose proof (toMinutes_bounds Hs). pose proof (toMinutes_bounds He).
  unfold shiftDurationHours, msToHours, absEnd, absStart, absoluteRange.
  cbn [fst snd]. cbn zeta.
  destruct (toMinutes endTime - toMinutes startTime <=? 0) eqn:E1;
    destruct (toMinutes endTime <=? toMinutes startTime) eqn:E2;
    try apply Z.leb_le in E1; try apply Z.leb_gt in E1;
    try apply Z.leb_le in E2; try apply Z.leb_gt in E2; try lia;
    unfold Qeq, Qlt, Qle, Qdiv, Qmult, Qinv, inject_Z; cbn [Qnum Qden];
    (split; [|split; [|split; [|intros Heq]]]); cbn; lia.
Qed.

Lemma duration_is_the_absolute_length_witness :
  Qeq (shiftDurationHours (mkTime 22 0) (mkTime 6 0))
      (msToHours (absEnd monday (mkTime 22 0) (mkTime 6 0)
                  - absStart monday (mkTime 22 0) (mkTime 6 0))).
Proof.
  refine (proj1 (@duration_is_the_absolute_length monday (mkTime 22 0) (mkTime 6 0) _ _));
    split; simpl; lia.
Defined.

Lemma monday_of_week (date : Date) :
  date - (if getDay date =? 0 then 6 else getDay date - 1) = mondayOf date.
Proof.
  unfold getDay, mondayOf, weekOf.
  pose proof (Z.div_mod (date + 3) 7 ltac:(lia)) as Hdm.
  pose proof (Z.mod_pos_bound (date + 3) 7 ltac:(lia)) as Hb.
  assert (Hm : (date + 4) mod 7 = (if (date + 3) mod 7 =? 6 then 0 else (date + 3) mod 7 + 1)).
  { destruct ((date + 3) mod 7 =? 6) eqn:E.
    - apply Z.eqb_eq in E.
      replace (date + 4) with (7 * ((date + 3) / 7 + 1)) by lia.
      rewrite Z.mul_comm. apply Z.mod_mul. lia.
    - apply Z.eqb_neq in E. symmetry.
      apply (Z.mod_unique (date + 4) 7 ((date + 3) / 7)); lia. }
  rewrite Hm. destruct ((date + 3) mod 7 =? 6) eqn:E.
  - apply Z.eqb_eq in E. rewrite Z.eqb_refl. lia.
  - apply Z.eqb_neq in E.
    destruct ((date + 3) mod 7 + 1 =? 0) eqn:E0; [apply Z.eqb_eq in E0; lia|]. lia.
Qed.

(** X20. The weekly total runs over the Monday-to-Sunday week of the date:
    [getWeeklyHours] sums exactly the held shifts dated in the same such week
    as the date, whatever day of that week the date is, and the first day
    of that week is a Monday ([getDay] 1). *)
Theorem weekly_hours_run_monday_to_sunday (db : DB) (staffId : Id) (date : Date) :
  getWeeklyHours db staffId date
  = sumHours (filter (fun s => weekOf (Shift.date s) =? weekOf date)
                     (shiftsOfStaff db staffId))
  /\ getDay (mondayOf date) = 1
  /\ mondayOf date <= date <= mondayOf date + 6.
Proof.
  unfold getWeeklyHours. cbn zeta. rewrite monday_of_week. split; [|split].
  - f_equal. apply filter_ext. intros s. unfold mondayOf, weekOf.
    pose proof (Z.div_mod (date + 3) 7 ltac:(lia)) as Hdm.
    pose proof (Z.mod_pos_bound (date + 3) 7 ltac:(lia)) as Hb.
    pose proof (Z.div_mod (Shift.date s + 3) 7 ltac:(lia)) as Hdm'.
    pose proof (Z.mod_pos_bound (Shift.date s + 3) 7 ltac:(lia)) as Hb'.
    destruct ((Shift.date s + 3) / 7 =? (date + 3) / 7) eqn:E.
    + apply Z.eqb_eq in E. apply andb_true_iff. split; apply Z.leb_le; lia.
    + apply Z.eqb_neq in E. apply andb_false_iff.
      destruct (Z.lt_ge_cases ((Shift.date s + 3) / 7) ((date + 3) / 7)).
      * left. apply Z.leb_gt. lia.
      * right. apply Z.leb_gt. lia.
  - unfold getDay, mondayOf.
    replace (7 * weekOf date - 3 + 4) with (1 + weekOf date * 7) by lia.
    rewrite Z.mod_add by lia. reflexivity.
  - unfold mondayOf, weekOf.
    pose proof (Z.div_mod (date + 3) 7 ltac:(lia)) as Hdm.
    pose proof (Z.mod_pos_bound (date + 3) 7 ltac:(lia)) as Hb. lia.
Qed.

(* ------------------------------------------------------------------ *)
(** * Saved availability *)

Lemma filter_updateFirst {A : Type} (p : A -> bool) (f : A -> A) (rows : list A) :
  (forall r, p r = true -> p (f r) = true) ->
  filter p (updateFirst p f rows)
  = match filter p rows with
    | [] => []
    | r :: rest => f r :: rest
    end.
Proof.
  intros Hf. induction rows as [|r rows IH]; simpl; [reflexivity|].
  destruct (p r) eqn:E; simpl.
  - now rewrite (Hf r E).
  - now rewrite E.
Qed.

Lemma DayOfWeek_eqb_refl (a : DayOfWeek) : DayOfWeek_eqb a a = true.
Proof. now destruct a. Qed.

(** The rules of the staff member for the saved weekday after a successful
    [saveAvailabilityRule]: the saved window first, then whatever further
    rules the day had. *)
Lemma saved_rules (user : User.t) (day : DayOfWeek) (startTime endTime : Time)
  (w w' : World) :
  saveAvailabilityRule (Some user) day (Some startTime) (Some endTime) w = (Success, w') ->
  rulesFor (store w') (User.id user) day
  = AvailabilityRule.mk (User.id user) day startTime endTime
      :: tl (rulesFor (store w) (User.id user) day).
Proof.
  unfold saveAvailabilityRule.
  destruct (negb (Role_eqb (User.role user) STAFF)); [discriminate|].
  destruct (negb (timeColumn startTime && timeColumn endTime)); [discriminate|].
  fold (rulesFor (store w) (User.id user) day).
  destruct (hd_error (rulesFor (store w) (User.id user) day)) as [existing|] eqn:Hex;
    intros H; injection H as <-; cbn [store setStore]; unfold rulesFor in *;
    cbn [availabilityRules withAvailabilityRules].
  - rewrite filter_updateFirst.
    + destruct (filter _ (availabilityRules (store w))) as [|r rest] eqn:E;
        [discriminate Hex|]. cbn [tl]. f_equal.
      assert (Hr : In r (r :: rest)) by now left.
      rewrite <- E in Hr. apply filter_In in Hr. destruct Hr as [_ Hp].
      apply andb_true_iff in Hp. destruct Hp as [Hs Hd].
      apply id_eqb_eq in Hs. apply DayOfWeek_eqb_eq in Hd. now rewrite Hs, Hd.
    + intros r Hr. exact Hr.
  - rewrite filter_app. cbn [filter AvailabilityRule.staffId AvailabilityRule.dayOfWeek].
    rewrite id_eqb_refl, DayOfWeek_eqb_refl. cbn [andb].
    destruct (filter _ (availabilityRules (store w))); [reflexivity|discriminate Hex].
Qed.

(** X21. The engine sees what was saved.  After a successful
    [saveAvailabilityRule] for a weekday, a shift on that weekday that does
    not cross midnight, on a date without a blocking exception, is
    available when it lies inside the saved window; and when the staff
    member had at most one rule for that weekday before, it is available
    only then, and there is still at most one rule for that weekday. *)
Theorem saved_rule_is_what_the_engine_sees
  (user : User.t) (day : DayOfWeek) (ruleStart ruleEnd : Time) (w w' : World)
  (date : Date) (shiftStart shiftEnd : Time) :
  saveAvailabilityRule (Some user) day (Some ruleStart) (Some ruleEnd) w = (Success, w') ->
  snd (getDayInfo date) = day ->
  isOvernightShift shiftStart shiftEnd = false ->
  ~ blockedOn (store w') (User.id user) date ->
  (toMinutes ruleStart <= toMinutes shiftStart /\ toMinutes shiftEnd <= toMinutes ruleEnd ->
   available (checkAvailability (store w') (User.id user) date shiftStart shiftEnd) = true)
  /\ (atMostOneRule (store w) (User.id user) day ->
      atMostOneRule (store w') (User.id user) day
      /\ (available (checkAvailability (store w') (User.id user) date shiftStart shiftEnd)
          = true ->
          toMinutes ruleStart <= toMinutes shiftStart
          /\ toMinutes shiftEnd <= toMinutes ruleEnd)).
Proof.
  intros Hsave Hday Hsame Hfree.
  pose proof (saved_rules _ _ _ _ _ Hsave) as Hrules.
  assert (Hcheck : available (checkAvailability (store w') (User.id user) date
                                shiftStart shiftEnd) = true
                   <-> containedInSingleRule (store w') (User.id user) date
                         shiftStart shiftEnd).
  { unfold checkAvailability.
    apply (not_blocked _ _ _ "Staff marked as unavailable on this date") in Hfree.
    rewrite Hfree, Hsame. cbn [negb]. apply checkSingleDayAvailability_spec. }
  split.
  - intros [Hlo Hhi]. apply Hcheck.
    exists (AvailabilityRule.mk (User.id user) day ruleStart ruleEnd).
    assert (Hin : In (AvailabilityRule.mk (User.id user) day ruleStart ruleEnd)
                     (rulesFor (store w') (User.id user) day))
      by (rewrite Hrules; now left).
    apply rulesFor_In in Hin. destruct Hin as (Hin & _ & _).
    cbn [AvailabilityRule.staffId AvailabilityRule.dayOfWeek
         AvailabilityRule.startTime AvailabilityRule.endTime]. auto.
  - intros Hone. unfold atMostOneRule in *.
    assert (Hnil : tl (rulesFor (store w) (User.id user) day) = []).
    { destruct (rulesFor (store w) (User.id user) day) as [|r [|r' rest]];
        cbn in Hone |- *; try reflexivity; lia. }
    rewrite Hnil in Hrules. split.
    + rewrite Hrules. cbn. lia.
    + intros Hav. apply Hcheck in Hav.
      destruct Hav as (rule & Hin & Hst & Hd & Hlo & Hhi).
      assert (Hrule : In rule (rulesFor (store w') (User.id user) day)).
      { apply rulesFor_In. rewrite <- Hday. auto. }
      rewrite Hrules in Hrule. destruct Hrule as [<-|[]].
      cbn [AvailabilityRule.startTime AvailabilityRule.endTime] in Hlo, Hhi. auto.
Qed.

Lemma saved_rule_is_what_the_engine_sees_witness :
  available
    (checkAvailability
       (store (snd (saveAvailabilityRule (Some worker) MON (Some (mkTime 8 0))
                      (Some (mkTime 18 0)) (mkWorld gapRules []))))
       "w1" monday (mkTime 9 0) (mkTime 17 0)) = true.
Proof.
  refine (proj1 (@saved_rule_is_what_the_engine_sees worker MON (mkTime 8 0) (mkTime 18 0)
                   (mkWorld gapRules []) _ monday (mkTime 9 0) (mkTime 17 0)
                   eq_refl eq_refl eq_refl _) _).
  - intros (e & He & _). destruct He.
  - unfold toMinutes. cbn [hour minute]. lia.
Defined.

Lemma updateFirst_hits {A : Type} (p : A -> bool) (f : A -> A) (rows : list A) (x : A) :
  hd_error (filter p rows) = Some x -> In (f x) (updateFirst p f rows).
Proof.
  induction rows as [|r rows IH]; simpl; [discriminate|].
  destruct (p r) eqn:E; simpl.
  - intros H. injection H as ->. now left.
  - intros H. right. now apply IH.
Qed.

(** The exception the staff member has on the date after a successful save
    carries the saved flag. *)
Lemma saved_exception (user : User.t) (date : Date) (isAvailable : bool)
  (startTime endTime : option Time) (reason : option string) (w w' : World) :
  saveAvailabilityException (Some user) date isAvailable startTime endTime reason w
  = (Success, w') ->
  In (AvailabilityException.mk (User.id user) date isAvailable startTime endTime reason)
     (availabilityExceptions (store w')).
Proof.
  unfold saveAvailabilityException.
  destruct (negb (Role_eqb (User.role user) STAFF)); [discriminate|].
  match goal with |- context [if negb ?c then _ else _] =>
    destruct (negb c); [discriminate|] end.
  match goal with |- context [hd_error (filter ?p ?l)] =>
    set (mine := p); destruct (hd_error (filter mine l)) as [existing|] eqn:Hex end;
    intros H; injection H as <-; cbn [store setStore];
    cbn [availabilityExceptions withAvailabilityExceptions].
  - pose proof (hd_filter_In _ _ Hex) as [_ Hp].
    subst mine. cbn beta in Hp. apply andb_true_iff in Hp. destruct Hp as [Hs Hd].
    apply id_eqb_eq in Hs. apply Z.eqb_eq in Hd.
    pose proof (updateFirst_hits _
                  (fun e => AvailabilityException.mk (AvailabilityException.staffId e)
                                                     (AvailabilityException.date e)
                                                     isAvailable startTime endTime reason)
                  _ Hex) as Hin.
    cbn beta in Hin. rewrite Hs, Hd in Hin. exact Hin.
  - apply in_or_app. right. now left.
Qed.

(** X22. Marking a date unavailable blocks it.  After a successful
    [saveAvailabilityException] with [isAvailable = false], the engine finds
    the staff member unavailable for every shift on that date, whatever
    their recurring rules say, and for every shift of the day before that
    crosses midnight. *)
Theorem unavailable_exception_blocks_the_date
  (user : User.t) (date : Date) (windowStart windowEnd : option Time)
  (reason : option string) (w w' : World) (shiftStart shiftEnd : Time) :
  saveAvailabilityException (Some user) date false windowStart windowEnd reason w
  = (Success, w') ->
  available (checkAvailability (store w') (User.id user) date shiftStart shiftEnd) = false
  /\ (isOvernightShift shiftStart shiftEnd = true ->
      available (checkAvailability (store w') (User.id user) (date - 1) shiftStart shiftEnd)
      = false).
Proof.
  intros Hsave. apply saved_exception in Hsave.
  assert (Hblocked : blockedOn (store w') (User.id user) date).
  { eexists. split; [exact Hsave|]. cbn. auto. }
  assert (Hsome : forall dflt, blockedBy (exceptionsOn (store w') (User.id user) date) dflt
                               <> None).
  { intros dflt Hnone. apply not_blocked in Hnone. exact (Hnone Hblocked). }
  split.
  - unfold checkAvailability.
    destruct (blockedBy (exceptionsOn (store w') (User.id user) date) _) as [b|] eqn:Hb.
    + now apply blockedBy_unavailable in Hb.
    + exfalso. exact (Hsome _ Hb).
  - intros Hnight. unfold checkAvailability. rewrite Hnight. cbn [negb]. unfold addDays.
    replace (date - 1 + 1) with date by lia.
    destruct (blockedBy (exceptionsOn (store w') (User.id user) (date - 1)) _)
      as [b|] eqn:Hb; [now apply blockedBy_unavailable in Hb|].
    destruct (available (checkSingleDayAvailability (store w') (User.id user) (date - 1)
                           shiftStart (mkTime 23 59))); cbn [negb available];
      [|reflexivity].
    destruct (blockedBy (exceptionsOn (store w') (User.id user) date) _) as [b|] eqn:Hb2.
    + now apply blockedBy_unavailable in Hb2.
    + exfalso. exact (Hsome _ Hb2).
Qed.

Lemma unavailable_exception_blocks_the_date_witness :
  available
    (checkAvailability
       (store (snd (saveAvailabilityException (Some worker) monday false None None None
                      (mkWorld gapRules []))))
       "w1" monday (mkTime 9 0) (mkTime 12 0)) = false.
Proof.
  exact (proj1 (@unavailable_exception_blocks_the_date worker monday None None None
                  (mkWorld gapRules []) _ (mkTime 9 0) (mkTime 12 0) eq_refl)).
Defined.

(* ------------------------------------------------------------------ *)
(** * The overtime preview *)

Lemma sunday_of_week (date : Date) : date - getDay date = sundayOf date.
Proof.
  unfold getDay, sundayOf, sundayWeekOf.
  pose proof (Z.div_mod (date + 4) 7 ltac:(lia)) as Hdm. lia.
Qed.

(** X23. The overtime preview counts a different week than the engine.
    [analyzeAssignmentImpact] sums the held shifts of the Sunday-to-Saturday
    week of the date, while the engine's week starts at [mondayOf]: on any
    day but Sunday the engine's week starts one day after the preview's,
    and for a Sunday the engine's week starts six days before it and the
    preview's on it. *)
Theorem preview_week_runs_sunday_to_saturday
  (session : option User.t) (user : User.t) (staffId : Id) (date : Date)
  (shiftStart shiftEnd : Time) (d : DB) :
  requireRole [MANAGER; ADMIN] session = Some user ->
  currentWeeklyHours (analyzeAssignmentImpact session staffId date shiftStart shiftEnd d)
  = sumHoursBetween (filter (fun s => sundayWeekOf (Shift.date s) =? sundayWeekOf date)
                            (shiftsOfStaff d staffId))
  /\ getDay (sundayOf date) = 0
  /\ sundayOf date <= date <= sundayOf date + 6
  /\ (getDay date <> 0 -> mondayOf date = sundayOf date + 1)
  /\ (getDay date = 0 -> sundayOf date = date /\ mondayOf date = date - 6).
Proof.
  intros Hrole. unfold analyzeAssignmentImpact. rewrite Hrole.
  cbn [currentWeeklyHours]. rewrite sunday_of_week.
  pose proof (Z.div_mod (date + 4) 7 ltac:(lia)) as Hdm.
  pose proof (Z.mod_pos_bound (date + 4) 7 ltac:(lia)) as Hb.
  pose proof (monday_of_week date) as Hmon.
  pose proof (sunday_of_week date) as Hsun.
  split; [|split; [|split; [|split]]].
  - f_equal. apply filter_ext. intros s. unfold sundayOf, sundayWeekOf.
    pose proof (Z.div_mod (Shift.date s + 4) 7 ltac:(lia)) as Hdm'.
    pose proof (Z.mod_pos_bound (Shift.date s + 4) 7 ltac:(lia)) as Hb'.
    rewrite Z.geb_leb.
    destruct ((Shift.date s + 4) / 7 =? (date + 4) / 7) eqn:E.
    + apply Z.eqb_eq in E. apply andb_true_iff. split; apply Z.leb_le; lia.
    + apply Z.eqb_neq in E. apply andb_false_iff.
      destruct (Z.lt_ge_cases ((Shift.date s + 4) / 7) ((date + 4) / 7)).
      * left. apply Z.leb_gt. lia.
      * right. apply Z.leb_gt. lia.
  - unfold getDay, sundayOf.
    replace (7 * sundayWeekOf date - 4 + 4) with (0 + sundayWeekOf date * 7) by lia.
    rewrite Z.mod_add by lia. reflexivity.
  - unfold sundayOf, sundayWeekOf. lia.
  - intros Hday. rewrite <- Hmon, <- Hsun.
    destruct (getDay date =? 0) eqn:E; [apply Z.eqb_eq in E; contradiction|]. lia.
  - intros Hday. rewrite <- Hmon, <- Hsun. rewrite Hday. rewrite Z.eqb_refl. lia.
Qed.

Lemma preview_week_runs_sunday_to_saturday_witness :
  getDay (sundayOf monday) = 0 /\ mondayOf monday = sundayOf monday + 1.
Proof.
  pose proof (@preview_week_runs_sunday_to_saturday (Some manager) manager "w1" monday
                (mkTime 9 0) (mkTime 17 0) sixDaysWorked eq_refl)
    as (_ & Hsun & _ & Hmon & _).
  split; [exact Hsun|]. apply Hmon. discriminate.
Defined.

(* ------------------------------------------------------------------ *)
(** * Swap candidates *)

Lemma nonEmpty_In {A : Type} (xs : list A) (x : A) : In x xs -> nonEmpty xs = true.
Proof. destruct xs; [intros []|reflexivity]. Qed.

(** X24. Whoever [getEligibleStaffForSwap] offers for a shift that does not
    cross midnight passes the engine's skill, certification and
    availability checks for that shift, and is not the requester. *)
Theorem offered_candidates_pass_the_engine
  (emptyInArrayThrows : bool) (session : option User.t) (requester : User.t)
  (assignmentId : Id) (date : Date) (shiftStart shiftEnd : Time)
  (skillId locationId : Id) (d : DB) (staff : list User.t) (u : User.t) :
  wellFormedRules d ->
  wellFormedTime shiftStart -> wellFormedTime shiftEnd ->
  isOvernightShift shiftStart shiftEnd = false ->
  requireRole [STAFF] session = Some requester ->
  getEligibleStaffForSwap emptyInArrayThrows session assignmentId date
    shiftStart shiftEnd skillId locationId d = EligibleStaff staff ->
  In u staff ->
  User.id u <> User.id requester
  /\ checkSkillMatch d (User.id u) skillId = true
  /\ checkLocationCertification d (User.id u) locationId = true
  /\ available (checkAvailability d (User.id u) date shiftStart shiftEnd) = true.
Proof.
  intros Hrules Hs He Hsame Hrole. unfold getEligibleStaffForSwap. rewrite Hrole.
  cbn zeta.
  destruct (List.length (filter _ (staffSkills d)) =? 0)%nat;
    [intros H; injection H as <-; intros []|].
  destruct (List.length (filter _ (staffLocationCerts d)) =? 0)%nat;
    [intros H; injection H as <-; intros []|].
  match goal with |- (if ?c then _ else _) = _ -> _ => destruct c end; [discriminate|].
  match goal with |- (if ?c then _ else _) = _ -> _ => destruct c end;
    [intros H; injection H as <-; intros []|].
  match goal with |- (if ?c then _ else _) = _ -> _ => destruct c end;
    [intros H; injection H as <-; intros []|].
  intros H. injection H as <-. intros Hu.
  apply filter_In in Hu. destruct Hu as [_ Hu]. apply inArray_In in Hu.
  apply filter_In in Hu. destruct Hu as [Hu Hself].
  apply negb_true_iff, id_eqb_neq in Hself.
  apply filter_In in Hu. destruct Hu as [Hu _].
  apply filter_In in Hu. destruct Hu as [Hu Hfree].
  apply negb_true_iff in Hfree.
  pose proof Hu as Havail.
  apply in_map_iff in Hu. destruct Hu as (rule & Hrid & Hrule).
  apply filter_In in Hrule. destruct Hrule as [Hrule Hp].
  repeat (apply andb_true_iff in Hp; destruct Hp as [Hp ?]).
  apply DayOfWeek_eqb_eq in Hp.
  match goal with H : inArray _ _ = true |- _ => apply inArray_In in H; rename H into Hcert end.
  apply in_map_iff in Hcert. destruct Hcert as (cert & Hcid & Hcert).
  apply filter_In in Hcert. destruct Hcert as [Hcert Hq].
  apply andb_true_iff in Hq. destruct Hq as [Hloc Hskill].
  apply id_eqb_eq in Hloc. apply inArray_In in Hskill.
  apply in_map_iff in Hskill. destruct Hskill as (sk & Hsid & Hsk).
  apply filter_In in Hsk. destruct Hsk as [Hsk Hskid]. apply id_eqb_eq in Hskid.
  split; [exact Hself|]. split; [|split].
  - unfold checkSkillMatch. apply (nonEmpty_In _ sk). apply filter_In. split; [exact Hsk|].
    apply andb_true_iff. split; apply id_eqb_eq; congruence.
  - unfold checkLocationCertification. apply (nonEmpty_In _ cert).
    apply filter_In. split; [exact Hcert|].
    apply andb_true_iff. split; apply id_eqb_eq; congruence.
  - unfold checkAvailability.
    assert (Hnone : blockedBy (exceptionsOn d (User.id u) date)
                              "Staff marked as unavailable on this date" = None).
    { apply not_blocked. intros (e & Hin & Hst & Hd & Hav).
      apply not_true_iff_false in Hfree. apply Hfree. apply inArray_In.
      apply in_map_iff. exists e. split; [exact Hst|].
      apply filter_In. split; [|now rewrite Hav].
      apply filter_In. split; [exact Hin|].
      apply andb_true_iff. split; [now apply Z.eqb_eq|].
      apply inArray_In. now rewrite Hst. }
    rewrite Hnone, Hsame. cbn [negb]. apply checkSingleDayAvailability_spec.
    exists rule. destruct (Hrules rule Hrule) as [Hw1 Hw2].
    repeat split; auto.
    + apply (time_leb_spec Hw1 Hs). assumption.
    + apply (time_leb_spec He Hw2). assumption.
Qed.

Lemma offered_candidates_pass_the_engine_witness :
  available (checkAvailability swapCandidates "w2" monday (mkTime 9 0) (mkTime 17 0)) = true.
Proof.
  refine (proj2 (proj2 (proj2
            (@offered_candidates_pass_the_engine true (Some worker) worker "a1" monday
               (mkTime 9 0) (mkTime 17 0) "k1" "l1" swapCandidates [colleague] colleague
               _ _ _ eq_refl eq_refl eq_refl _)))).
  - intros r Hr. simpl in Hr.
    destruct Hr as [<-|[<-|[]]]; repeat split; cbn; lia.
  - split; cbn; lia.
  - split; cbn; lia.
  - now left.
Defined.

(* ------------------------------------------------------------------ *)
(** * Rest period: the date window *)

(** X25. The rest check reads only the staff member's shifts dated from the
    day before to two days after the candidate.  For well-formed times that
    window loses nothing as long as held shifts last at most 14 hours: any
    such shift, whatever its date, that ends less than 10 hours before the
    candidate starts or starts less than 10 hours after it ends makes
    [check10HourRest] report a violation. *)
Theorem rest_check_catches_every_short_gap
  (db : DB) (staffId : Id) (newShift : ShiftData.t) (s : Shift.t) :
  wellFormedTime (ShiftData.startTime newShift) ->
  wellFormedTime (ShiftData.endTime newShift) ->
  wellFormedShift s ->
  lastsAtMost 14 s ->
  In s (shiftsOfStaff db staffId) ->
  restGap (hoursAfterExisting newShift s) \/ restGap (hoursBeforeExisting newShift s) ->
  check10HourRest db staffId newShift <> None.
Proof.
  intros Hns Hne [Hss Hse] Hlen Hheld Hgap.
  unfold check10HourRest. apply restLoop_spec. exists s. split; [|exact Hgap].
  apply adjacentAssignments_In. apply shiftsOfStaff_In in Hheld.
  destruct Hheld as [Ha Hin]. split; [exact Ha|]. split; [exact Hin|].
  pose proof (toMinutes_bounds Hns). pose proof (toMinutes_bounds Hne).
  pose proof (toMinutes_bounds Hss). pose proof (toMinutes_bounds Hse).
  unfold restGap, hoursAfterExisting, hoursBeforeExisting in Hgap.
  rewrite !msToHours_Qlt_0, !msToHours_Qlt in Hgap.
  unfold lastsAtMost in Hlen.
  unfold absStart, absEnd, absoluteRange, dateBase in *. cbn [fst snd] in *.
  destruct (toMinutes (ShiftData.endTime newShift)
            <=? toMinutes (ShiftData.startTime newShift));
    destruct (toMinutes (Shift.endTime s) <=? toMinutes (Shift.startTime s)); lia.
Qed.

Lemma rest_check_catches_every_short_gap_witness :
  check10HourRest afterEvening "w1" (candidate (monday + 1) (mkTime 7 59) (mkTime 16 0))
  <> None.
Proof.
  apply (@rest_check_catches_every_short_gap afterEvening "w1"
           (candidate (monday + 1) (mkTime 7 59) (mkTime 16 0)) eveningShift).
  - split; cbn; lia.
  - split; cbn; lia.
  - repeat split; cbn; lia.
  - unfold lastsAtMost. vm_compute. discriminate.
  - vm_compute. now left.
  - left. split; vm_compute; reflexivity.
Defined.
